(** * nestjs-autodesk-acc: token lifecycle and upload pipeline

    A shallow embedding of [AutodeskAuthService] and of the current revision
    of [AutodeskDataManagementService] (src/autodesk-acc.module.ts), with the
    remote services (authorization endpoint, metadata API, object storage)
    kept abstract as a deterministic environment.

    Conventions.
    - A JavaScript string is a [string]; one character is one UTF-16 code
      unit below 256.
    - A JavaScript number is an integer [Z] (milliseconds, sizes, counts).
    - A value of type [any] (a response body, a resource) is a [Json].
    - Every [await] is sequential; an async method is a computation in the
      state-and-exception monad [M]. *)

From Stdlib Require Import String Ascii List ZArith NArith Lia Bool.
Import ListNotations.
Local Open Scope string_scope.
Local Open Scope Z_scope.

(** ** JavaScript values *)

Set Warnings "-register-all".

Inductive Json : Type :=
| JUndefined
| JNull
| JBool (b : bool)
| JNum (n : Z)
| JStr (s : string)
| JArr (items : list Json)
| JObj (fields : list (string * Json)).

(** Thrown values.  [AxiosError] carries [error.message] and
    [error.response?.data] ([JUndefined] when there was no response). *)
Inductive Exn : Type :=
| AxiosError (message : string) (responseData : Json)
| TypeError (message : string)
| BadRequestException (message : string)
| NotFoundException (message : string)
| UnauthorizedException (message : string)
| Error (message : string).

(** [error.message] *)
Definition message (e : Exn) : string :=
  match e with
  | AxiosError m _ | TypeError m | BadRequestException m
  | NotFoundException m | UnauthorizedException m | Error m => m
  end.

(** [error.response?.data] *)
Definition responseData (e : Exn) : Json :=
  match e with
  | AxiosError _ d => d
  | _ => JUndefined
  end.

Inductive Result (A : Type) : Type :=
| Ok (a : A)
| Err (e : Exn).
Arguments Ok {A} a.
Arguments Err {A} e.

(** JavaScript truthiness. *)
Definition truthy (v : Json) : bool :=
  match v with
  | JUndefined | JNull => false
  | JBool b => b
  | JNum n => negb (n =? 0)
  | JStr s => negb (s =? "")%string
  | JArr _ | JObj _ => true
  end.

(** [a || b] on values. *)
Definition jor (a b : Json) : Json := if truthy a then a else b.

Fixpoint lookup (k : string) (fs : list (string * Json)) : Json :=
  match fs with
  | [] => JUndefined
  | (k', v) :: rest => if (k =? k')%string then v else lookup k rest
  end.

(** [v.k] for the property names read by the services (none of them is a
    built-in property of a primitive or of an array). *)
Definition getProp (v : Json) (k : string) : Result Json :=
  match v with
  | JUndefined =>
      Err (TypeError ("Cannot read properties of undefined (reading '" ++ k ++ "')"))
  | JNull =>
      Err (TypeError ("Cannot read properties of null (reading '" ++ k ++ "')"))
  | JObj fs => Ok (lookup k fs)
  | _ => Ok JUndefined
  end.

(** [v?.k] *)
Definition getPropOpt (v : Json) (k : string) : Json :=
  match v with
  | JObj fs => lookup k fs
  | _ => JUndefined
  end.

(** [v[0]] *)
Definition index0 (v : Json) : Result Json :=
  match v with
  | JUndefined => Err (TypeError "Cannot read properties of undefined (reading '0')")
  | JNull => Err (TypeError "Cannot read properties of null (reading '0')")
  | JArr (x :: _) => Ok x
  | JStr (String c _) => Ok (JStr (String c ""))
  | JObj fs => Ok (lookup "0" fs)
  | _ => Ok JUndefined
  end.

(** [v === s] for a string [s]. *)
Definition strictEqStr (v : Json) (s : string) : bool :=
  match v with
  | JStr t => (t =? s)%string
  | _ => false
  end.

(** ** String primitives *)

(** [hay.includes(needle)] *)
Fixpoint includes (needle hay : string) : bool :=
  if String.prefix needle hay then true
  else match hay with
       | "" => false
       | String _ rest => includes needle rest
       end.

(** [s] between double quotes, as the log lines print names. *)
Definition quoted (s : string) : string :=
  String (ascii_of_nat 34) (s ++ String (ascii_of_nat 34) "").

(** [parts.join(sep)] *)
Definition join (sep : string) (parts : list string) : string :=
  String.concat sep parts.

Definition hexDigit (n : N) : ascii :=
  ascii_of_N (if (n <? 10)%N then 48 + n else 55 + n)%N.

Definition percentByte (b : N) : string :=
  String "%" (String (hexDigit (b / 16)) (String (hexDigit (b mod 16)) "")).

(** Percent-encoding of the UTF-8 bytes of one code unit below 256. *)
Definition percentUtf8 (c : N) : string :=
  if (c <? 128)%N then percentByte c
  else percentByte (192 + c / 64) ++ percentByte (128 + c mod 64).

Definition isAlnum (c : N) : bool :=
  ((48 <=? c) && (c <=? 57) || (65 <=? c) && (c <=? 90)
   || (97 <=? c) && (c <=? 122))%N.

(** Characters [encodeURIComponent] leaves alone: A-Z a-z 0-9 - _ . ! ~ * ' ( ) *)
Definition uriUnreserved (c : N) : bool :=
  isAlnum c
  || existsb (N.eqb c) [45; 95; 46; 33; 126; 42; 39; 40; 41]%N.

Fixpoint encodeURIComponent (s : string) : string :=
  match s with
  | "" => ""
  | String c rest =>
      (if uriUnreserved (N_of_ascii c) then String c ""
       else percentUtf8 (N_of_ascii c)) ++ encodeURIComponent rest
  end.

(** The application/x-www-form-urlencoded serializer of [URLSearchParams]:
    alphanumerics and * - . _ stay, a space becomes +, the rest is
    percent-encoded. *)
Definition formSafe (c : N) : bool :=
  isAlnum c || existsb (N.eqb c) [42; 45; 46; 95]%N.

Fixpoint formEncode (s : string) : string :=
  match s with
  | "" => ""
  | String c rest =>
      (if formSafe (N_of_ascii c) then String c ""
       else if (N_of_ascii c =? 32)%N then "+"
       else percentUtf8 (N_of_ascii c)) ++ formEncode rest
  end.

(** [new URLSearchParams({...})] is the list of its pairs in insertion
    order; [params.toString()]: *)
Definition URLSearchParams_toString (params : list (string * string)) : string :=
  join "&" (map (fun kv => formEncode (fst kv) ++ "=" ++ formEncode (snd kv)) params).

(** ** Interfaces (src/interfaces) *)

Record AutodeskTokenResponse : Type := {
  access_token : string;
  token_type : string;
  expires_in : Z;
  refresh_token : option string
}.

Record AutodeskAuthContext : Type := {
  accessToken : string;
  expiresAt : Z;
  refreshToken : option string
}.

Record AutodeskAccModuleOptions : Type := {
  clientId : string;
  clientSecret : string;
  callbackUrl : option string;
  scopes : option (list string);
  isGlobal : option bool;
  baseUrl : option string
}.

Record UploadFileOptions : Type := {
  fileName : string;
  folderId : string;
  projectId : string;
  fileBuffer : list Byte.byte;
  contentType : option string
}.

(** ** HTTP transport *)

Inductive Method : Type := GET | POST | PUT | DELETE.

Inductive Body : Type :=
| NoBody
| JsonBody (j : Json)
| BufferBody (b : list Byte.byte).

(** One axios request config.  [url] is the JavaScript value handed to
    axios; header values are JavaScript values too. *)
Record Request : Type := {
  baseURL : option string;
  method : Method;
  url : Json;
  headers : list (string * Json);
  params : list (string * Json);
  data : Body
}.

(** The settled promise of an axios call: fulfilled with [response.data], or
    rejected with an [AxiosError]. *)
Inductive AxiosResult (A : Type) : Type :=
| Fulfilled (responseBody : A)
| Rejected (message : string) (responseData : Json).
Arguments Fulfilled {A} responseBody.
Arguments Rejected {A} message responseData.

(** The environment of the services: the clock, the authorization endpoint
    (typed [post<AutodeskTokenResponse>]) and every other HTTP exchange; a
    request may change the environment, and so let time pass.
    [AUTODESK_AUTH_URL] and [AUTODESK_BASE_URL] come from src/constants,
    which the services import; they are parameters here. *)
Record Env (W : Type) : Type := {
  Date_now : W -> Z;
  tokenEndpoint : W -> string -> AxiosResult AutodeskTokenResponse * W;
  http : W -> Request -> AxiosResult Json * W;
  options : AutodeskAccModuleOptions;
  AUTODESK_AUTH_URL : string;
  AUTODESK_BASE_URL : string;
  (** built-ins that only feed log lines, left abstract:
      [`${v}`] and [JSON.stringify(v, null, 2)] *)
  String_of : Json -> string;
  JSON_stringify : Json -> string
}.
Arguments Date_now {W} _ _.
Arguments tokenEndpoint {W} _ _ _.
Arguments http {W} _ _ _.
Arguments options {W} _.
Arguments AUTODESK_AUTH_URL {W} _.
Arguments AUTODESK_BASE_URL {W} _.
Arguments String_of {W} _ _.
Arguments JSON_stringify {W} _ _.

(** What went over the wire, oldest first. *)
Inductive Event : Type :=
| TokenPost (body : string) (res : AxiosResult AutodeskTokenResponse)
| HttpCall (req : Request) (res : AxiosResult Json).

Inductive Level : Type := LOG | WARN | ERROR.

Record LogEntry : Type := {
  level : Level;
  text : string;
  detail : Json
}.

(** The two injectable services share one state: the private field
    [authContext] of the auth service, the environment, and the record of
    requests and of log lines. *)
Record State (W : Type) : Type := mkState {
  authContext : option AutodeskAuthContext;
  world : W;
  trace : list Event;
  logs : list LogEntry
}.
Arguments mkState {W} _ _ _ _.
Arguments authContext {W} _.
Arguments world {W} _.
Arguments trace {W} _.
Arguments logs {W} _.

(** ** The monad of async methods *)

Definition M (W A : Type) : Type := State W -> Result A * State W.

Definition ret {W A} (a : A) : M W A := fun s => (Ok a, s).

Definition throw {W A} (e : Exn) : M W A := fun s => (Err e, s).

Definition bind {W A B} (m : M W A) (k : A -> M W B) : M W B :=
  fun s =>
    match m s with
    | (Ok a, s') => k a s'
    | (Err e, s') => (Err e, s')
    end.

(** [try { body } catch (error) { handler }] *)
Definition try_catch {W A} (body : M W A) (handler : Exn -> M W A) : M W A :=
  fun s =>
    match body s with
    | (Ok a, s') => (Ok a, s')
    | (Err e, s') => handler e s'
    end.

(** A pure step that may throw. *)
Definition lift {W A} (r : Result A) : M W A := fun s => (r, s).

Declare Scope js_scope.
Delimit Scope js_scope with js.
Notation "x <- c1 ;; c2" := (bind c1 (fun x => c2))
  (at level 100, c1 at next level, right associativity) : js_scope.
Notation "c1 ;; c2" := (bind c1 (fun _ => c2))
  (at level 100, right associativity) : js_scope.
Local Open Scope js_scope.

Definition logger {W} (lv : Level) (msg : string) (d : Json) : M W unit :=
  fun s =>
    (Ok tt, mkState (authContext s) (world s) (trace s)
                    (logs s ++ [ {| level := lv; text := msg; detail := d |} ])).

(** [error.response?.data || error.message] *)
Definition errorDetail (e : Exn) : Json := jor (responseData e) (JStr (message e)).

Section Services.

Context {W : Type} (env : Env W).

(** ** AutodeskAuthService *)

(** [this.httpClient.post<AutodeskTokenResponse>('', body)] *)
Definition authClient_post (body : string) : M W AutodeskTokenResponse :=
  fun s =>
    let (res, w') := tokenEndpoint env (world s) body in
    let s' := mkState (authContext s) w' (trace s ++ [TokenPost body res]) (logs s) in
    match res with
    | Fulfilled t => (Ok t, s')
    | Rejected m d => (Err (AxiosError m d), s')
    end.

Definition now : M W Z := fun s => (Ok (Date_now env (world s)), s).

Definition get_authContext : M W (option AutodeskAuthContext) :=
  fun s => (Ok (authContext s), s).

Definition set_authContext (c : option AutodeskAuthContext) : M W unit :=
  fun s => (Ok tt, mkState c (world s) (trace s) (logs s)).

Definition isTokenValid : M W bool :=
  ctx <- get_authContext ;;
  match ctx with
  | None => ret false
  | Some c => t <- now ;; ret (t <? expiresAt c - 300000)
  end.

Definition defaultScopes : list string :=
  ["data:read"; "data:write"; "data:create"; "bucket:read"; "bucket:create"].

Definition clientCredentialsParams : list (string * string) :=
  let scopes :=
    match scopes (options env) with Some l => l | None => defaultScopes end in
  [ ("client_id", clientId (options env));
    ("client_secret", clientSecret (options env));
    ("grant_type", "client_credentials");
    ("scope", join " " scopes) ].

Definition authenticate : M W string :=
  try_catch
    (ctx <- get_authContext ;;
     valid <- match ctx with
              | Some _ => isTokenValid
              | None => ret false
              end ;;
     match ctx, valid with
     | Some c, true => ret (accessToken c)
     | _, _ =>
         response <- authClient_post (URLSearchParams_toString clientCredentialsParams) ;;
         t <- now ;;
         let fresh :=
           {| accessToken := access_token response;
              expiresAt := t + expires_in response * 1000;
              refreshToken := refresh_token response |} in
         set_authContext (Some fresh) ;;
         logger LOG "Successfully authenticated with Autodesk" JUndefined ;;
         ret (accessToken fresh)
     end)
    (fun error =>
       logger ERROR "Authentication failed" (errorDetail error) ;;
       throw (UnauthorizedException "Failed to authenticate with Autodesk ACC")).

Definition authorizationParams : list (string * string) :=
  let scopes :=
    match scopes (options env) with
    | Some l => l
    | None => ["data:read"; "data:write"; "data:create"]
    end in
  [ ("response_type", "code");
    ("client_id", clientId (options env));
    ("redirect_uri", match callbackUrl (options env) with
                     | Some u => u
                     | None => ""
                     end);
    ("scope", join " " scopes) ].

Definition getAuthorizationUrl (state : option string) : M W string :=
  let params :=
    match state with
    | Some st => if (st =? "")%string then authorizationParams
                 else (authorizationParams ++ [("state", st)])%list
    | None => authorizationParams
    end in
  ret ("https://developer.api.autodesk.com/authentication/v2/authorize?"
         ++ URLSearchParams_toString params).

Definition codeExchangeParams (code : string) : list (string * string) :=
  [ ("client_id", clientId (options env));
    ("client_secret", clientSecret (options env));
    ("grant_type", "authorization_code");
    ("code", code);
    ("redirect_uri", match callbackUrl (options env) with
                     | Some u => u
                     | None => ""
                     end) ].

Definition getAccessTokenFromCode (code : string) : M W AutodeskAuthContext :=
  try_catch
    (let params := codeExchangeParams code in
     response <- authClient_post (URLSearchParams_toString params) ;;
     t <- now ;;
     ret {| accessToken := access_token response;
            expiresAt := t + expires_in response * 1000;
            refreshToken := refresh_token response |})
    (fun error =>
       logger ERROR "Failed to exchange code for token" (errorDetail error) ;;
       throw (UnauthorizedException "Failed to exchange authorization code")).

(** [response.data.refresh_token || refreshToken] *)
Definition orRefreshToken (fromResponse : option string) (given : string) : string :=
  match fromResponse with
  | Some r => if (r =? "")%string then given else r
  | None => given
  end.

Definition refreshParams (refreshToken : string) : list (string * string) :=
  [ ("client_id", clientId (options env));
    ("client_secret", clientSecret (options env));
    ("grant_type", "refresh_token");
    ("refresh_token", refreshToken) ].

Definition refreshAccessToken (refreshToken : string) : M W AutodeskAuthContext :=
  try_catch
    (let params := refreshParams refreshToken in
     response <- authClient_post (URLSearchParams_toString params) ;;
     t <- now ;;
     ret {| accessToken := access_token response;
            expiresAt := t + expires_in response * 1000;
            refreshToken := Some (orRefreshToken (refresh_token response) refreshToken) |})
    (fun error =>
       logger ERROR "Failed to refresh token" (errorDetail error) ;;
       throw (UnauthorizedException "Failed to refresh access token")).

Definition getAccessToken : M W string := authenticate.

Definition clearAuth : M W unit := set_authContext None.

(** ** AutodeskDataManagementService (current revision) *)

(** One axios call: the environment answers, the exchange is recorded. *)
Definition axios_request (req : Request) : M W Json :=
  fun s =>
    let (res, w') := http env (world s) req in
    let s' := mkState (authContext s) w' (trace s ++ [HttpCall req res]) (logs s) in
    match res with
    | Fulfilled d => (Ok d, s')
    | Rejected m d => (Err (AxiosError m d), s')
    end.

(** [config.headers.Authorization = v] *)
Fixpoint setHeader (k : string) (v : Json) (hs : list (string * Json))
  : list (string * Json) :=
  match hs with
  | [] => [(k, v)]
  | (k', v') :: rest =>
      if (k =? k')%string then (k, v) :: rest else (k', v') :: setHeader k v rest
  end.

(** The request an [httpClient] call sends once the interceptor has put the
    bearer token on it. *)
Definition apiRequest (m : Method) (u : string) (hs : list (string * Json))
    (ps : list (string * Json)) (b : Body) (token : string) : Request :=
  {| baseURL := Some (AUTODESK_BASE_URL env);
     method := m;
     url := JStr u;
     headers := setHeader "Authorization" (JStr ("Bearer " ++ token)) hs;
     params := ps;
     data := b |}.

(** [this.httpClient.<method>(...)]: the request interceptor of the
    constructor runs first, then the call. *)
Definition httpClient_request (m : Method) (u : string) (hs : list (string * Json))
    (ps : list (string * Json)) (b : Body) : M W Json :=
  token <- getAccessToken ;;
  axios_request (apiRequest m u hs ps b token).

Definition httpClient_get (u : string) (ps : list (string * Json)) : M W Json :=
  httpClient_request GET u [] ps NoBody.

Definition httpClient_post (u : string) (body : Json) : M W Json :=
  httpClient_request POST u [] [] (JsonBody body).

End Services.

(** [const r = ...; k(r)] for a step that may throw. *)
Definition andThen {A B} (r : Result A) (k : A -> Result B) : Result B :=
  match r with
  | Ok a => k a
  | Err e => Err e
  end.

(** [items.filter(item => item.type === ty)]; the callback throws on a
    [null] or [undefined] element. *)
Fixpoint filterByType (ty : string) (items : list Json) : Result (list Json) :=
  match items with
  | [] => Ok []
  | x :: rest =>
      andThen (getProp x "type") (fun t =>
      andThen (filterByType ty rest) (fun kept =>
      Ok (if strictEqStr t ty then x :: kept else kept)))
  end.

(** [v.filter(item => item.type === ty)] on a value of type [any]. *)
Definition js_filterByType (ty : string) (v : Json) : Result (list Json) :=
  match v with
  | JArr items => filterByType ty items
  | JUndefined =>
      Err (TypeError "Cannot read properties of undefined (reading 'filter')")
  | JNull => Err (TypeError "Cannot read properties of null (reading 'filter')")
  | _ => Err (TypeError "response.data.data.filter is not a function")
  end.

(** The body of [getFolderContents] after the response arrived. *)
Definition folderContents (body : Json) : Result (list Json * list Json) :=
  andThen (getProp body "data") (fun d =>
  andThen (js_filterByType "folders" d) (fun folders =>
  andThen (js_filterByType "items" d) (fun items =>
  Ok (folders, items)))).

(** [parentType.includes(needle)]: substring test on a string, membership
    test on an array, not a function on anything else. *)
Definition js_includes (v : Json) (needle : string) : Result bool :=
  match v with
  | JStr s => Ok (includes needle s)
  | JArr items => Ok (existsb (fun x => strictEqStr x needle) items)
  | _ => Err (TypeError "parentType.includes is not a function")
  end.

(** [parentFolder.attributes?.extension?.type] *)
Definition parentExtensionType (parentFolder : Json) : Result Json :=
  andThen (getProp parentFolder "attributes") (fun attributes =>
  Ok (getPropOpt (getPropOpt attributes "extension") "type")).

(** The branch on the parent's type shared by folder and item creation:
    [ifBim] when it includes 'bim360', else [ifCore] when it includes
    'core', else [dflt]; [dflt] too when the type is falsy. *)
Definition byParentType {A} (parentFolder : Json) (dflt ifBim ifCore : A)
  : Result A :=
  andThen (parentExtensionType parentFolder) (fun parentType =>
  if truthy parentType then
    andThen (js_includes parentType "bim360") (fun bim =>
    if bim then Ok ifBim
    else andThen (js_includes parentType "core") (fun core =>
         if core then Ok ifCore else Ok dflt))
  else Ok dflt).

(** Step 2 of [createFolder]. *)
Definition folderExtensionType (parentFolder : Json) : Result string :=
  byParentType parentFolder
    "folders:autodesk.bim360:Folder"
    "folders:autodesk.bim360:Folder"
    "folders:autodesk.core:Folder".

(** The [itemType] and [versionType] of [createFirstVersion]. *)
Definition itemVersionTypes (parentFolder : Json) : Result (string * string) :=
  byParentType parentFolder
    ("items:autodesk.bim360:File", "versions:autodesk.bim360:File")
    ("items:autodesk.bim360:File", "versions:autodesk.bim360:File")
    ("items:autodesk.core:File", "versions:autodesk.core:File").

(** ** The storage-object URN

    [objectId.match(/urn:adsk\.objects:os\.object:([^/]+)\/(.+)/)]: the
    regular expression is not anchored, [[^/]+] is the longest run of
    characters other than a slash, and [.+] runs up to the first line
    terminator (of the code units below 256, LF and CR). *)

Definition urnPrefix : string := "urn:adsk.objects:os.object:".

Fixpoint stripPrefix (p s : string) : option string :=
  match p, s with
  | "", _ => Some s
  | String a p', String b s' => if Ascii.eqb a b then stripPrefix p' s' else None
  | String _ _, "" => None
  end.

(** The longest prefix whose characters satisfy [ok], and what follows. *)
Fixpoint spanChars (ok : ascii -> bool) (s : string) : string * string :=
  match s with
  | "" => ("", "")
  | String c rest =>
      if ok c then let (taken, left) := spanChars ok rest in (String c taken, left)
      else ("", s)
  end.

Definition notSlash (c : ascii) : bool := negb (Ascii.eqb c "/").

Definition notLineTerminator (c : ascii) : bool :=
  negb (Ascii.eqb c "010" || Ascii.eqb c "013").

(** A match starting at the first character of [s]: the two groups. *)
Definition matchUrnAt (s : string) : option (string * string) :=
  match stripPrefix urnPrefix s with
  | None => None
  | Some rest =>
      let (bucketKey, afterBucket) := spanChars notSlash rest in
      if (bucketKey =? "")%string then None
      else
        match stripPrefix "/" afterBucket with
        | None => None
        | Some rest' =>
            let (objectKey, _) := spanChars notLineTerminator rest' in
            if (objectKey =? "")%string then None
            else Some (bucketKey, objectKey)
        end
  end.

(** The leftmost match, as [String.prototype.match] finds it. *)
Fixpoint matchUrn (s : string) : option (string * string) :=
  match matchUrnAt s with
  | Some groups => Some groups
  | None =>
      match s with
      | "" => None
      | String _ rest => matchUrn rest
      end
  end.

(** [objectId.match(...)] on the value that arrives as [objectId]. *)
Definition js_matchUrn (objectId : Json) : Result (option (string * string)) :=
  match objectId with
  | JStr s => Ok (matchUrn s)
  | JUndefined =>
      Err (TypeError "Cannot read properties of undefined (reading 'match')")
  | JNull => Err (TypeError "Cannot read properties of null (reading 'match')")
  | _ => Err (TypeError "objectId.match is not a function")
  end.

(** The first lines of every storage-facing method: match, and throw when
    there is no match. *)
Definition decodeObjectId (objectId : Json) : Result (string * string) :=
  andThen (js_matchUrn objectId) (fun matches =>
  match matches with
  | None => Err (BadRequestException "Invalid object ID format")
  | Some groups => Ok groups
  end).

Fixpoint allChars (ok : ascii -> bool) (s : string) : bool :=
  match s with
  | "" => true
  | String c rest => ok c && allChars ok rest
  end.

(** The identifier format as the specification words it: the whole id is
    the prefix, a bucket without a slash, a slash, and an object. *)
Definition urnForm (id bucket object : string) : Prop :=
  id = urnPrefix ++ bucket ++ "/" ++ object
  /\ bucket <> "" /\ allChars notSlash bucket = true /\ object <> "".

(** ** Requests of the upload pipeline and of folder creation *)

Definition signedUploadPath (bucketKey objectKey : string) : string :=
  "/oss/v2/buckets/" ++ bucketKey ++ "/objects/"
    ++ encodeURIComponent objectKey ++ "/signeds3upload".

Definition storageBody (folderId fileName : string) : Json :=
  JObj [ ("jsonapi", JObj [("version", JStr "1.0")]);
         ("data", JObj [
            ("type", JStr "objects");
            ("attributes", JObj [("name", JStr fileName)]);
            ("relationships", JObj [
               ("target", JObj [
                  ("data", JObj [("type", JStr "folders");
                                 ("id", JStr folderId)])])])]) ].

Definition folderBody (parentFolderId folderName extensionType : string) : Json :=
  JObj [ ("jsonapi", JObj [("version", JStr "1.0")]);
         ("data", JObj [
            ("type", JStr "folders");
            ("attributes", JObj [
               ("name", JStr folderName);
               ("extension", JObj [("type", JStr extensionType);
                                   ("version", JStr "1.0")])]);
            ("relationships", JObj [
               ("parent", JObj [
                  ("data", JObj [("type", JStr "folders");
                                 ("id", JStr parentFolderId)])])])]) ].

(** The composite body of [createFirstVersion]: the item, and its first
    version under [included]. *)
Definition firstVersionBody (folderId fileName itemType versionType : string)
    (objectId : Json) : Json :=
  JObj [ ("jsonapi", JObj [("version", JStr "1.0")]);
         ("data", JObj [
            ("type", JStr "items");
            ("attributes", JObj [
               ("displayName", JStr fileName);
               ("extension", JObj [("type", JStr itemType);
                                   ("version", JStr "1.0")])]);
            ("relationships", JObj [
               ("tip", JObj [
                  ("data", JObj [("type", JStr "versions"); ("id", JStr "1")])]);
               ("parent", JObj [
                  ("data", JObj [("type", JStr "folders");
                                 ("id", JStr folderId)])])])]);
         ("included", JArr [
            JObj [
              ("type", JStr "versions");
              ("id", JStr "1");
              ("attributes", JObj [
                 ("name", JStr fileName);
                 ("extension", JObj [("type", JStr versionType);
                                     ("version", JStr "1.0")])]);
              ("relationships", JObj [
                 ("storage", JObj [
                    ("data", JObj [("type", JStr "objects");
                                   ("id", objectId)])])])]]) ].

(** [contentType = 'application/octet-stream'] *)
Definition contentTypeOrDefault (contentType : option string) : string :=
  match contentType with
  | Some ct => ct
  | None => "application/octet-stream"
  end.

(** The request of [axios.put(signedUrl, fileBuffer, { headers })]. *)
Definition transferRequest (signedUrl : Json) (fileBuffer : list Byte.byte)
    (contentType : option string) : Request :=
  {| baseURL := None;
     method := PUT;
     url := signedUrl;
     headers := [ ("Content-Type", JStr (contentTypeOrDefault contentType));
                  ("Content-Length", JNum (Z.of_nat (length fileBuffer))) ];
     params := [];
     data := BufferBody fileBuffer |}.

(** The body of [getSignedUploadUrl] after the response arrived. *)
Definition signedUpload (body : Json) : Result (Json * Json) :=
  andThen (getProp body "urls") (fun urls =>
  andThen (index0 urls) (fun signedUrl =>
  andThen (getProp body "uploadKey") (fun uploadKey =>
  Ok (signedUrl, uploadKey)))).

(** [folder.attributes?.name === folderName ||
     folder.attributes?.displayName === folderName] *)
Definition folderNamed (folderName : string) (folder : Json) : Result bool :=
  andThen (getProp folder "attributes") (fun attributes =>
  Ok (strictEqStr (getPropOpt attributes "name") folderName
      || strictEqStr (getPropOpt attributes "displayName") folderName)).

(** [folders.find(callback)] *)
Fixpoint findFolder (folderName : string) (folders : list Json)
  : Result (option Json) :=
  match folders with
  | [] => Ok None
  | f :: rest =>
      andThen (folderNamed folderName f) (fun hit =>
      if hit then Ok (Some f) else findFolder folderName rest)
  end.

Section DataManagement.

Context {W : Type} (env : Env W).

Definition getFolderContents (projectId folderId : string)
  : M W (list Json * list Json) :=
  try_catch
    (response <- httpClient_get env
       ("/data/v1/projects/" ++ projectId ++ "/folders/" ++ folderId ++ "/contents") [] ;;
     lift (folderContents response))
    (fun error =>
       logger ERROR ("Failed to fetch folder contents for " ++ folderId)
              (errorDetail error) ;;
       throw (Error "Failed to fetch folder contents")).

Definition getFolder (projectId folderId : string) : M W Json :=
  try_catch
    (response <- httpClient_get env
       ("/data/v1/projects/" ++ projectId ++ "/folders/" ++ folderId) [] ;;
     lift (getProp response "data"))
    (fun error =>
       logger ERROR ("Failed to fetch folder " ++ folderId) (errorDetail error) ;;
       throw (NotFoundException ("Folder " ++ folderId ++ " not found"))).

Definition createFolder (projectId parentFolderId folderName : string) : M W Json :=
  try_catch
    (parentFolder <- getFolder projectId parentFolderId ;;
     extensionType <- lift (folderExtensionType parentFolder) ;;
     logger LOG ("Creating folder with extension type: " ++ extensionType) JUndefined ;;
     let body := folderBody parentFolderId folderName extensionType in
     response <- httpClient_post env
       ("/data/v1/projects/" ++ projectId ++ "/folders") body ;;
     logger LOG ("Created folder: " ++ folderName) JUndefined ;;
     lift (getProp response "data"))
    (fun error =>
       logger ERROR ("Failed to create folder " ++ folderName) (errorDetail error) ;;
       (if truthy (responseData error)
        then logger ERROR "Error details:"
                    (JStr (JSON_stringify env (responseData error)))
        else ret tt) ;;
       throw (BadRequestException ("Failed to create folder: " ++ folderName))).

Definition createStorage (projectId folderId fileName : string) : M W Json :=
  let body := storageBody folderId fileName in
  response <- httpClient_post env
    ("/data/v1/projects/" ++ projectId ++ "/storage") body ;;
  lift (getProp response "data").

Definition getSignedUploadUrl (objectId : Json) : M W (Json * Json) :=
  try_catch
    (groups <- lift (decodeObjectId objectId) ;;
     let (bucketKey, objectKey) := groups : string * string in
     response <- httpClient_get env (signedUploadPath bucketKey objectKey)
                   [("minutesExpiration", JNum 30)] ;;
     lift (signedUpload response))
    (fun error =>
       logger ERROR "Failed to get signed upload URL" (errorDetail error) ;;
       throw error).

Definition uploadToSignedUrl (signedUrl : Json) (fileBuffer : list Byte.byte)
    (contentType : option string) : M W unit :=
  try_catch
    (axios_request env (transferRequest signedUrl fileBuffer contentType) ;;
     logger LOG "File uploaded to signed URL" JUndefined)
    (fun error =>
       logger ERROR "Failed to upload to signed URL" (JStr (message error)) ;;
       throw error).

Definition completeUpload (objectId uploadKey : Json) : M W unit :=
  try_catch
    (groups <- lift (decodeObjectId objectId) ;;
     let (bucketKey, objectKey) := groups : string * string in
     httpClient_post env (signedUploadPath bucketKey objectKey)
       (JObj [("uploadKey", uploadKey)]) ;;
     logger LOG "Upload completed successfully" JUndefined)
    (fun error =>
       logger ERROR "Failed to complete upload" (errorDetail error) ;;
       throw error).

(** The former transfer step, still a method of the class; nothing calls it. *)
Definition uploadToStorage (objectId : Json) (fileBuffer : list Byte.byte)
    (contentType : option string) : M W unit :=
  groups <- lift (decodeObjectId objectId) ;;
  let (bucketKey, objectKey) := groups : string * string in
  httpClient_request env PUT
    ("/oss/v2/buckets/" ++ bucketKey ++ "/objects/" ++ encodeURIComponent objectKey)
    [ ("Content-Type", JStr (contentTypeOrDefault contentType));
      ("Content-Length", JNum (Z.of_nat (length fileBuffer))) ]
    [] (BufferBody fileBuffer) ;;
  ret tt.

Definition createFirstVersion (projectId folderId fileName : string)
    (objectId : Json) : M W Json :=
  try_catch
    (parentFolder <- getFolder projectId folderId ;;
     types <- lift (itemVersionTypes parentFolder) ;;
     let (itemType, versionType) := types : string * string in
     logger LOG ("Creating item with type: " ++ itemType
                   ++ ", version type: " ++ versionType) JUndefined ;;
     let body := firstVersionBody folderId fileName itemType versionType objectId in
     response <- httpClient_post env
       ("/data/v1/projects/" ++ projectId ++ "/items") body ;;
     lift (getProp response "data"))
    (fun error =>
       logger ERROR ("Failed to create first version for " ++ fileName)
              (errorDetail error) ;;
       (if truthy (responseData error)
        then logger ERROR "Error details:"
                    (JStr (JSON_stringify env (responseData error)))
        else ret tt) ;;
       throw error).

Definition uploadFile (options : UploadFileOptions) : M W Json :=
  let fileName := fileName options in
  let folderId := folderId options in
  let projectId := projectId options in
  let fileBuffer := fileBuffer options in
  let contentType := contentType options in
  try_catch
    ((* Step 1: Create storage location *)
     storage <- createStorage projectId folderId fileName ;;
     logger LOG ("Created storage location for: " ++ fileName) JUndefined ;;
     (* Step 2: Get signed upload URL *)
     storageId <- lift (getProp storage "id") ;;
     grant <- getSignedUploadUrl storageId ;;
     let (signedUrl, uploadKey) := grant : Json * Json in
     (* Step 3: Upload file to signed URL *)
     uploadToSignedUrl signedUrl fileBuffer contentType ;;
     (* Step 4: Complete the upload *)
     storageId <- lift (getProp storage "id") ;;
     completeUpload storageId uploadKey ;;
     (* Step 5: Create first version of the item *)
     storageId <- lift (getProp storage "id") ;;
     item <- createFirstVersion projectId folderId fileName storageId ;;
     logger LOG ("Successfully uploaded file: " ++ fileName) JUndefined ;;
     ret item)
    (fun error =>
       logger ERROR ("Failed to upload file " ++ fileName) (errorDetail error) ;;
       throw (BadRequestException ("Failed to upload file: " ++ message error))).

Definition getOrCreateFolder (projectId parentFolderId folderName : string)
  : M W Json :=
  try_catch
    (contents <- getFolderContents projectId parentFolderId ;;
     let folders := fst contents in
     existingFolder <- lift (findFolder folderName folders) ;;
     match existingFolder with
     | Some folder =>
         folderIdValue <- lift (getProp folder "id") ;;
         logger LOG ("Found existing folder: " ++ quoted folderName ++ " (ID: "
                       ++ String_of env folderIdValue ++ ")") JUndefined ;;
         ret folder
     | None =>
         logger LOG ("Creating new folder: " ++ quoted folderName) JUndefined ;;
         createFolder projectId parentFolderId folderName
     end)
    (fun error =>
       logger ERROR ("Failed to get or create folder " ++ quoted folderName ++ ":")
              (JStr (message error)) ;;
       throw error).

End DataManagement.

(** ** AutodeskProjectService

    Its [httpClient] is built like the one of the data-management service:
    same base URL, same interceptor on the same [AutodeskAuthService]. *)

Module AutodeskProjectService.
Section Methods.

Context {W : Type} (env : Env W).

Definition getHubs : M W Json :=
  try_catch
    (response <- httpClient_get env "/project/v1/hubs" [] ;;
     lift (getProp response "data"))
    (fun error =>
       logger ERROR "Failed to fetch hubs" (errorDetail error) ;;
       throw (Error "Failed to fetch Autodesk hubs")).

Definition getHub (hubId : string) : M W Json :=
  try_catch
    (response <- httpClient_get env ("/project/v1/hubs/" ++ hubId) [] ;;
     lift (getProp response "data"))
    (fun error =>
       logger ERROR ("Failed to fetch hub " ++ hubId) (errorDetail error) ;;
       throw (NotFoundException ("Hub " ++ hubId ++ " not found"))).

Definition getProjects (hubId : string) : M W Json :=
  try_catch
    (response <- httpClient_get env ("/project/v1/hubs/" ++ hubId ++ "/projects") [] ;;
     lift (getProp response "data"))
    (fun error =>
       logger ERROR ("Failed to fetch projects for hub " ++ hubId) (errorDetail error) ;;
       throw (Error ("Failed to fetch projects for hub " ++ hubId))).

Definition getProject (hubId projectId : string) : M W Json :=
  try_catch
    (response <- httpClient_get env
       ("/project/v1/hubs/" ++ hubId ++ "/projects/" ++ projectId) [] ;;
     lift (getProp response "data"))
    (fun error =>
       logger ERROR ("Failed to fetch project " ++ projectId) (errorDetail error) ;;
       throw (NotFoundException ("Project " ++ projectId ++ " not found"))).

Definition getProjectTopFolders (hubId projectId : string) : M W Json :=
  try_catch
    (response <- httpClient_get env
       ("/project/v1/hubs/" ++ hubId ++ "/projects/" ++ projectId ++ "/topFolders") [] ;;
     lift (getProp response "data"))
    (fun error =>
       logger ERROR ("Failed to fetch top folders for project " ++ projectId)
              (errorDetail error) ;;
       throw (Error ("Failed to fetch top folders for project " ++ projectId))).

End Methods.
End AutodeskProjectService.

(** ** AutodeskDataManagementService: items, and folders by name *)

(** [projectId.split('.')[0]] *)
Definition extractHubId (projectId : string) : string :=
  fst (spanChars (fun c => negb (Ascii.eqb c ".")) projectId).

Definition nullish (v : Json) : bool :=
  match v with
  | JUndefined | JNull => true
  | _ => false
  end.

(** [v.length] *)
Definition js_length (v : Json) : Result Json :=
  match v with
  | JUndefined =>
      Err (TypeError "Cannot read properties of undefined (reading 'length')")
  | JNull => Err (TypeError "Cannot read properties of null (reading 'length')")
  | JArr items => Ok (JNum (Z.of_nat (length items)))
  | JStr s => Ok (JNum (Z.of_nat (String.length s)))
  | JObj fs => Ok (lookup "length" fs)
  | _ => Ok JUndefined
  end.

(** The elements [...v] and [for (const x of v)] go through: those of an
    array, the characters of a string; nothing else is iterable. *)
Definition js_iterate (v : Json) : Result (list Json) :=
  match v with
  | JArr items => Ok items
  | JStr s => Ok (map (fun c => JStr (String c "")) (list_ascii_of_string s))
  | _ =>
      Err (TypeError
             "Spread syntax requires ...iterable[Symbol.iterator] to be a function")
  end.

(** [folder.attributes?.name || folder.attributes?.displayName || 'Unknown'] *)
Definition folderLabel (folder : Json) : Result Json :=
  andThen (getProp folder "attributes") (fun attributes =>
  Ok (jor (jor (getPropOpt attributes "name") (getPropOpt attributes "displayName"))
          (JStr "Unknown"))).

(** One entry of [listAllFoldersWithIds]: [{ name, id, path }]. *)
Definition folderEntry (folder : Json) : Result Json :=
  andThen (folderLabel folder) (fun name =>
  andThen (getProp folder "id") (fun id =>
  andThen (folderLabel folder) (fun path =>
  Ok (JObj [("name", name); ("id", id); ("path", path)])))).

(** [xs.map(f)] for a callback that may throw. *)
Fixpoint mapResult {A B} (f : A -> Result B) (xs : list A) : Result (list B) :=
  match xs with
  | [] => Ok []
  | x :: rest =>
      andThen (f x) (fun y =>
      andThen (mapResult f rest) (fun ys => Ok (y :: ys)))
  end.

(** [xs.forEach((x, index) => body)], from [index] on. *)
Fixpoint forEach {W A} (index : nat) (xs : list A) (body : A -> nat -> M W unit)
  : M W unit :=
  match xs with
  | [] => ret tt
  | x :: rest => body x index ;; forEach (S index) rest body
  end.

(** [v.forEach(...)] on a value of type [any]. *)
Definition js_forEach {W} (v : Json) (body : Json -> nat -> M W unit) : M W unit :=
  match v with
  | JArr items => forEach 0 items body
  | JUndefined =>
      throw (TypeError "Cannot read properties of undefined (reading 'forEach')")
  | JNull => throw (TypeError "Cannot read properties of null (reading 'forEach')")
  | _ => throw (TypeError "topFolders.forEach is not a function")
  end.

(** Methods that call themselves.  A call runs with the array [allFolders]
    of the method it is in, which [push] extends in place and which keeps
    what was pushed when a later step throws; it gives no outcome at all
    when the depth of the calls exceeds the fuel. *)
Definition Call (W A : Type) : Type :=
  list Json -> State W -> option (Result A * list Json * State W).

Definition retC {W A} (a : A) : Call W A := fun frame s => Some (Ok a, frame, s).

Definition throwC {W A} (e : Exn) : Call W A := fun frame s => Some (Err e, frame, s).

Definition outOfFuel {W A} : Call W A := fun _ _ => None.

Definition bindC {W A B} (m : Call W A) (k : A -> Call W B) : Call W B :=
  fun frame s =>
    match m frame s with
    | None => None
    | Some (Ok a, frame', s') => k a frame' s'
    | Some (Err e, frame', s') => Some (Err e, frame', s')
    end.

Definition try_catchC {W A} (body : Call W A) (handler : Exn -> Call W A) : Call W A :=
  fun frame s =>
    match body frame s with
    | None => None
    | Some (Ok a, frame', s') => Some (Ok a, frame', s')
    | Some (Err e, frame', s') => handler e frame' s'
    end.

(** [await m] for a method that does not call itself. *)
Definition await {W A} (m : M W A) : Call W A :=
  fun frame s => let (r, s') := m s in Some (r, frame, s').

(** [allFolders.push(...xs)] *)
Definition push {W} (xs : list Json) : Call W unit :=
  fun frame s => Some (Ok tt, (frame ++ xs)%list, s).

(** [allFolders], read. *)
Definition allFolders {W} : Call W (list Json) := fun frame s => Some (Ok frame, frame, s).

(** [const allFolders = []; m]: the body of a method, with an array of its
    own; the array of the caller comes back as it was. *)
Definition fresh {W A} (m : Call W A) : Call W A :=
  fun frame s =>
    match m [] s with
    | None => None
    | Some (r, _, s') => Some (r, frame, s')
    end.

(** [for (const x of xs) { body }] *)
Fixpoint forOf {W A} (xs : list A) (body : A -> Call W unit) : Call W unit :=
  match xs with
  | [] => retC tt
  | x :: rest => bindC (body x) (fun _ => forOf rest body)
  end.

(** A method called from outside. *)
Definition run {W A} (m : Call W A) (s : State W) : option (Result A * State W) :=
  match m [] s with
  | None => None
  | Some (r, _, s') => Some (r, s')
  end.

Declare Scope call_scope.
Delimit Scope call_scope with call.
Notation "x <- c1 ;; c2" := (bindC c1 (fun x => c2))
  (at level 100, c1 at next level, right associativity) : call_scope.
Notation "c1 ;; c2" := (bindC c1 (fun _ => c2))
  (at level 100, right associativity) : call_scope.

Section FoldersByName.

Context {W : Type} (env : Env W).

Definition httpClient_delete (u : string) : M W Json :=
  httpClient_request env DELETE u [] [] NoBody.

(** [extensionType] is [None] when the argument is left out. *)
Definition createFolderWithType (projectId parentFolderId folderName : string)
    (extensionType : option string) : M W Json :=
  let extensionType :=
    match extensionType with
    | Some t => t
    | None => "folders:autodesk.bim360:Folder"
    end in
  try_catch
    (let body := folderBody parentFolderId folderName extensionType in
     logger LOG ("Creating folder with type: " ++ extensionType) JUndefined ;;
     response <- httpClient_post env
       ("/data/v1/projects/" ++ projectId ++ "/folders") body ;;
     logger LOG ("Created folder: " ++ folderName) JUndefined ;;
     lift (getProp response "data"))
    (fun error =>
       logger ERROR ("Failed to create folder " ++ folderName) (errorDetail error) ;;
       (if truthy (responseData error)
        then logger ERROR "Error details:"
                    (JStr (JSON_stringify env (responseData error)))
        else ret tt) ;;
       throw (BadRequestException ("Failed to create folder: " ++ folderName))).

Definition getItem (projectId itemId : string) : M W Json :=
  try_catch
    (response <- httpClient_get env
       ("/data/v1/projects/" ++ projectId ++ "/items/" ++ itemId) [] ;;
     lift (getProp response "data"))
    (fun error =>
       logger ERROR ("Failed to fetch item " ++ itemId) (errorDetail error) ;;
       throw (NotFoundException ("Item " ++ itemId ++ " not found"))).

Definition deleteItem (projectId itemId : string) : M W unit :=
  try_catch
    (httpClient_delete ("/data/v1/projects/" ++ projectId ++ "/items/" ++ itemId) ;;
     logger LOG ("Deleted item: " ++ itemId) JUndefined)
    (fun error =>
       logger ERROR ("Failed to delete item " ++ itemId) (errorDetail error) ;;
       throw (BadRequestException "Failed to delete item")).

Definition searchItems (projectId filter : string) : M W Json :=
  try_catch
    (response <- httpClient_get env
       ("/data/v1/projects/" ++ projectId ++ "/items") [("filter", JStr filter)] ;;
     lift (getProp response "data"))
    (fun error =>
       logger ERROR ("Failed to search items in project " ++ projectId)
              (errorDetail error) ;;
       throw (Error "Failed to search items")).

(** [`${v}`] for a value the source types as a string. *)
Definition templateOf (v : Json) : string :=
  match v with
  | JStr s => s
  | _ => String_of env v
  end.

(** The callback of [topFolders.forEach]. *)
Definition logTopFolder (folder : Json) (_ : nat) : M W unit :=
  folderName <- lift (folderLabel folder) ;;
  folderIdValue <- lift (getProp folder "id") ;;
  logger LOG ("  - " ++ quoted (templateOf folderName)
                ++ " (" ++ templateOf folderIdValue ++ ")") JUndefined.

Definition getProjectTopFolders (projectId : string) : M W Json :=
  try_catch
    (logger LOG ("Fetching top-level folders for project: " ++ projectId) JUndefined ;;
     response <- httpClient_get env
       ("/project/v1/hubs/" ++ extractHubId projectId
          ++ "/projects/" ++ projectId ++ "/topFolders") [] ;;
     topFolders <- lift (getProp response "data") ;;
     count <- lift (js_length topFolders) ;;
     logger LOG ("Found " ++ templateOf count ++ " top-level folder(s)") JUndefined ;;
     js_forEach topFolders logTopFolder ;;
     ret topFolders)
    (fun error =>
       logger ERROR ("Failed to get top folders for project " ++ projectId)
              (errorDetail error) ;;
       throw error).

(** The body of both loops of [getAllProjectFolders]; [recur] is the
    method itself. *)
Definition subFoldersInto (recur : Json -> Call W (list Json)) (folder : Json)
  : Call W unit :=
  try_catchC
    (folderIdValue <- await (lift (getProp folder "id")) ;;
     subFolders <- recur folderIdValue ;;
     push subFolders)%call
    (fun error =>
       folderIdValue <- await (lift (getProp folder "id")) ;;
       await (logger WARN ("Failed to get subfolders for " ++ templateOf folderIdValue ++ ":")
                     (JStr (message error))))%call.

(** [rootFolderId] is [JUndefined] when the argument is left out. *)
Fixpoint getAllProjectFolders (fuel : nat) (projectId : string) (rootFolderId : Json)
    {struct fuel} : Call W (list Json) :=
  match fuel with
  | O => outOfFuel
  | S fuel' =>
      let subFolders := subFoldersInto (getAllProjectFolders fuel' projectId) in
      try_catchC
        (fresh
           (returned <-
              (if truthy rootFolderId then retC None
               else
                 try_catchC
                   (topFolders <- await (getProjectTopFolders projectId) ;;
                    spread <- await (lift (js_iterate topFolders)) ;;
                    push spread ;;
                    folders <- await (lift (js_iterate topFolders)) ;;
                    forOf folders subFolders ;;
                    result <- allFolders ;;
                    retC (Some result))
                   (fun error =>
                      await (logger WARN
                               "Failed to get top folders, trying alternative method"
                               JUndefined) ;;
                      retC None)) ;;
            match returned with
            | Some result => retC result
            | None =>
                let folderId := jor rootFolderId (JStr projectId) in
                await (logger LOG ("Fetching folders from: " ++ templateOf folderId)
                              JUndefined) ;;
                contents <- await (getFolderContents env projectId (templateOf folderId)) ;;
                let folders := fst contents in
                push folders ;;
                forOf folders subFolders ;;
                allFolders
            end))%call
        (fun error =>
           await (logger ERROR ("Failed to get all folders for project " ++ projectId)
                         (errorDetail error)) ;;
           throwC error)%call
  end.

(** [searchRootId] is [JUndefined] when the argument is left out. *)
Definition findFolderByName (fuel : nat) (projectId folderName : string)
    (searchRootId : Json) : Call W Json :=
  try_catchC
    (await (logger LOG ("Searching for folder: " ++ quoted folderName
                          ++ " in project " ++ projectId) JUndefined) ;;
     folders <- getAllProjectFolders fuel projectId searchRootId ;;
     found <- await (lift (findFolder folderName folders)) ;;
     let foundFolder := match found with Some folder => folder | None => JUndefined end in
     (if truthy foundFolder
      then
        folderIdValue <- await (lift (getProp foundFolder "id")) ;;
        await (logger LOG ("Found folder " ++ quoted folderName ++ " with ID: "
                             ++ templateOf folderIdValue) JUndefined)
      else await (logger LOG ("Folder " ++ quoted folderName ++ " not found") JUndefined)) ;;
     retC (jor foundFolder JNull))%call
    (fun error =>
       await (logger ERROR ("Error searching for folder " ++ quoted folderName ++ ":")
                     (JStr (message error))) ;;
       retC JNull)%call.

(** The callback of [folderList.forEach]. *)
Definition logEntry (entry : Json) (index : nat) : M W unit :=
  name <- lift (getProp entry "name") ;;
  idValue <- lift (getProp entry "id") ;;
  logger LOG (templateOf (JNum (Z.of_nat index + 1)) ++ ". "
                ++ quoted (templateOf name) ++ " -> " ++ templateOf idValue) JUndefined.

Definition listAllFoldersWithIds (fuel : nat) (projectId : string) : Call W (list Json) :=
  try_catchC
    (await (logger LOG "=== LISTING ALL FOLDERS ===" JUndefined) ;;
     folders <- getAllProjectFolders fuel projectId JUndefined ;;
     folderList <- await (lift (mapResult folderEntry folders)) ;;
     await (forEach 0 folderList logEntry) ;;
     await (logger LOG ("Total folders found: "
                          ++ templateOf (JNum (Z.of_nat (length folderList)))) JUndefined) ;;
     await (logger LOG "===========================" JUndefined) ;;
     retC folderList)%call
    (fun error =>
       await (logger ERROR "Failed to list folders:" (JStr (message error))) ;;
       throwC error)%call.

End FoldersByName.

(** ** AutodeskDataManagementService: a folder at the root *)

(** [items.find(callback)] for a callback that may throw. *)
Fixpoint findFirst (test : Json -> Result bool) (items : list Json)
  : Result (option Json) :=
  match items with
  | [] => Ok None
  | f :: rest =>
      andThen (test f) (fun hit =>
      if hit then Ok (Some f) else findFirst test rest)
  end.

(** The callback of [topFolders.find] in [createRootFolder]. *)
Definition standardRoot (f : Json) : Result bool :=
  andThen (getProp f "attributes") (fun attributes =>
  let name := jor (jor (getPropOpt attributes "name")
                       (getPropOpt attributes "displayName")) (JStr "") in
  Ok (strictEqStr name "Plans" || strictEqStr name "Project Files"
      || strictEqStr name "Plan")).

(** The body of a folder creation under a parent whose id is any value. *)
Definition folderBodyUnder (parentFolderId : Json) (folderName extensionType : string)
  : Json :=
  JObj [ ("jsonapi", JObj [("version", JStr "1.0")]);
         ("data", JObj [
            ("type", JStr "folders");
            ("attributes", JObj [
               ("name", JStr folderName);
               ("extension", JObj [("type", JStr extensionType);
                                   ("version", JStr "1.0")])]);
            ("relationships", JObj [
               ("parent", JObj [
                  ("data", JObj [("type", JStr "folders");
                                 ("id", parentFolderId)])])])]) ].

Section RootFolder.

Context {W : Type} (env : Env W).

(** [createFolder] as [createRootFolder] calls it: [parentFolderId] is the
    [id] member of a top folder, whatever value that is; it goes into the
    body as it is, and into the path and the messages as a string. *)
Definition createFolderUnder (projectId : string) (parentFolderId : Json)
    (folderName : string) : M W Json :=
  try_catch
    (parentFolder <- getFolder env projectId (templateOf env parentFolderId) ;;
     extensionType <- lift (folderExtensionType parentFolder) ;;
     logger LOG ("Creating folder with extension type: " ++ extensionType) JUndefined ;;
     let body := folderBodyUnder parentFolderId folderName extensionType in
     response <- httpClient_post env
       ("/data/v1/projects/" ++ projectId ++ "/folders") body ;;
     logger LOG ("Created folder: " ++ folderName) JUndefined ;;
     lift (getProp response "data"))
    (fun error =>
       logger ERROR ("Failed to create folder " ++ folderName) (errorDetail error) ;;
       (if truthy (responseData error)
        then logger ERROR "Error details:"
                    (JStr (JSON_stringify env (responseData error)))
        else ret tt) ;;
       throw (BadRequestException ("Failed to create folder: " ++ folderName))).

(** The result of the inner [try] is [Some created] where the source
    returns, [None] where it goes on to the direct creation. *)
Definition createRootFolder (projectId folderName : string) : M W Json :=
  try_catch
    (logger LOG ("Creating folder " ++ quoted folderName ++ " at project root")
            JUndefined ;;
     returned <-
       try_catch
         (topFolders <- getProjectTopFolders env projectId ;;
          match topFolders with
          | JArr items =>
              found <- lift (findFirst standardRoot items) ;;
              let rootFolder := match found with Some f => f | None => JUndefined end in
              if truthy rootFolder then
                attributes <- lift (getProp rootFolder "attributes") ;;
                idValue <- lift (getProp rootFolder "id") ;;
                logger LOG ("Found root folder: "
                              ++ templateOf env (getPropOpt attributes "name")
                              ++ " (" ++ templateOf env idValue ++ ")") JUndefined ;;
                created <- createFolderUnder projectId idValue folderName ;;
                ret (Some created)
              else if 0 <? Z.of_nat (length items) then
                let firstFolder := match items with x :: _ => x | [] => JUndefined end in
                attributes <- lift (getProp firstFolder "attributes") ;;
                idValue <- lift (getProp firstFolder "id") ;;
                logger LOG ("Using first top folder: "
                              ++ templateOf env (getPropOpt attributes "name")
                              ++ " (" ++ templateOf env idValue ++ ")") JUndefined ;;
                created <- createFolderUnder projectId idValue folderName ;;
                ret (Some created)
              else ret None
          | JUndefined =>
              throw (TypeError "Cannot read properties of undefined (reading 'find')")
          | JNull => throw (TypeError "Cannot read properties of null (reading 'find')")
          | _ => throw (TypeError "topFolders.find is not a function")
          end)
         (fun _ =>
            logger WARN "Failed to get top folders, trying direct creation" JUndefined ;;
            ret None) ;;
     match returned with
     | Some created => ret created
     | None =>
         let body := folderBody projectId folderName "folders:autodesk.bim360:Folder" in
         response <- httpClient_post env
           ("/data/v1/projects/" ++ projectId ++ "/folders") body ;;
         logger LOG ("Created folder at project root: " ++ folderName) JUndefined ;;
         lift (getProp response "data")
     end)
    (fun error =>
       logger ERROR ("Failed to create folder at root: " ++ folderName)
              (errorDetail error) ;;
       (if truthy (responseData error)
        then logger ERROR "Error details:"
                    (JStr (JSON_stringify env (responseData error)))
        else ret tt) ;;
       throw (BadRequestException ("Failed to create folder at root: " ++ folderName))).

End RootFolder.

(** ** The upload of the earlier revision

    The file holds the data-management service three times over; the
    second copy differs from the last in the grant, which returns the URL
    alone, in the finalize, which posts an empty key, and in the first
    version, which is always of the core type and does not read the
    parent.  [createStorage] and [uploadToSignedUrl] are the same. *)

Module EarlierRevision.
Section Methods.

Context {W : Type} (env : Env W).

Definition getSignedUploadUrl (objectId : Json) : M W Json :=
  try_catch
    (groups <- lift (decodeObjectId objectId) ;;
     let (bucketKey, objectKey) := groups : string * string in
     response <- httpClient_get env (signedUploadPath bucketKey objectKey)
                   [("minutesExpiration", JNum 30)] ;;
     lift (andThen (getProp response "urls") index0))
    (fun error =>
       logger ERROR "Failed to get signed upload URL" (errorDetail error) ;;
       throw error).

Definition completeUpload (objectId : Json) : M W unit :=
  try_catch
    (groups <- lift (decodeObjectId objectId) ;;
     let (bucketKey, objectKey) := groups : string * string in
     httpClient_post env (signedUploadPath bucketKey objectKey)
       (JObj [("uploadKey", JStr "")]) ;;
     logger LOG "Upload completed successfully" JUndefined)
    (fun error =>
       logger ERROR "Failed to complete upload" (errorDetail error) ;;
       throw error).

Definition createFirstVersion (projectId folderId fileName : string)
    (objectId : Json) : M W Json :=
  let body := firstVersionBody folderId fileName
                "items:autodesk.core:File" "versions:autodesk.core:File" objectId in
  response <- httpClient_post env
    ("/data/v1/projects/" ++ projectId ++ "/items") body ;;
  lift (getProp response "data").

Definition uploadFile (options : UploadFileOptions) : M W Json :=
  let fileName := fileName options in
  let folderId := folderId options in
  let projectId := projectId options in
  let fileBuffer := fileBuffer options in
  let contentType := contentType options in
  try_catch
    (storage <- createStorage env projectId folderId fileName ;;
     logger LOG ("Created storage location for: " ++ fileName) JUndefined ;;
     storageId <- lift (getProp storage "id") ;;
     signedUrl <- getSignedUploadUrl storageId ;;
     uploadToSignedUrl env signedUrl fileBuffer contentType ;;
     storageId <- lift (getProp storage "id") ;;
     completeUpload storageId ;;
     storageId <- lift (getProp storage "id") ;;
     item <- createFirstVersion projectId folderId fileName storageId ;;
     logger LOG ("Successfully uploaded file: " ++ fileName) JUndefined ;;
     ret item)
    (fun error =>
       logger ERROR ("Failed to upload file " ++ fileName) (errorDetail error) ;;
       throw (BadRequestException ("Failed to upload file: " ++ message error))).

End Methods.
End EarlierRevision.

(** ** The upload of the first revision

    The first copy of the service uploads in three steps, through
    [uploadToStorage]; its [createStorage] and [uploadToStorage] are those
    of the last copy, its [createFirstVersion] that of the second. *)

(** [`${error}`]: the name of the class, then the message if there is one. *)
Definition Exn_toString (e : Exn) : string :=
  let name :=
    match e with
    | AxiosError _ _ => "AxiosError"
    | TypeError _ => "TypeError"
    | BadRequestException _ => "BadRequestException"
    | NotFoundException _ => "NotFoundException"
    | UnauthorizedException _ => "UnauthorizedException"
    | Error _ => "Error"
    end in
  if (message e =? "")%string then name else name ++ ": " ++ message e.

Module FirstRevision.
Section Methods.

Context {W : Type} (env : Env W).

Definition uploadFile (options : UploadFileOptions) : M W Json :=
  let fileName := fileName options in
  let folderId := folderId options in
  let projectId := projectId options in
  let fileBuffer := fileBuffer options in
  let contentType := contentType options in
  try_catch
    (storage <- createStorage env projectId folderId fileName ;;
     objectId <- lift (getProp storage "objectId") ;;
     uploadToStorage env objectId fileBuffer contentType ;;
     objectId <- lift (getProp storage "objectId") ;;
     item <- EarlierRevision.createFirstVersion env projectId folderId fileName objectId ;;
     logger LOG ("Successfully uploaded file: " ++ fileName) JUndefined ;;
     ret item)
    (fun error =>
       logger ERROR ("Failed to upload file " ++ fileName) (errorDetail error) ;;
       throw (BadRequestException ("Failed to upload file: " ++ Exn_toString error))).

End Methods.
End FirstRevision.

(** ** A scripted environment

    Replies are served in order, whatever the request; the clock advances by
    [latency] milliseconds on every exchange.  An exhausted script answers
    with a network error. *)

Record Script : Type := {
  clock : Z;
  latency : Z;
  tokenReplies : list (AxiosResult AutodeskTokenResponse);
  httpReplies : list (AxiosResult Json)
}.

Definition scriptedToken (w : Script) (_ : string)
  : AxiosResult AutodeskTokenResponse * Script :=
  match tokenReplies w with
  | [] => (Rejected "Network Error" JUndefined, w)
  | r :: rest =>
      (r, {| clock := clock w + latency w; latency := latency w;
             tokenReplies := rest; httpReplies := httpReplies w |})
  end.

Definition scriptedHttp (w : Script) (_ : Request) : AxiosResult Json * Script :=
  match httpReplies w with
  | [] => (Rejected "Network Error" JUndefined, w)
  | r :: rest =>
      (r, {| clock := clock w + latency w; latency := latency w;
             tokenReplies := tokenReplies w; httpReplies := rest |})
  end.

Definition scripted (opts : AutodeskAccModuleOptions) : Env Script :=
  {| Date_now := clock;
     tokenEndpoint := scriptedToken;
     http := scriptedHttp;
     options := opts;
     AUTODESK_AUTH_URL := "https://developer.api.autodesk.com/authentication/v2/token";
     AUTODESK_BASE_URL := "https://developer.api.autodesk.com";
     String_of := fun v => match v with JStr s => s | _ => "" end;
     JSON_stringify := fun _ => "" |}.

Definition demoOptions : AutodeskAccModuleOptions :=
  {| clientId := "id"; clientSecret := "secret"; callbackUrl := None;
     scopes := None; isGlobal := None; baseUrl := None |}.

Definition demoEnv : Env Script := scripted demoOptions.

Definition demoToken (tok : string) (rt : option string) : AutodeskTokenResponse :=
  {| access_token := tok; token_type := "Bearer"; expires_in := 3600;
     refresh_token := rt |}.

(** A service that starts with a token cached until [until]. *)
Definition signedIn (until_ : Z) (w : Script) : State Script :=
  mkState (Some {| accessToken := "tok"; expiresAt := until_; refreshToken := None |})
          w [] [].

Definition signedOut (w : Script) : State Script := mkState None w [] [].

Definition replies (rs : list (AxiosResult Json)) : Script :=
  {| clock := 0; latency := 1; tokenReplies := []; httpReplies := rs |}.

Definition oneGrant (t : AutodeskTokenResponse) : Script :=
  {| clock := 0; latency := 1; tokenReplies := [Fulfilled t]; httpReplies := [] |}.

(** The exchanges other than token grants, oldest first. *)
Fixpoint calls (evs : list Event) : list (Request * AxiosResult Json) :=
  match evs with
  | [] => []
  | TokenPost _ _ :: rest => calls rest
  | HttpCall req res :: rest => (req, res) :: calls rest
  end.

(** The token grants, oldest first. *)
Fixpoint grants (evs : list Event)
  : list (string * AxiosResult AutodeskTokenResponse) :=
  match evs with
  | [] => []
  | TokenPost body res :: rest => (body, res) :: grants rest
  | HttpCall _ _ :: rest => grants rest
  end.

(** What a run from [s] to [s'] added to the record. *)
Definition newEvents {W : Type} (s s' : State W) : list Event :=
  skipn (length (trace s)) (trace s').

(** * Vocabulary of the statements *)

Definition authFailure : Exn :=
  UnauthorizedException "Failed to authenticate with Autodesk ACC".

Section Vocabulary.

Context {W : Type} (env : Env W).

(** The context built from a grant that answered [t] and left the
    environment in [w']. *)
Definition grantedContext (t : AutodeskTokenResponse) (w' : W) : AutodeskAuthContext :=
  {| accessToken := access_token t;
     expiresAt := Date_now env w' + expires_in t * 1000;
     refreshToken := refresh_token t |}.

(** No cached context, or one within five minutes of its expiry or past it. *)
Definition cacheStale (s : State W) : Prop :=
  authContext s = None
  \/ exists c, authContext s = Some c
               /\ expiresAt c - 300000 <= Date_now env (world s).

(** The form bodies of the two 3-legged grants. *)
Definition codeExchangeBody (code : string) : string :=
  URLSearchParams_toString (codeExchangeParams env code).

Definition refreshBody (refreshToken : string) : string :=
  URLSearchParams_toString (refreshParams env refreshToken).

End Vocabulary.

(** [rest] is empty or starts with a character that fails [ok]. *)
Definition stopsAt (ok : ascii -> bool) (rest : string) : Prop :=
  match rest with
  | "" => True
  | String c _ => ok c = false
  end.

(** [s] starts with an occurrence of the URN pattern whose groups are
    [bucket] and [object]. *)
Definition urnOccursAt (s bucket object : string) : Prop :=
  exists rest,
    s = urnPrefix ++ bucket ++ "/" ++ object ++ rest
    /\ bucket <> "" /\ allChars notSlash bucket = true
    /\ object <> "" /\ allChars notLineTerminator object = true
    /\ stopsAt notLineTerminator rest.

(** The leftmost occurrence of the URN pattern in [id] has groups
    [bucket] and [object]. *)
Definition urnLeftmost (id bucket object : string) : Prop :=
  exists before from_,
    id = before ++ from_
    /\ urnOccursAt from_ bucket object
    /\ forall b1 b2 bk ob,
         before = b1 ++ b2 -> b2 <> "" -> ~ urnOccursAt (b2 ++ from_) bk ob.

(** A folder resource whose [attributes.extension.type] is [t]. *)
Definition folderOfType (t : string) : Json :=
  JObj [ ("type", JStr "folders"); ("id", JStr "urn:adsk.wipprod:fs.folder:co.1");
         ("attributes", JObj [
            ("name", JStr "Plans");
            ("extension", JObj [("type", JStr t); ("version", JStr "1.0")])]) ].

(** The two kinds of child resources: folder, item and version type. *)
Inductive Kind : Type := BimCollaboration | GenericCore.

Definition folderTypeOf (k : Kind) : string :=
  match k with
  | BimCollaboration => "folders:autodesk.bim360:Folder"
  | GenericCore => "folders:autodesk.core:Folder"
  end.

Definition itemTypesOf (k : Kind) : string * string :=
  match k with
  | BimCollaboration => ("items:autodesk.bim360:File", "versions:autodesk.bim360:File")
  | GenericCore => ("items:autodesk.core:File", "versions:autodesk.core:File")
  end.

(** Both creation paths resolve the parent to kind [k]. *)
Definition resolvesTo (parentFolder : Json) (k : Kind) : Prop :=
  folderExtensionType parentFolder = Ok (folderTypeOf k)
  /\ itemVersionTypes parentFolder = Ok (itemTypesOf k).

(** ** Runs of the data-management service *)

Definition Exchange : Type := (Request * AxiosResult Json)%type.

(** The promise of an axios call, awaited. *)
Definition settle (res : AxiosResult Json) : Result Json :=
  match res with
  | Fulfilled d => Ok d
  | Rejected m d => Err (AxiosError m d)
  end.

(** [catch { throw f(error) }] on a result. *)
Definition rethrowAs {A} (f : Exn -> Exn) (r : Result A) : Result A :=
  match r with
  | Ok a => Ok a
  | Err e => Err (f e)
  end.

(** From whatever state it starts, [m] adds to the record events whose
    exchanges [cs] and whose result [r] satisfy [P cs r]. *)
Definition emits {W A : Type} (m : M W A)
    (P : list Exchange -> Result A -> Prop) : Prop :=
  forall s, exists evs,
    trace (snd (m s)) = (trace s ++ evs)%list /\ P (calls evs) (fst (m s)).

(** One call through [httpClient]: either no token could be obtained and
    nothing was sent, or the one request [mk token] was sent and the
    result is [after] applied to its answer. *)
Definition oneCall {A} (mk : string -> Request) (after : Json -> Result A)
    (cs : list Exchange) (r : Result A) : Prop :=
  (cs = [] /\ r = Err authFailure)
  \/ exists token res, cs = [(mk token, res)] /\ r = andThen (settle res) after.

(** A storage-facing call: nothing is sent unless [objectId] decodes. *)
Definition decodedCall {A} (objectId : Json) (mk : string -> string -> string -> Request)
    (after : Json -> Result A) (cs : list Exchange) (r : Result A) : Prop :=
  match decodeObjectId objectId with
  | Err e => cs = [] /\ r = Err e
  | Ok (bucketKey, objectKey) => oneCall (mk bucketKey objectKey) after cs r
  end.

(** Nothing is sent and [e'] is thrown. *)
Definition throwsOnly {A} (e' : Exn) (cs : list Exchange) (r : Result A) : Prop :=
  cs = [] /\ r = Err e'.

(** Nothing is sent and the result is [r0]. *)
Definition silently {A} (r0 : Result A) (cs : list Exchange) (r : Result A) : Prop :=
  cs = [] /\ r = r0.

Definition tokenOrFailure (cs : list Exchange) (r : Result string) : Prop :=
  cs = [] /\ ((exists token, r = Ok token) \/ r = Err authFailure).

Inductive Stage : Type := Reserve | Grant | Transfer | Finalize | Publish.

(** [v.included[0].relationships.storage.data.id] of a composite body. *)
Definition includedStorageId (body : Json) : Result Json :=
  andThen (getProp body "included") (fun included =>
  andThen (index0 included) (fun version =>
  andThen (getProp version "relationships") (fun relationships =>
  andThen (getProp relationships "storage") (fun storage =>
  andThen (getProp storage "data") (fun d => getProp d "id"))))).

(** The string [needle] occurs as a value somewhere inside [v]. *)
Fixpoint mentions (needle : string) (v : Json) : bool :=
  match v with
  | JStr s => (s =? needle)%string
  | JArr items => existsb (mentions needle) items
  | JObj fields =>
      (fix inFields (fs : list (string * Json)) : bool :=
         match fs with
         | [] => false
         | (_, x) :: rest => mentions needle x || inFields rest
         end) fields
  | _ => false
  end.

Section PipelineVocabulary.

Context {W : Type} (env : Env W).

Definition reserveRequest (o : UploadFileOptions) (token : string) : Request :=
  apiRequest env POST ("/data/v1/projects/" ++ projectId o ++ "/storage") [] []
    (JsonBody (storageBody (folderId o) (fileName o))) token.

Definition grantRequest (bucketKey objectKey token : string) : Request :=
  apiRequest env GET (signedUploadPath bucketKey objectKey) []
    [("minutesExpiration", JNum 30)] NoBody token.

Definition finalizeRequest (uploadKey : Json) (bucketKey objectKey token : string)
  : Request :=
  apiRequest env POST (signedUploadPath bucketKey objectKey) [] []
    (JsonBody (JObj [("uploadKey", uploadKey)])) token.

Definition folderRequest (projectId folderId token : string) : Request :=
  apiRequest env GET ("/data/v1/projects/" ++ projectId ++ "/folders/" ++ folderId)
    [] [] NoBody token.

Definition contentsRequest (projectId folderId token : string) : Request :=
  apiRequest env GET
    ("/data/v1/projects/" ++ projectId ++ "/folders/" ++ folderId ++ "/contents")
    [] [] NoBody token.

Definition newFolderRequest (projectId parentFolderId folderName extensionType
    token : string) : Request :=
  apiRequest env POST ("/data/v1/projects/" ++ projectId ++ "/folders") [] []
    (JsonBody (folderBody parentFolderId folderName extensionType)) token.

Definition publishRequest (o : UploadFileOptions) (itemType versionType : string)
    (objectId : Json) (token : string) : Request :=
  apiRequest env POST ("/data/v1/projects/" ++ projectId o ++ "/items") [] []
    (JsonBody (firstVersionBody (folderId o) (fileName o) itemType versionType objectId))
    token.

Definition legacyPutRequest (fileBuffer : list Byte.byte) (contentType : option string)
    (bucketKey objectKey token : string) : Request :=
  apiRequest env PUT
    ("/oss/v2/buckets/" ++ bucketKey ++ "/objects/" ++ encodeURIComponent objectKey)
    [ ("Content-Type", JStr (contentTypeOrDefault contentType));
      ("Content-Length", JNum (Z.of_nat (length fileBuffer))) ]
    [] (BufferBody fileBuffer) token.

(** What each method of the pipeline does on the wire and returns. *)

Definition ReserveRun (o : UploadFileOptions) : list Exchange -> Result Json -> Prop :=
  oneCall (reserveRequest o) (fun d => getProp d "data").

Definition GrantRun (objectId : Json) : list Exchange -> Result (Json * Json) -> Prop :=
  decodedCall objectId grantRequest signedUpload.

Definition TransferRun (o : UploadFileOptions) (signedUrl : Json)
    (cs : list Exchange) (r : Result unit) : Prop :=
  exists res,
    cs = [(transferRequest signedUrl (fileBuffer o) (contentType o), res)]
    /\ r = andThen (settle res) (fun _ => Ok tt).

Definition FinalizeRun (objectId uploadKey : Json) : list Exchange -> Result unit -> Prop :=
  decodedCall objectId (finalizeRequest uploadKey) (fun _ => Ok tt).

Definition FolderRun (projectId folderId : string) (cs : list Exchange)
    (r : Result Json) : Prop :=
  exists r0,
    oneCall (folderRequest projectId folderId) (fun d => getProp d "data") cs r0
    /\ r = rethrowAs
             (fun _ => NotFoundException ("Folder " ++ folderId ++ " not found")) r0.

Definition PublishRun (o : UploadFileOptions) (objectId : Json) (cs : list Exchange)
    (r : Result Json) : Prop :=
  exists cs1 r1, FolderRun (projectId o) (folderId o) cs1 r1 /\
    match andThen r1 (fun parentFolder => itemVersionTypes parentFolder) with
    | Err e => cs = cs1 /\ r = Err e
    | Ok (itemType, versionType) =>
        exists cs2, cs = (cs1 ++ cs2)%list /\
          oneCall (publishRequest o itemType versionType objectId)
                  (fun d => getProp d "data") cs2 r
    end.

(** Folder lookup and creation. *)

Definition ContentsRun (projectId folderId : string) (cs : list Exchange)
    (r : Result (list Json * list Json)) : Prop :=
  exists r0,
    oneCall (contentsRequest projectId folderId) folderContents cs r0
    /\ r = rethrowAs (fun _ => Error "Failed to fetch folder contents") r0.

Definition CreateFolderRun (projectId parentFolderId folderName : string)
    (cs : list Exchange) (r : Result Json) : Prop :=
  exists r0,
    r = rethrowAs
          (fun _ => BadRequestException ("Failed to create folder: " ++ folderName)) r0
    /\ exists cs1 r1, FolderRun projectId parentFolderId cs1 r1 /\
        match andThen r1 (fun parentFolder => folderExtensionType parentFolder) with
        | Err e => cs = cs1 /\ r0 = Err e
        | Ok extensionType =>
            exists cs2, cs = (cs1 ++ cs2)%list /\
              oneCall (newFolderRequest projectId parentFolderId folderName extensionType)
                      (fun d => getProp d "data") cs2 r0
        end.

Definition GetOrCreateRun (projectId parentFolderId folderName : string)
    (cs : list Exchange) (r : Result Json) : Prop :=
  exists cs1 r1, ContentsRun projectId parentFolderId cs1 r1 /\
    match andThen r1 (fun contents => findFolder folderName (fst contents)) with
    | Err e => cs = cs1 /\ r = Err e
    | Ok (Some folder) => cs = cs1 /\ r = Ok folder
    | Ok None =>
        exists cs2, cs = (cs1 ++ cs2)%list
          /\ CreateFolderRun projectId parentFolderId folderName cs2 r
    end.

(** The states of an upload, each with the exchanges made so far. *)

Definition Reserved (o : UploadFileOptions) (cs : list Exchange) (storageId : Json)
  : Prop :=
  exists storage, ReserveRun o cs (Ok storage) /\ getProp storage "id" = Ok storageId.

Definition Granted (o : UploadFileOptions) (cs : list Exchange)
    (storageId signedUrl uploadKey : Json) : Prop :=
  exists cs1 cs2, cs = (cs1 ++ cs2)%list /\ Reserved o cs1 storageId
    /\ GrantRun storageId cs2 (Ok (signedUrl, uploadKey)).

Definition Transferred (o : UploadFileOptions) (cs : list Exchange)
    (storageId uploadKey : Json) : Prop :=
  exists cs1 cs2 signedUrl, cs = (cs1 ++ cs2)%list
    /\ Granted o cs1 storageId signedUrl uploadKey
    /\ TransferRun o signedUrl cs2 (Ok tt).

Definition Finalized (o : UploadFileOptions) (cs : list Exchange) (storageId : Json)
  : Prop :=
  exists cs1 cs2 uploadKey, cs = (cs1 ++ cs2)%list
    /\ Transferred o cs1 storageId uploadKey
    /\ FinalizeRun storageId uploadKey cs2 (Ok tt).

Definition Published (o : UploadFileOptions) (cs : list Exchange) (item : Json)
  : Prop :=
  exists cs1 cs2 storageId, cs = (cs1 ++ cs2)%list
    /\ Finalized o cs1 storageId
    /\ PublishRun o storageId cs2 (Ok item).

(** The upload stopped in stage [st] because of [cause], having made the
    exchanges [cs]: the earlier stages went through, the stage itself threw
    [cause], and nothing was sent after that. *)
Inductive StoppedAt (o : UploadFileOptions)
  : Stage -> Exn -> list Exchange -> Prop :=
| stopped_reserve cs cause :
    ReserveRun o cs (Err cause) -> StoppedAt o Reserve cause cs
| stopped_storage_id cs storage cause :
    ReserveRun o cs (Ok storage) -> getProp storage "id" = Err cause ->
    StoppedAt o Grant cause cs
| stopped_grant cs1 cs2 storageId cause :
    Reserved o cs1 storageId -> GrantRun storageId cs2 (Err cause) ->
    StoppedAt o Grant cause (cs1 ++ cs2)
| stopped_transfer cs1 cs2 storageId signedUrl uploadKey cause :
    Granted o cs1 storageId signedUrl uploadKey ->
    TransferRun o signedUrl cs2 (Err cause) ->
    StoppedAt o Transfer cause (cs1 ++ cs2)
| stopped_finalize cs1 cs2 storageId uploadKey cause :
    Transferred o cs1 storageId uploadKey ->
    FinalizeRun storageId uploadKey cs2 (Err cause) ->
    StoppedAt o Finalize cause (cs1 ++ cs2)
| stopped_publish cs1 cs2 storageId cause :
    Finalized o cs1 storageId -> PublishRun o storageId cs2 (Err cause) ->
    StoppedAt o Publish cause (cs1 ++ cs2).

(** What the caller of [uploadFile] gets when the pipeline threw [cause]. *)
Definition uploadFailed (cause : Exn) : Exn :=
  BadRequestException ("Failed to upload file: " ++ message cause).

(** The [try] block of [uploadFile]: published, or stopped in a stage. *)
Definition PipelineRun (o : UploadFileOptions) (cs : list Exchange) (r : Result Json)
  : Prop :=
  (exists item, r = Ok item /\ Published o cs item)
  \/ (exists st cause, r = Err cause /\ StoppedAt o st cause cs).

Definition UploadRun (o : UploadFileOptions) (cs : list Exchange) (r : Result Json)
  : Prop :=
  exists r0, PipelineRun o cs r0 /\ r = rethrowAs uploadFailed r0.

(** The number of exchanges of the pipeline up to the end of a stage. *)
Definition callsThrough (st : Stage) : nat :=
  match st with
  | Reserve => 1 | Grant => 2 | Transfer => 3 | Finalize => 4 | Publish => 6
  end.

(** The two calls on the signed-upload path of an object. *)
Definition isGrantCall (req : Request) : Prop :=
  method req = GET /\ exists b k, url req = JStr (signedUploadPath b k).

Definition isFinalizeCall (req : Request) : Prop :=
  method req = POST /\ exists b k, url req = JStr (signedUploadPath b k).

End PipelineVocabulary.

(** ** The pipeline as one sequence of six exchanges *)

(** The values that flow through one upload: the token put on each
    [httpClient] request, the answer to each request, and what the service
    read from the answers and passed on. *)
Record Flow : Type := {
  token1 : string;  answer1 : AxiosResult Json;
  storageId : Json;  bucketKey : string;  objectKey : string;
  token2 : string;  answer2 : AxiosResult Json;
  signedUrl : Json;  uploadKey : Json;
  answer3 : AxiosResult Json;
  token4 : string;  answer4 : AxiosResult Json;
  token5 : string;  answer5 : AxiosResult Json;
  itemType : string;  versionType : string;
  token6 : string;  answer6 : AxiosResult Json
}.

(** A dummy answer for the requests that were never sent. *)
Definition unsent : AxiosResult Json := Rejected "" JUndefined.

(** The flow of an upload that got as far as its first request. *)
Definition flowReserve (t1 : string) (a1 : AxiosResult Json) (id : Json)
    (b k t2 : string) (a2 : AxiosResult Json) (url key : Json) : Flow :=
  {| token1 := t1; answer1 := a1;
     storageId := id; bucketKey := b; objectKey := k;
     token2 := t2; answer2 := a2;
     signedUrl := url; uploadKey := key;
     answer3 := unsent; token4 := ""; answer4 := unsent;
     token5 := ""; answer5 := unsent; itemType := ""; versionType := "";
     token6 := ""; answer6 := unsent |}.

(** [f] with the answer to the transfer and the exchange of Finalize. *)
Definition flowTransfer (f : Flow) (a3 : AxiosResult Json) (t4 : string)
    (a4 : AxiosResult Json) : Flow :=
  {| token1 := token1 f; answer1 := answer1 f;
     storageId := storageId f; bucketKey := bucketKey f; objectKey := objectKey f;
     token2 := token2 f; answer2 := answer2 f;
     signedUrl := signedUrl f; uploadKey := uploadKey f;
     answer3 := a3; token4 := t4; answer4 := a4;
     token5 := ""; answer5 := unsent; itemType := ""; versionType := "";
     token6 := ""; answer6 := unsent |}.

(** [f] with the two exchanges of Publish. *)
Definition flowPublish (f : Flow) (t5 : string) (a5 : AxiosResult Json)
    (it vt t6 : string) (a6 : AxiosResult Json) : Flow :=
  {| token1 := token1 f; answer1 := answer1 f;
     storageId := storageId f; bucketKey := bucketKey f; objectKey := objectKey f;
     token2 := token2 f; answer2 := answer2 f;
     signedUrl := signedUrl f; uploadKey := uploadKey f;
     answer3 := answer3 f; token4 := token4 f; answer4 := answer4 f;
     token5 := t5; answer5 := a5; itemType := it; versionType := vt;
     token6 := t6; answer6 := a6 |}.

Section PipelineSequence.

Context {W : Type} (env : Env W).

(** Reserve, Grant, Transfer, Finalize, and the two requests of Publish. *)
Definition pipeline (o : UploadFileOptions) (f : Flow) : list Exchange :=
  [ (reserveRequest env o (token1 f), answer1 f);
    (grantRequest env (bucketKey f) (objectKey f) (token2 f), answer2 f);
    (transferRequest (signedUrl f) (fileBuffer o) (contentType o), answer3 f);
    (finalizeRequest env (uploadKey f) (bucketKey f) (objectKey f) (token4 f), answer4 f);
    (folderRequest env (projectId o) (folderId o) (token5 f), answer5 f);
    (publishRequest env o (itemType f) (versionType f) (storageId f) (token6 f),
     answer6 f) ].

(** The first [n] requests were each built from the answers before them:
    request [i + 1] is only there when answer [i] was fulfilled and read. *)
Definition Linked (f : Flow) (n : nat) : Prop :=
  ((2 <= n)%nat ->
     exists d1 storage,
       answer1 f = Fulfilled d1 /\ getProp d1 "data" = Ok storage
       /\ getProp storage "id" = Ok (storageId f)
       /\ decodeObjectId (storageId f) = Ok (bucketKey f, objectKey f))
  /\ ((3 <= n)%nat ->
        exists d2, answer2 f = Fulfilled d2
                   /\ signedUpload d2 = Ok (signedUrl f, uploadKey f))
  /\ ((4 <= n)%nat -> exists d3, answer3 f = Fulfilled d3)
  /\ ((5 <= n)%nat -> exists d4, answer4 f = Fulfilled d4)
  /\ ((6 <= n)%nat ->
        exists d5 parentFolder,
          answer5 f = Fulfilled d5 /\ getProp d5 "data" = Ok parentFolder
          /\ itemVersionTypes parentFolder = Ok (itemType f, versionType f)).

End PipelineSequence.

(** ** Fixtures on the scripted environment *)

Definition demoUpload : UploadFileOptions :=
  {| fileName := "a.txt"; folderId := "f1"; projectId := "p1";
     fileBuffer := repeat Byte.x00 10; contentType := None |}.

Definition demoStorageId : string := "urn:adsk.objects:os.object:bucketA/obj1".

Definition storageAnswer : AxiosResult Json :=
  Fulfilled (JObj [("data", JObj [("type", JStr "objects");
                                  ("id", JStr demoStorageId)])]).

Definition grantAnswer : AxiosResult Json :=
  Fulfilled (JObj [("uploadKey", JStr "key-1");
                   ("urls", JArr [JStr "https://s3.example/upload"])]).

Definition emptyAnswer : AxiosResult Json := Fulfilled (JObj []).

Definition folderAnswer (t : string) : AxiosResult Json :=
  Fulfilled (JObj [("data", folderOfType t)]).

(** The answer to the composite request: the item as primary [data], its
    first version, with the storage relationship, under [included]. *)
Definition demoItem : Json :=
  JObj [ ("type", JStr "items"); ("id", JStr "urn:adsk.wipprod:dm.lineage:1");
         ("attributes", JObj [
            ("displayName", JStr "a.txt");
            ("extension", JObj [("type", JStr "items:autodesk.core:File");
                                ("version", JStr "1.0")])]);
         ("relationships", JObj [
            ("tip", JObj [("data", JObj [
               ("type", JStr "versions");
               ("id", JStr "urn:adsk.wipprod:fs.file:vf.1?version=1")])])]) ].

Definition itemAnswer : AxiosResult Json :=
  Fulfilled (JObj [
    ("data", demoItem);
    ("included", JArr [
       JObj [ ("type", JStr "versions");
              ("id", JStr "urn:adsk.wipprod:fs.file:vf.1?version=1");
              ("relationships", JObj [
                 ("storage", JObj [("data", JObj [("type", JStr "objects");
                                                  ("id", JStr demoStorageId)])])])]])]).

Definition happyPath : list (AxiosResult Json) :=
  [ storageAnswer; grantAnswer; emptyAnswer; emptyAnswer;
    folderAnswer "folders:autodesk.core:Folder"; itemAnswer ].

(** A signed-in service facing the replies [rs]. *)
Definition facing (rs : list (AxiosResult Json)) : State Script :=
  signedIn 10000000 (replies rs).

(** A run that sent a create request. *)
Definition sentCreate (cs : list Exchange) : Prop :=
  exists req res, In (req, res) cs /\ method req = POST.

(** Fixtures for folder lookup: a listing before and after a folder named
    "Reports" was created under "f1". *)
Definition namedFolder (id name : string) : Json :=
  JObj [ ("type", JStr "folders"); ("id", JStr id);
         ("attributes", JObj [("name", JStr name); ("displayName", JStr name)]) ].

Definition someItem : Json :=
  JObj [ ("type", JStr "items"); ("id", JStr "i1");
         ("attributes", JObj [("displayName", JStr "Reports")]) ].

Definition listingBefore : list Json := [namedFolder "f2" "Drawings"; someItem].

Definition listingAfter : list Json :=
  [namedFolder "f2" "Drawings"; namedFolder "f3" "Reports"; someItem].

Definition createThenList : list (AxiosResult Json) :=
  [ Fulfilled (JObj [("data", JArr listingBefore)]);
    folderAnswer "folders:autodesk.bim360:Folder";
    Fulfilled (JObj [("data", namedFolder "f3" "Reports")]);
    Fulfilled (JObj [("data", JArr listingAfter)]) ].

(** A token that lives five minutes, granted twice over. *)
Definition shortLived : AutodeskTokenResponse :=
  {| access_token := "t0"; token_type := "Bearer"; expires_in := 300;
     refresh_token := None |}.

Definition twoShortGrants : Script :=
  {| clock := 0; latency := 1;
     tokenReplies := [Fulfilled shortLived; Fulfilled shortLived];
     httpReplies := [] |}.

(** The parent is read, then the folder is created. *)
Definition readThenCreate : list (AxiosResult Json) :=
  [ folderAnswer "folders:autodesk.core:Folder";
    Fulfilled (JObj [("data", namedFolder "f3" "Reports")]) ].

(** ** More vocabulary: characters of the encoded strings *)

(** The number of occurrences of the character [c] in [s]. *)
Fixpoint countChar (c : ascii) (s : string) : nat :=
  match s with
  | "" => 0%nat
  | String x rest => ((if Ascii.eqb x c then 1 else 0) + countChar c rest)%nat
  end.


(** Not one of the characters that separate the parameters of a query. *)
Definition formChar (c : ascii) : bool :=
  negb (Ascii.eqb c "&" || Ascii.eqb c "=" || Ascii.eqb c "?" || Ascii.eqb c "#").

(** [url] has one question mark, no hash, and after it [n] parameters:
    [n] equals signs and [n - 1] ampersands. *)
Definition hasParameters (n : nat) (text : string) (marks : nat) : Prop :=
  countChar "?" text = marks /\ countChar "#" text = 0%nat
  /\ countChar "=" text = n /\ countChar "&" text = pred n.


(** What the form serializer writes for one code unit. *)
Definition formUnit (c : ascii) : string :=
  if formSafe (N_of_ascii c) then String c ""
  else if (N_of_ascii c =? 32)%N then "+"
  else percentUtf8 (N_of_ascii c).



(** ** More vocabulary: methods of one request *)

(** A run of one request [mk token] whose every failure is replaced by
    [failure]. *)
Definition Guarded {A} (mk : string -> Request) (after : Json -> Result A)
    (failure : Exn) (cs : list Exchange) (r : Result A) : Prop :=
  exists r0, oneCall mk after cs r0 /\ r = rethrowAs (fun _ => failure) r0.

(** The read-only lookups of the two services that return
    [response.data.data]. *)
Inductive Query : Type :=
| Hubs
| Hub (hubId : string)
| Projects (hubId : string)
| Project (hubId projectId : string)
| TopFolders (hubId projectId : string)
| Item (projectId itemId : string)
| Search (projectId filter : string).

Definition ask {W} (env : Env W) (q : Query) : M W Json :=
  match q with
  | Hubs => AutodeskProjectService.getHubs env
  | Hub hubId => AutodeskProjectService.getHub env hubId
  | Projects hubId => AutodeskProjectService.getProjects env hubId
  | Project hubId projectId => AutodeskProjectService.getProject env hubId projectId
  | TopFolders hubId projectId =>
      AutodeskProjectService.getProjectTopFolders env hubId projectId
  | Item projectId itemId => getItem env projectId itemId
  | Search projectId filter => searchItems env projectId filter
  end.

(** What the caller of a lookup gets whatever went wrong. *)
Definition failureOf (q : Query) : Exn :=
  match q with
  | Hubs => Error "Failed to fetch Autodesk hubs"
  | Hub hubId => NotFoundException ("Hub " ++ hubId ++ " not found")
  | Projects hubId => Error ("Failed to fetch projects for hub " ++ hubId)
  | Project _ projectId => NotFoundException ("Project " ++ projectId ++ " not found")
  | TopFolders _ projectId => Error ("Failed to fetch top folders for project " ++ projectId)
  | Item _ itemId => NotFoundException ("Item " ++ itemId ++ " not found")
  | Search _ _ => Error "Failed to search items"
  end.

(** The extension type [createFolderWithType] posts. *)
Definition typeOrDefault (extensionType : option string) : string :=
  match extensionType with
  | Some t => t
  | None => folderTypeOf BimCollaboration
  end.

Definition topFoldersRequest {W} (env : Env W) (hubId projectId token : string)
  : Request :=
  apiRequest env GET
    ("/project/v1/hubs/" ++ hubId ++ "/projects/" ++ projectId ++ "/topFolders")
    [] [] NoBody token.

Definition deleteRequest {W} (env : Env W) (projectId itemId token : string) : Request :=
  apiRequest env DELETE ("/data/v1/projects/" ++ projectId ++ "/items/" ++ itemId)
    [] [] NoBody token.

(** What the log lines of [getProjectTopFolders] ask of the listing: every
    entry must let [attributes] and [id] be read. *)
Fixpoint eachLabelled (items : list Json) : Result unit :=
  match items with
  | [] => Ok tt
  | x :: rest =>
      andThen (folderLabel x) (fun _ =>
      andThen (getProp x "id") (fun _ => eachLabelled rest))
  end.

(** The body of [getProjectTopFolders] after the response arrived. *)
Definition topFoldersOf (body : Json) : Result Json :=
  andThen (getProp body "data") (fun topFolders =>
  andThen (js_length topFolders) (fun _ =>
  match topFolders with
  | JArr items => andThen (eachLabelled items) (fun _ => Ok topFolders)
  | JUndefined =>
      Err (TypeError "Cannot read properties of undefined (reading 'forEach')")
  | JNull => Err (TypeError "Cannot read properties of null (reading 'forEach')")
  | _ => Err (TypeError "topFolders.forEach is not a function")
  end)).

(** [m] sends nothing and leaves the token cache and the environment as
    they are; its result is [r]. *)
Definition quiet {W A} (m : M W A) (r : Result A) : Prop :=
  forall s,
    fst (m s) = r /\ trace (snd (m s)) = trace s
    /\ world (snd (m s)) = world s /\ authContext (snd (m s)) = authContext s.

(** Fixtures: the top folders of a project, and an item to look up. *)
Definition topFoldersAnswer : AxiosResult Json :=
  Fulfilled (JObj [("data", JArr [namedFolder "t1" "Project Files";
                                  namedFolder "t2" "Plans"])]).

(** ** More vocabulary: the traversal of the folders *)

(** The environment runs dry: [budget] bounds the requests it will still
    fulfil; no exchange raises it and every fulfilled request lowers it. *)
Definition finiteAnswers {W} (env : Env W) (budget : W -> nat) : Prop :=
  (forall w body, (budget (snd (tokenEndpoint env w body)) <= budget w)%nat)
  /\ (forall w req, (budget (snd (http env w req)) <= budget w)%nat)
  /\ (forall w req d, fst (http env w req) = Fulfilled d ->
        (budget (snd (http env w req)) < budget w)%nat).

(** [m] never raises the budget; [m] lowers it whenever it succeeds. *)
Definition frugal {W A} (budget : W -> nat) (m : M W A) : Prop :=
  forall s, (budget (world (snd (m s))) <= budget (world s))%nat.

Definition paid {W A} (budget : W -> nat) (m : M W A) : Prop :=
  forall s a, fst (m s) = Ok a -> (budget (world (snd (m s))) < budget (world s))%nat.

(** From [frame] and [s], [m] has an outcome, and it satisfies [Q]. *)
Definition returns {W A} (m : Call W A) (frame : list Json) (s : State W)
    (Q : Result A -> list Json -> State W -> Prop) : Prop :=
  exists r frame' s', m frame s = Some (r, frame', s') /\ Q r frame' s'.

(** [m'] has every outcome [m] has. *)
Definition extends {W A} (m m' : Call W A) : Prop :=
  forall frame s out, m frame s = Some out -> m' frame s = Some out.

Definition allDefined (vs : list Json) : Prop := Forall (fun v => nullish v = false) vs.

Definition listingFailed : Exn := Error "Failed to fetch folder contents".

(** The first request of a traversal that starts at the folder
    [rootFolderId]: the listing of that folder. *)
Definition rootListing {W} (env : Env W) (projectId : string) (rootFolderId : Json)
    (s : State W) : Result (list Json * list Json) :=
  fst (getFolderContents env projectId (templateOf env rootFolderId)
         (snd (logger LOG ("Fetching folders from: " ++ templateOf env rootFolderId)
                      JUndefined s))).

(** The listing a traversal of the whole project falls back on when the
    top folders cannot be had: that of the folder whose id is the project
    id; [s1] is the state the failed request left. *)
Definition fallbackListing {W} (env : Env W) (projectId : string) (s1 : State W)
  : Result (list Json * list Json) :=
  rootListing env projectId (JStr projectId)
    (snd (logger WARN "Failed to get top folders, trying alternative method"
                 JUndefined s1)).

(** The result [r] of a traversal from [s] follows from its first
    requests: it is headed by the folders of the first listing that was
    had, and it fails when none was. *)
Definition headedBy {W} (env : Env W) (projectId : string) (rootFolderId : Json)
    (s : State W) (r : Result (list Json)) : Prop :=
  if truthy rootFolderId then
    match rootListing env projectId rootFolderId s with
    | Ok (folders, _) => exists below, r = Ok (folders ++ below)%list
    | Err _ => r = Err listingFailed
    end
  else
    match getProjectTopFolders env projectId s with
    | (Ok topFolders, _) =>
        exists items below, topFolders = JArr items /\ r = Ok (items ++ below)%list
    | (Err _, s1) =>
        match fallbackListing env projectId s1 with
        | Ok (folders, _) => exists below, r = Ok (folders ++ below)%list
        | Err _ => r = Err listingFailed
        end
    end.

(** What a call of [getAllProjectFolders] from [frame] and [s] comes to. *)
Definition Traversed {W} (env : Env W) (budget : W -> nat) (projectId : string)
    (rootFolderId : Json) (frame : list Json) (s : State W)
    (r : Result (list Json)) (frame' : list Json) (s' : State W) : Prop :=
  frame' = frame
  /\ (budget (world s') <= budget (world s))%nat
  /\ match r with
     | Ok folders => allDefined folders
     | Err e => e = listingFailed
     end
  /\ headedBy env projectId rootFolderId s r.

(** One entry of the list of [listAllFoldersWithIds]. *)
Definition isEntry (entry : Json) : Prop :=
  exists name idValue,
    entry = JObj [("name", name); ("id", idValue); ("path", name)]
    /\ truthy name = true.

(** Fixtures: the requests a script will still answer; a project with
    "Drawings" at the root and "Details" inside it; an environment whose
    every listing shows the same folder. *)
Definition answersLeft (w : Script) : nat := length (httpReplies w).

Definition treeReplies : list (AxiosResult Json) :=
  [ Fulfilled (JObj [("data", JArr [namedFolder "f2" "Drawings"; someItem])]);
    Fulfilled (JObj [("data", JArr [namedFolder "f4" "Details"])]);
    Fulfilled (JObj [("data", JArr [])]) ].

Definition mirrorEnv : Env unit :=
  {| Date_now := fun _ => 0;
     tokenEndpoint := fun w _ => (Rejected "Network Error" JUndefined, w);
     http := fun w _ =>
       (Fulfilled (JObj [("data", JArr [namedFolder "f2" "Drawings"])]), w);
     options := demoOptions;
     AUTODESK_AUTH_URL := "https://developer.api.autodesk.com/authentication/v2/token";
     AUTODESK_BASE_URL := "https://developer.api.autodesk.com";
     String_of := fun v => match v with JStr s => s | _ => "" end;
     JSON_stringify := fun _ => "" |}.

Definition mirrorState : State unit :=
  mkState (Some {| accessToken := "tok"; expiresAt := 10000000; refreshToken := None |})
          tt [] [].

(** ** More vocabulary: a folder at the root *)

(** What [createRootFolder] reads of the folder it creates under. *)
Definition readFolder (f : Json) : Result Json :=
  andThen (getProp f "attributes") (fun _ => getProp f "id").

(** The id of the top folder [createRootFolder] creates under: that of the
    first one named Plans, Project Files or Plan, else that of the first
    one; [None] when there is no top folder. *)
Definition chosenParent (topFolders : Json) : Result (option Json) :=
  match topFolders with
  | JArr items =>
      andThen (findFirst standardRoot items) (fun found =>
      let rootFolder := match found with Some f => f | None => JUndefined end in
      if truthy rootFolder then
        andThen (readFolder rootFolder) (fun idValue => Ok (Some idValue))
      else
        match items with
        | x :: _ => andThen (readFolder x) (fun idValue => Ok (Some idValue))
        | [] => Ok None
        end)
  | JUndefined =>
      Err (TypeError "Cannot read properties of undefined (reading 'find')")
  | JNull => Err (TypeError "Cannot read properties of null (reading 'find')")
  | _ => Err (TypeError "topFolders.find is not a function")
  end.

(** The creation requests, oldest first. *)
Definition posts (cs : list Exchange) : list Exchange :=
  filter (fun c => match method (fst c) with POST => true | _ => false end) cs.

Section RootVocabulary.

Context {W : Type} (env : Env W).

Definition newFolderUnderRequest (projectId : string) (parentFolderId : Json)
    (folderName extensionType token : string) : Request :=
  apiRequest env POST ("/data/v1/projects/" ++ projectId ++ "/folders") [] []
    (JsonBody (folderBodyUnder parentFolderId folderName extensionType)) token.

(** The creation directly under the project. *)
Definition directRequest (projectId folderName token : string) : Request :=
  newFolderRequest env projectId projectId folderName (folderTypeOf BimCollaboration)
    token.

Definition rootFailure (folderName : string) : Exn :=
  BadRequestException ("Failed to create folder at root: " ++ folderName).

(** The run [cs] starts with the fulfilled request for the top folders of
    the project, and [parent] is the id chosen among them. *)
Definition chosenFrom (projectId : string) (cs : list Exchange) (parent : Json) : Prop :=
  exists token d topFolders,
    hd_error cs
    = Some (topFoldersRequest env (extractHubId projectId) projectId token, Fulfilled d)
    /\ topFoldersOf d = Ok topFolders
    /\ chosenParent topFolders = Ok (Some parent).

Definition CreateUnderRun (projectId : string) (parentFolderId : Json)
    (folderName : string) (cs : list Exchange) (r : Result Json) : Prop :=
  exists r0,
    r = rethrowAs
          (fun _ => BadRequestException ("Failed to create folder: " ++ folderName)) r0
    /\ exists cs1 r1, FolderRun env projectId (templateOf env parentFolderId) cs1 r1 /\
        match andThen r1 (fun parentFolder => folderExtensionType parentFolder) with
        | Err e => cs = cs1 /\ r0 = Err e
        | Ok extensionType =>
            exists cs2, cs = (cs1 ++ cs2)%list /\
              oneCall (newFolderUnderRequest projectId parentFolderId folderName
                         extensionType)
                      (fun d => getProp d "data") cs2 r0
        end.

(** The inner [try] of [createRootFolder] once the top folders are there. *)
Definition UnderTopRun (projectId folderName : string) (topFolders : Json)
    (cs : list Exchange) (r : Result (option Json)) : Prop :=
  match chosenParent topFolders with
  | Err e => cs = [] /\ r = Err e
  | Ok None => cs = [] /\ r = Ok None
  | Ok (Some parent) =>
      exists r2, CreateUnderRun projectId parent folderName cs r2
                 /\ r = andThen r2 (fun created => Ok (Some created))
  end.

(** A run of [createRootFolder]: the top folders are asked for; a folder is
    created under one of them; when that gave no folder, for whatever
    reason, the folder is created directly under the project. *)
Definition RootRun (projectId folderName : string) (cs : list Exchange)
    (r : Result Json) : Prop :=
  exists r0, r = rethrowAs (fun _ => rootFailure folderName) r0 /\
  exists cs1 r1 cs2 r2,
    oneCall (topFoldersRequest env (extractHubId projectId) projectId) topFoldersOf
            cs1 r1
    /\ match r1 with
       | Ok topFolders => UnderTopRun projectId folderName topFolders cs2 r2
       | Err e => cs2 = [] /\ r2 = Err e
       end
    /\ match r2 with
       | Ok (Some created) => cs = (cs1 ++ cs2)%list /\ r0 = Ok created
       | _ =>
           exists cs3, cs = (cs1 ++ cs2 ++ cs3)%list
             /\ oneCall (directRequest projectId folderName)
                        (fun d => getProp d "data") cs3 r0
       end.

End RootVocabulary.

(** Fixture: the top folders are listed, the parent is read, the creation
    under it is answered by a body that cannot be read, and the creation
    under the project gives the folder. *)
Definition rootRetry : list (AxiosResult Json) :=
  [ topFoldersAnswer;
    folderAnswer "folders:autodesk.bim360:Folder";
    Fulfilled JNull;
    Fulfilled (JObj [("data", namedFolder "f9" "Reports")]) ].

(** ** More vocabulary: the requests of the earlier revision *)

(** Every request of the run is one of [kind], and there are at most [n]. *)
Definition every {A} (kind : Request -> Prop) (n : nat) (cs : list Exchange)
    (_ : Result A) : Prop :=
  Forall (fun c => kind (fst c)) cs /\ (length cs <= n)%nat.

(** The five requests of an upload in the earlier revision. *)
Definition earlierRequest {W} (env : Env W) (o : UploadFileOptions) (req : Request)
  : Prop :=
  (exists token, req = reserveRequest env o token)
  \/ (exists b k token, req = grantRequest env b k token)
  \/ (exists signedUrl, req = transferRequest signedUrl (fileBuffer o) (contentType o))
  \/ (exists b k token, req = finalizeRequest env (JStr "") b k token)
  \/ (exists objectId token,
        req = publishRequest env o "items:autodesk.core:File"
                "versions:autodesk.core:File" objectId token).

(** The three requests of an upload in the first revision. *)
Definition firstRequest {W} (env : Env W) (o : UploadFileOptions) (req : Request)
  : Prop :=
  (exists token, req = reserveRequest env o token)
  \/ (exists b k token,
        req = legacyPutRequest env (fileBuffer o) (contentType o) b k token)
  \/ (exists objectId token,
        req = publishRequest env o "items:autodesk.core:File"
                "versions:autodesk.core:File" objectId token).

(** ** More vocabulary: lookups over the traversal *)

(** The first of [folders] whose name or display name is [name], [null]
    when there is none. *)
Definition firstNamed (name : string) (folders : list Json) : Json :=
  match findFolder name folders with
  | Ok (Some folder) => folder
  | _ => JNull
  end.

(** The states in which [findFolderByName] and [listAllFoldersWithIds]
    start their traversal: one line was logged. *)
Definition searching {W} (projectId folderName : string) (s : State W) : State W :=
  snd (logger LOG ("Searching for folder: " ++ quoted folderName
                     ++ " in project " ++ projectId) JUndefined s).

Definition listing {W} (s : State W) : State W :=
  snd (logger LOG "=== LISTING ALL FOLDERS ===" JUndefined s).

(** * Properties *)

Local Open Scope list_scope.

Arguments URLSearchParams_toString : simpl never.
Arguments encodeURIComponent : simpl never.
Arguments signedUploadPath : simpl never.
Arguments storageBody : simpl never.
Arguments folderBody : simpl never.
Arguments firstVersionBody : simpl never.

(** ** Bookkeeping on the record of requests *)

Lemma skipn_length_app {A} (l l' : list A) : skipn (length l) (l ++ l') = l'.
Proof. induction l as [|x l IH]; simpl; auto. Qed.

Lemma newEvents_extend {W} (s s' : State W) (evs : list Event) :
  trace s' = trace s ++ evs -> newEvents s s' = evs.
Proof. unfold newEvents. intros ->. apply skipn_length_app. Qed.

Lemma newEvents_same {W} (s : State W) : newEvents s s = [].
Proof. apply newEvents_extend. now rewrite app_nil_r. Qed.

Lemma calls_app (xs ys : list Event) : calls (xs ++ ys) = calls xs ++ calls ys.
Proof.
  induction xs as [|[body res|req res] xs IH]; simpl; auto.
  now rewrite IH.
Qed.

(** ** Token lifecycle *)

Section TokenLifecycle.

Context {W : Type} (env : Env W).

Lemma authenticate_cached (s : State W) (c : AutodeskAuthContext) :
  authContext s = Some c ->
  Date_now env (world s) < expiresAt c - 300000 ->
  authenticate env s = (Ok (accessToken c), s).
Proof.
  intros Hc Hlt.
  unfold authenticate, try_catch, bind, get_authContext, isTokenValid, bind,
    get_authContext, now, ret.
  apply Z.ltb_lt in Hlt.
  rewrite Hc. cbn. rewrite Hc. cbn. now rewrite Hlt.
Qed.

Lemma authenticate_stale (s : State W) :
  cacheStale env s ->
  let body := URLSearchParams_toString (clientCredentialsParams env) in
  let res := fst (tokenEndpoint env (world s) body) in
  let w' := snd (tokenEndpoint env (world s) body) in
  let r := fst (authenticate env s) in
  let s' := snd (authenticate env s) in
  trace s' = trace s ++ [TokenPost body res] /\ world s' = w' /\
  match res with
  | Fulfilled t =>
      r = Ok (access_token t) /\ authContext s' = Some (grantedContext env t w')
  | Rejected _ _ =>
      r = Err authFailure /\ authContext s' = authContext s
  end.
Proof.
  intros Hstale. cbv zeta.
  unfold authenticate, try_catch, bind, get_authContext, isTokenValid, bind,
    get_authContext, now, ret, authClient_post, set_authContext, logger, throw.
  destruct Hstale as [Hc | (c & Hc & Hge)].
  - rewrite Hc. cbn.
    destruct (tokenEndpoint env (world s) _) as [[t|m d] w1]; cbn; auto.
  - apply Z.ltb_ge in Hge.
    rewrite Hc. cbn. rewrite Hc. cbn. rewrite Hge. cbn.
    destruct (tokenEndpoint env (world s) _) as [[t|m d] w1]; cbn; auto.
Qed.

(** C3.  2-legged [getAccessToken]: with a cached context and the clock
    strictly before [expiresAt] minus five minutes, the cached token is
    returned and nothing else happens (no grant, same state); otherwise
    exactly one client-credentials grant is posted, and when it is answered
    the cache is replaced by the whole new context and the new token is
    returned (when it is refused the call fails and the cache stays).  With
    no scopes configured the grant asks for the five default scopes. *)
Theorem getAccessToken_cached_or_one_grant (s : State W) :
  (forall c, authContext s = Some c ->
             Date_now env (world s) < expiresAt c - 300000 ->
             getAccessToken env s = (Ok (accessToken c), s)
             /\ grants (newEvents s (snd (getAccessToken env s))) = [])
  /\ (cacheStale env s ->
      let body := URLSearchParams_toString (clientCredentialsParams env) in
      let res := fst (tokenEndpoint env (world s) body) in
      let w' := snd (tokenEndpoint env (world s) body) in
      let r := fst (getAccessToken env s) in
      let s' := snd (getAccessToken env s) in
      newEvents s s' = [TokenPost body res] /\
      grants (newEvents s s') = [(body, res)] /\
      match res with
      | Fulfilled t =>
          r = Ok (access_token t) /\ authContext s' = Some (grantedContext env t w')
      | Rejected _ _ =>
          r = Err authFailure /\ authContext s' = authContext s
      end)
  /\ (scopes (options env) = None ->
      clientCredentialsParams env =
        [ ("client_id", clientId (options env));
          ("client_secret", clientSecret (options env));
          ("grant_type", "client_credentials"%string);
          ("scope",
           "data:read data:write data:create bucket:read bucket:create"%string) ]).
Proof.
  split; [|split].
  - intros c Hc Hlt. unfold getAccessToken.
    rewrite (authenticate_cached s c Hc Hlt). cbn [snd].
    now rewrite newEvents_same.
  - intros Hstale. cbv zeta.
    destruct (authenticate_stale s Hstale) as (Htr & _ & Hres).
    unfold getAccessToken. rewrite (newEvents_extend _ _ _ Htr).
    split; [reflexivity|]. split; [reflexivity | exact Hres].
  - intros Hnone. unfold clientCredentialsParams. now rewrite Hnone.
Qed.

(** C8.  The three 3-legged operations leave the cached 2-legged context as
    it was; the context they build goes to the caller only, as their
    result. *)
Theorem three_legged_leave_cache (s : State W) :
  (forall state, snd (getAuthorizationUrl env state s) = s)
  /\ (forall code,
        let res := fst (tokenEndpoint env (world s) (codeExchangeBody env code)) in
        let w' := snd (tokenEndpoint env (world s) (codeExchangeBody env code)) in
        let r := fst (getAccessTokenFromCode env code s) in
        let s' := snd (getAccessTokenFromCode env code s) in
        authContext s' = authContext s /\
        match res with
        | Fulfilled t => r = Ok (grantedContext env t w')
        | Rejected _ _ =>
            r = Err (UnauthorizedException "Failed to exchange authorization code")
        end)
  /\ (forall refreshToken,
        let res := fst (tokenEndpoint env (world s) (refreshBody env refreshToken)) in
        let r := fst (refreshAccessToken env refreshToken s) in
        let s' := snd (refreshAccessToken env refreshToken s) in
        authContext s' = authContext s /\
        match res with
        | Fulfilled t => exists c, r = Ok c /\ accessToken c = access_token t
        | Rejected _ _ =>
            r = Err (UnauthorizedException "Failed to refresh access token")
        end).
Proof.
  split; [|split].
  - intros state. reflexivity.
  - intros code. cbv zeta.
    unfold getAccessTokenFromCode, codeExchangeBody, try_catch, bind,
      authClient_post, now, ret, logger, throw.
    destruct (tokenEndpoint env (world s) _) as [[t|m d] w1]; cbn; auto.
  - intros refreshToken. cbv zeta.
    unfold refreshAccessToken, refreshBody, try_catch, bind,
      authClient_post, now, ret, logger, throw.
    destruct (tokenEndpoint env (world s) _) as [[t|m d] w1]; cbn; eauto.
Qed.

(** C10 as amended.  [refreshAccessToken]: when the grant response omits
    [refresh_token] or carries an empty one, the returned context carries
    the caller's [refreshToken] argument; otherwise it carries the
    response's.  The field is never absent, and never empty when the
    argument was not. *)
Theorem refreshAccessToken_refreshToken (s : State W) (given : string) :
  let res := fst (tokenEndpoint env (world s) (refreshBody env given)) in
  let r := fst (refreshAccessToken env given s) in
  match res with
  | Fulfilled t =>
      exists c, r = Ok c /\
        refreshToken c =
          Some (match refresh_token t with
                | None => given
                | Some fromResponse =>
                    if (fromResponse =? "")%string then given else fromResponse
                end)
        /\ (given <> ""%string -> refreshToken c <> Some ""%string)
  | Rejected _ _ =>
      r = Err (UnauthorizedException "Failed to refresh access token")
  end.
Proof.
  cbv zeta.
  unfold refreshAccessToken, refreshBody, try_catch, bind,
    authClient_post, now, ret, logger, throw.
  destruct (tokenEndpoint env (world s) _) as [[t|m d] w1]; cbn; auto.
  eexists. split; [reflexivity|]. cbn. split.
  - unfold orRefreshToken. destruct (refresh_token t); reflexivity.
  - intros Hgiven. unfold orRefreshToken.
    destruct (refresh_token t) as [fromResponse|].
    + destruct (String.eqb_spec fromResponse ""); congruence.
    + congruence.
Qed.

End TokenLifecycle.

(** Concrete runs on the scripted environment. *)

Lemma getAccessToken_cached_or_one_grant_witness :
  getAccessToken demoEnv (signedIn 1000000 (replies []))
    = (Ok "tok"%string, signedIn 1000000 (replies []))
  /\ fst (getAccessToken demoEnv (signedOut (oneGrant (demoToken "t1" None))))
      = Ok "t1"%string
  /\ In ("scope"%string,
         "data:read data:write data:create bucket:read bucket:create"%string)
        (clientCredentialsParams demoEnv).
Proof.
  split; [|split].
  - destruct (getAccessToken_cached_or_one_grant demoEnv
                (signedIn 1000000 (replies []))) as [H _].
    apply (H {| accessToken := "tok"; expiresAt := 1000000; refreshToken := None |}).
    + reflexivity.
    + vm_compute. reflexivity.
  - destruct (getAccessToken_cached_or_one_grant demoEnv
                (signedOut (oneGrant (demoToken "t1" None)))) as [_ [H _]].
    assert (Hstale : cacheStale demoEnv (signedOut (oneGrant (demoToken "t1" None))))
      by (left; reflexivity).
    exact (proj1 (proj2 (proj2 (H Hstale)))).
  - destruct (getAccessToken_cached_or_one_grant demoEnv
                (signedOut (oneGrant (demoToken "t1" None)))) as [_ [_ H]].
    rewrite (H eq_refl). cbn. auto.
Defined.

Lemma refreshAccessToken_refreshToken_witness :
  exists c,
    fst (refreshAccessToken demoEnv "abc"
           (signedOut (oneGrant (demoToken "t2" None)))) = Ok c
    /\ refreshToken c = Some "abc"%string
    /\ refreshToken c <> Some ""%string.
Proof.
  destruct (refreshAccessToken_refreshToken demoEnv
              (signedOut (oneGrant (demoToken "t2" None))) "abc")
    as (c & Hr & Hrt & Hne).
  exists c. split; [exact Hr|]. split; [exact Hrt|].
  apply Hne. discriminate.
Defined.

(** C10 as first worded fails: a response that does carry [refresh_token],
    but an empty one, is answered with the caller's token, not with the
    response's. *)
Lemma refreshAccessToken_empty_counterexample :
  let t := demoToken "t2" (Some ""%string) in
  refresh_token t <> None
  /\ exists c,
       fst (refreshAccessToken demoEnv "abc" (signedOut (oneGrant t))) = Ok c
       /\ refreshToken c = Some "abc"%string
       /\ refreshToken c <> refresh_token t.
Proof.
  cbv zeta. split; [discriminate|].
  eexists. split; [reflexivity|]. split; [reflexivity|]. discriminate.
Qed.

(** ** Type resolution *)

Lemma byParentType_string {A} (parentFolder : Json) (t : string) (dflt ifBim ifCore : A) :
  parentExtensionType parentFolder = Ok (JStr t) ->
  byParentType parentFolder dflt ifBim ifCore =
    Ok (if includes "bim360" t then ifBim
        else if includes "core" t then ifCore else dflt).
Proof.
  intros H. unfold byParentType. rewrite H. cbn.
  destruct (String.eqb_spec t "") as [->|Hne]; cbn; [reflexivity|].
  destruct (includes "bim360" t); cbn; [reflexivity|].
  destruct (includes "core" t); reflexivity.
Qed.

Lemma byParentType_falsy {A} (parentFolder v : Json) (dflt ifBim ifCore : A) :
  parentExtensionType parentFolder = Ok v -> truthy v = false ->
  byParentType parentFolder dflt ifBim ifCore = Ok dflt.
Proof. intros H Hf. unfold byParentType. rewrite H. cbn. now rewrite Hf. Qed.

(** C5 as amended.  For a parent whose extension type is the string [t]:
    children are of the BIM-collaboration kind when [t] contains "bim360";
    of the generic-core kind when [t] contains "core" and not "bim360"; of
    the BIM-collaboration kind when [t] contains neither.  A parent with no
    extension type (absent, null or empty) gives the BIM-collaboration kind
    too. *)
Theorem child_kind_follows_parent (parentFolder : Json) :
  (forall t, parentExtensionType parentFolder = Ok (JStr t) ->
     (includes "bim360" t = true -> resolvesTo parentFolder BimCollaboration)
     /\ (includes "bim360" t = false -> includes "core" t = true ->
         resolvesTo parentFolder GenericCore)
     /\ (includes "bim360" t = false -> includes "core" t = false ->
         resolvesTo parentFolder BimCollaboration))
  /\ (forall v, parentExtensionType parentFolder = Ok v -> truthy v = false ->
        resolvesTo parentFolder BimCollaboration).
Proof.
  split.
  - intros t Ht. unfold resolvesTo, folderExtensionType, itemVersionTypes.
    rewrite !(byParentType_string _ t) by exact Ht.
    repeat split; intros; repeat match goal with
                                 | H : includes _ _ = _ |- _ => rewrite H
                                 end; reflexivity.
  - intros v Hv Hf. unfold resolvesTo, folderExtensionType, itemVersionTypes.
    rewrite !(byParentType_falsy _ v) by assumption. split; reflexivity.
Qed.

Lemma child_kind_follows_parent_witness :
  resolvesTo (folderOfType "folders:autodesk.bim360:Folder") BimCollaboration
  /\ resolvesTo (folderOfType "folders:autodesk.core:Folder") GenericCore
  /\ resolvesTo (folderOfType "folders:autodesk.other:Folder") BimCollaboration
  /\ resolvesTo (JObj [("attributes", JObj [("name", JStr "Plans")])]) BimCollaboration.
Proof.
  split; [|split; [|split]].
  - destruct (proj1 (child_kind_follows_parent
                       (folderOfType "folders:autodesk.bim360:Folder"))
                    "folders:autodesk.bim360:Folder" eq_refl) as (H & _ & _).
    apply H. reflexivity.
  - destruct (proj1 (child_kind_follows_parent
                       (folderOfType "folders:autodesk.core:Folder"))
                    "folders:autodesk.core:Folder" eq_refl) as (_ & H & _).
    apply H; reflexivity.
  - destruct (proj1 (child_kind_follows_parent
                       (folderOfType "folders:autodesk.other:Folder"))
                    "folders:autodesk.other:Folder" eq_refl) as (_ & _ & H).
    apply H; reflexivity.
  - apply (proj2 (child_kind_follows_parent
                    (JObj [("attributes", JObj [("name", JStr "Plans")])]))
                 JUndefined); reflexivity.
Defined.

(** C5 as first worded fails: a parent type that contains "core" does not
    always give the generic-core kind; one that contains "bim360" as well
    gives the BIM-collaboration kind. *)
Lemma child_kind_both_markers_counterexample :
  let t := "folders:autodesk.bim360:core"%string in
  includes "core" t = true
  /\ resolvesTo (folderOfType t) BimCollaboration
  /\ ~ resolvesTo (folderOfType t) GenericCore.
Proof.
  cbv zeta. split; [reflexivity|]. split; [split; reflexivity|].
  intros [H _]. vm_compute in H. discriminate.
Qed.

(** ** The URN pattern *)

Lemma append_nil_r (a : string) : (a ++ "")%string = a.
Proof. induction a as [|x a IH]; simpl; [reflexivity | now rewrite IH]. Qed.

Lemma append_eq_nil (a b : string) : (a ++ b)%string = ""%string -> a = ""%string /\ b = ""%string.
Proof. destruct a; simpl; [auto | discriminate]. Qed.

Lemma stripPrefix_spec (p s r : string) :
  stripPrefix p s = Some r <-> s = (p ++ r)%string.
Proof.
  revert s. induction p as [|a p IH]; intros s; simpl.
  - split; [now intros [= ->] | now intros ->].
  - destruct s as [|b s]; [split; discriminate|].
    destruct (Ascii.eqb_spec a b) as [->|Hne].
    + rewrite IH. split; [now intros -> | now intros [= ->]].
    + split; [discriminate | intros [= -> _]; congruence].
Qed.

Lemma spanChars_spec (ok : ascii -> bool) (s a b : string) :
  spanChars ok s = (a, b) <->
  s = (a ++ b)%string /\ allChars ok a = true /\ stopsAt ok b.
Proof.
  split.
  - revert a b. induction s as [|c s IH]; intros a b; simpl.
    + intros [= <- <-]. simpl. auto.
    + destruct (ok c) eqn:Hc.
      * destruct (spanChars ok s) as [t l]. intros [= <- <-].
        destruct (IH t l eq_refl) as (-> & Ht & Hl).
        simpl. rewrite Hc, Ht. auto.
      * intros [= <- <-]. simpl. auto.
  - intros (-> & Ha & Hb). induction a as [|c a IH]; simpl in *.
    + destruct b as [|c b]; simpl in *; [reflexivity | now rewrite Hb].
    + apply andb_true_iff in Ha as [Hc Ha]. rewrite Hc, (IH Ha). reflexivity.
Qed.

Lemma matchUrnAt_spec (s bucket object : string) :
  matchUrnAt s = Some (bucket, object) <-> urnOccursAt s bucket object.
Proof.
  unfold matchUrnAt, urnOccursAt. split.
  - destruct (stripPrefix urnPrefix s) as [rest|] eqn:Hp; [|discriminate].
    apply stripPrefix_spec in Hp.
    destruct (spanChars notSlash rest) as [bk after] eqn:Hb.
    apply spanChars_spec in Hb as (Hrest & Hbk & _).
    destruct (String.eqb_spec bk "") as [|Hbne]; [discriminate|].
    destruct (stripPrefix "/" after) as [rest'|] eqn:Hs; [|discriminate].
    apply stripPrefix_spec in Hs.
    destruct (spanChars notLineTerminator rest') as [ob rem] eqn:Ho.
    apply spanChars_spec in Ho as (Hrest' & Hob & Hrem).
    destruct (String.eqb_spec ob "") as [|Hone]; [discriminate|].
    intros [= <- <-]. exists rem. subst. auto 10.
  - intros (rest & -> & Hbne & Hbk & Hone & Hob & Hrem).
    rewrite (proj2 (stripPrefix_spec urnPrefix _ _) eq_refl).
    rewrite (proj2 (spanChars_spec notSlash _ bucket ("/" ++ object ++ rest)%string)).
    2:{ split; [reflexivity | split; [exact Hbk | reflexivity]]. }
    destruct (String.eqb_spec bucket "") as [|_]; [contradiction|].
    rewrite (proj2 (stripPrefix_spec "/" _ (object ++ rest)%string) eq_refl).
    rewrite (proj2 (spanChars_spec notLineTerminator _ object rest)) by auto.
    destruct (String.eqb_spec object "") as [|_]; [contradiction|]. reflexivity.
Qed.

Lemma matchUrnAt_none (s : string) :
  matchUrnAt s = None <-> forall bucket object, ~ urnOccursAt s bucket object.
Proof.
  split.
  - intros Hn b o Ho. apply matchUrnAt_spec in Ho. congruence.
  - intros Hn. destruct (matchUrnAt s) as [[b o]|] eqn:Hm; [|reflexivity].
    apply matchUrnAt_spec in Hm. now apply Hn in Hm.
Qed.

Lemma matchUrn_step (c : ascii) (rest : string) :
  matchUrn (String c rest) =
    match matchUrnAt (String c rest) with
    | Some groups => Some groups
    | None => matchUrn rest
    end.
Proof. reflexivity. Qed.

Lemma matchUrn_some (id bucket object : string) :
  matchUrn id = Some (bucket, object) <-> urnLeftmost id bucket object.
Proof.
  unfold urnLeftmost. induction id as [|c id IH].
  - split.
    + cbn. discriminate.
    + intros (before & from_ & Hid & Ho & _). symmetry in Hid.
      apply append_eq_nil in Hid as [_ ->].
      apply matchUrnAt_spec in Ho. cbn in Ho. discriminate.
  - rewrite matchUrn_step. split.
    + destruct (matchUrnAt (String c id)) as [g|] eqn:Hat.
      * intros [= ->]. exists ""%string, (String c id). split; [reflexivity|].
        split; [now apply matchUrnAt_spec|].
        intros b1 b2 bk ob Hb Hne. symmetry in Hb.
        apply append_eq_nil in Hb as [_ ->]. congruence.
      * intros Hm. apply IH in Hm as (before & from_ & -> & Ho & Hleft).
        exists (String c before), from_. split; [reflexivity|]. split; [exact Ho|].
        intros b1 b2 bk ob Hb Hne. destruct b1 as [|c1 b1]; simpl in Hb.
        -- subst b2. simpl. now apply matchUrnAt_none.
        -- injection Hb as _ Hb. now apply (Hleft b1 b2).
    + intros (before & from_ & Hid & Ho & Hleft).
      destruct before as [|c' before]; simpl in Hid.
      * subst from_. apply matchUrnAt_spec in Ho. now rewrite Ho.
      * injection Hid as <- ->.
        assert (Hat : matchUrnAt (String c (before ++ from_)) = None).
        { apply matchUrnAt_none. intros bk ob.
          apply (Hleft ""%string (String c before) bk ob); [reflexivity|discriminate]. }
        rewrite Hat. apply IH. exists before, from_.
        split; [reflexivity|]. split; [exact Ho|].
        intros b1 b2 bk ob -> Hne.
        apply (Hleft (String c b1) b2 bk ob); [reflexivity | exact Hne].
Qed.

Lemma matchUrn_none (id : string) :
  matchUrn id = None <->
  forall before from_ bucket object,
    id = (before ++ from_)%string -> ~ urnOccursAt from_ bucket object.
Proof.
  induction id as [|c id IH].
  - split; [|reflexivity].
    intros _ before from_ b o Hid Ho. symmetry in Hid.
    apply append_eq_nil in Hid as [_ ->].
    apply matchUrnAt_spec in Ho. cbn in Ho. discriminate.
  - rewrite matchUrn_step. split.
    + destruct (matchUrnAt (String c id)) as [g|] eqn:Hat; [discriminate|].
      intros Hm before from_ b o Hid Ho.
      destruct before as [|c' before]; simpl in Hid.
      * subst from_. apply matchUrnAt_spec in Ho. congruence.
      * injection Hid as _ ->. now apply (proj1 IH Hm before from_ b o).
    + intros Hn.
      destruct (matchUrnAt (String c id)) as [[b o]|] eqn:Hat.
      * apply matchUrnAt_spec in Hat.
        now apply (Hn ""%string (String c id) b o) in Hat.
      * apply IH. intros before from_ b o -> Ho.
        now apply (Hn (String c before) from_ b o).
Qed.

Lemma urnForm_occurs (id bucket object : string) :
  urnForm id bucket object -> allChars notLineTerminator object = true ->
  urnOccursAt id bucket object.
Proof.
  intros (-> & Hb & Hs & Ho) Hlt. exists ""%string.
  rewrite append_nil_r. simpl. auto 10.
Qed.

(** ** Rules for [emits] *)

Section Emits.

Context {W : Type} (env : Env W).

Lemma emits_weaken {A} (m : M W A) (P Q : list Exchange -> Result A -> Prop) :
  emits m P -> (forall cs r, P cs r -> Q cs r) -> emits m Q.
Proof.
  intros Hm HPQ s. destruct (Hm s) as (evs & Ht & HP). exists evs. auto.
Qed.

Lemma emits_pure {A} (r : Result A) (P : list Exchange -> Result A -> Prop) :
  P [] r -> emits (W := W) (lift r) P.
Proof. intros HP s. exists []. cbn. rewrite app_nil_r. auto. Qed.

Lemma emits_ret {A} (a : A) (P : list Exchange -> Result A -> Prop) :
  P [] (Ok a) -> emits (W := W) (ret a) P.
Proof. apply (emits_pure (Ok a)). Qed.

Lemma emits_logger (lv : Level) (msg : string) (d : Json)
    (P : list Exchange -> Result unit -> Prop) :
  P [] (Ok tt) -> emits (W := W) (logger lv msg d) P.
Proof. intros HP s. exists []. cbn. rewrite app_nil_r. auto. Qed.

Lemma emits_bind {A B} (m : M W A) (k : A -> M W B)
    (P1 : list Exchange -> Result A -> Prop)
    (P2 : A -> list Exchange -> Result B -> Prop)
    (P : list Exchange -> Result B -> Prop) :
  emits m P1 ->
  (forall a, emits (k a) (P2 a)) ->
  (forall cs e, P1 cs (Err e) -> P cs (Err e)) ->
  (forall cs1 a cs2 r, P1 cs1 (Ok a) -> P2 a cs2 r -> P (cs1 ++ cs2) r) ->
  emits (bind m k) P.
Proof.
  intros Hm Hk Herr Hok s. unfold bind.
  destruct (Hm s) as (evs1 & Ht1 & HP1).
  destruct (m s) as [[a|e] s1]; simpl in *.
  - destruct (Hk a s1) as (evs2 & Ht2 & HP2).
    exists (evs1 ++ evs2). rewrite Ht2, Ht1, calls_app.
    split; [symmetry; apply app_assoc | eauto].
  - exists evs1. auto.
Qed.

Lemma emits_try_catch {A} (body : M W A) (handler : Exn -> M W A)
    (P1 : list Exchange -> Result A -> Prop)
    (P2 : Exn -> list Exchange -> Result A -> Prop)
    (P : list Exchange -> Result A -> Prop) :
  emits body P1 ->
  (forall e, emits (handler e) (P2 e)) ->
  (forall cs a, P1 cs (Ok a) -> P cs (Ok a)) ->
  (forall cs1 e cs2 r, P1 cs1 (Err e) -> P2 e cs2 r -> P (cs1 ++ cs2) r) ->
  emits (try_catch body handler) P.
Proof.
  intros Hm Hh Hok Herr s. unfold try_catch.
  destruct (Hm s) as (evs1 & Ht1 & HP1).
  destruct (body s) as [[a|e] s1]; simpl in *.
  - exists evs1. auto.
  - destruct (Hh e s1) as (evs2 & Ht2 & HP2).
    exists (evs1 ++ evs2). rewrite Ht2, Ht1, calls_app.
    split; [symmetry; apply app_assoc | eauto].
Qed.

Lemma emits_log_throw {A} (lv : Level) (msg : string) (d : Json) (e' : Exn) :
  emits (W := W) (A := A) (bind (logger lv msg d) (fun _ => throw e')) (throwsOnly e').
Proof. intros s. exists []. cbn. rewrite app_nil_r. unfold throwsOnly. auto. Qed.

Lemma emits_log_details_throw {A} (msg : string) (d : Json) (e e' : Exn) :
  emits (W := W) (A := A)
    (bind (logger ERROR msg d) (fun _ =>
     bind (if truthy (responseData e)
           then logger ERROR "Error details:"
                       (JStr (JSON_stringify env (responseData e)))
           else ret tt) (fun _ => throw e')))
    (throwsOnly e').
Proof.
  intros s. exists []. unfold throwsOnly.
  destruct (truthy (responseData e)) eqn:Ht; cbn; rewrite app_nil_r; auto.
Qed.

(** [try { body } catch (error) { log; throw f(error) }] *)
Lemma emits_catch_rethrow {A} (body : M W A) (handler : Exn -> M W A)
    (f : Exn -> Exn) (P : list Exchange -> Result A -> Prop) :
  emits body P ->
  (forall e, emits (handler e) (throwsOnly (f e))) ->
  emits (try_catch body handler) (fun cs r => exists r0, P cs r0 /\ r = rethrowAs f r0).
Proof.
  intros Hb Hh.
  apply (emits_try_catch body handler P (fun e => throwsOnly (f e))); auto.
  - intros cs a HP. exists (Ok a). auto.
  - intros cs1 e cs2 r HP [-> ->]. rewrite app_nil_r. exists (Err e). auto.
Qed.

Lemma rethrowAs_same {A} (r : Result A) : rethrowAs (fun e => e) r = r.
Proof. now destruct r. Qed.

(** ** What each call sends *)

Lemma authenticate_emits : emits (authenticate env) tokenOrFailure.
Proof.
  intros s. unfold tokenOrFailure.
  assert (Hcase :
    (exists c, authContext s = Some c
               /\ Date_now env (world s) < expiresAt c - 300000)
    \/ cacheStale env s).
  { unfold cacheStale. destruct (authContext s) as [c|]; [|auto].
    destruct (Z.lt_ge_cases (Date_now env (world s)) (expiresAt c - 300000));
      eauto 6. }
  destruct Hcase as [(c & Hc & Hlt) | Hstale].
  - rewrite (authenticate_cached env s c Hc Hlt). exists []. cbn.
    rewrite app_nil_r. eauto.
  - destruct (authenticate_stale env s Hstale) as (Ht & _ & Hres).
    eexists. split; [exact Ht|]. cbn. split; [reflexivity|].
    destruct (fst (tokenEndpoint env (world s) _)); destruct Hres as [-> _]; eauto.
Qed.

Lemma axios_request_emits (req : Request) :
  emits (axios_request env req)
        (fun cs r => exists res, cs = [(req, res)] /\ r = settle res).
Proof.
  intros s. unfold axios_request.
  destruct (http env (world s) req) as [[d|m d] w']; cbn;
    (eexists; split; [reflexivity|]; cbn; eauto).
Qed.

Lemma httpClient_request_emits (m : Method) (u : string) (hs : list (string * Json))
    (ps : list (string * Json)) (b : Body) :
  emits (httpClient_request env m u hs ps b) (oneCall (apiRequest env m u hs ps b) Ok).
Proof.
  unfold httpClient_request, getAccessToken.
  eapply emits_bind.
  - apply authenticate_emits.
  - intros token. apply axios_request_emits.
  - intros cs e [-> [[token [=]] | [= ->]]]. left. auto.
  - intros cs1 token cs2 r [-> _] (res & -> & ->). right.
    exists token, res. split; [reflexivity|]. now destruct res.
Qed.

End Emits.

(** ** What each method sends and returns *)

Section Methods.

Context {W : Type} (env : Env W).

(** A call through [httpClient] followed by steps that send nothing. *)
Lemma httpClient_call_emits {A} (m : Method) (u : string) (hs : list (string * Json))
    (ps : list (string * Json)) (b : Body) (k : Json -> M W A)
    (after : Json -> Result A) :
  (forall response, emits (k response) (silently (after response))) ->
  emits (bind (httpClient_request env m u hs ps b) k)
        (oneCall (apiRequest env m u hs ps b) after).
Proof.
  intros Hk.
  apply (emits_bind _ _ (oneCall (apiRequest env m u hs ps b) Ok)
                      (fun response => silently (after response))).
  - apply httpClient_request_emits.
  - exact Hk.
  - intros cs e [[-> [= ->]] | (token & res & -> & Hr)].
    + left. auto.
    + right. exists token, res. split; [reflexivity|].
      destruct res; cbn in *; congruence.
  - intros cs1 response cs2 r [[_ [=]] | (token & res & -> & Hr)] [-> ->].
    right. exists token, res. split; [reflexivity|].
    destruct res; cbn in *; congruence.
Qed.

Lemma lift_silently {A} (r : Result A) : emits (W := W) (lift r) (silently r).
Proof. apply emits_pure. split; reflexivity. Qed.

Lemma log_then_silently {A} (lv : Level) (msg : string) (d : Json) (k : M W A)
    (r : Result A) :
  emits k (silently r) -> emits (bind (logger lv msg d) (fun _ => k)) (silently r).
Proof.
  intros Hk.
  apply (emits_bind _ _ (silently (Ok tt)) (fun _ => silently r)).
  - apply emits_logger. split; reflexivity.
  - intros _. exact Hk.
  - intros cs e [_ [=]].
  - intros cs1 a cs2 r' [-> _] [-> ->]. split; reflexivity.
Qed.

Lemma log_silently (lv : Level) (msg : string) (d : Json) :
  emits (W := W) (logger lv msg d) (silently (Ok tt)).
Proof. apply emits_logger. split; reflexivity. Qed.

(** The common head of the storage-facing methods. *)
Lemma decoded_emits {A} (objectId : Json) (mk : string -> string -> string -> Request)
    (after : Json -> Result A) (k : string * string -> M W A) :
  (forall b key, emits (k (b, key)) (oneCall (mk b key) after)) ->
  emits (bind (lift (decodeObjectId objectId)) k) (decodedCall objectId mk after).
Proof.
  intros Hk.
  apply (emits_bind _ _ (silently (decodeObjectId objectId))
                      (fun g => oneCall (mk (fst g) (snd g)) after)).
  - apply lift_silently.
  - intros [b key]. apply Hk.
  - intros cs e [-> He]. unfold decodedCall. rewrite <- He. auto.
  - intros cs1 [b key] cs2 r [-> Hd] Hcall. unfold decodedCall.
    rewrite <- Hd. exact Hcall.
Qed.

Lemma rethrow_same_emits {A} (body : M W A) (handler : Exn -> M W A)
    (P : list Exchange -> Result A -> Prop) :
  emits body P ->
  (forall e, emits (handler e) (throwsOnly e)) ->
  emits (try_catch body handler) P.
Proof.
  intros Hb Hh.
  apply (emits_weaken _ _ _ (emits_catch_rethrow body handler (fun e => e) P Hb Hh)).
  intros cs r (r0 & HP & ->). now rewrite rethrowAs_same.
Qed.

Lemma createStorage_emits (o : UploadFileOptions) :
  emits (createStorage env (projectId o) (folderId o) (fileName o)) (ReserveRun env o).
Proof.
  unfold createStorage, httpClient_post, ReserveRun, reserveRequest.
  apply httpClient_call_emits. intros response. apply lift_silently.
Qed.

Lemma getSignedUploadUrl_emits (objectId : Json) :
  emits (getSignedUploadUrl env objectId) (GrantRun env objectId).
Proof.
  unfold getSignedUploadUrl. apply rethrow_same_emits.
  - apply decoded_emits. intros b key. unfold httpClient_get, grantRequest.
    apply httpClient_call_emits. intros response. apply lift_silently.
  - intros e. apply emits_log_throw.
Qed.

Lemma uploadToSignedUrl_emits (o : UploadFileOptions) (signedUrl : Json) :
  emits (uploadToSignedUrl env signedUrl (fileBuffer o) (contentType o))
        (TransferRun o signedUrl).
Proof.
  unfold uploadToSignedUrl. apply rethrow_same_emits.
  - apply (emits_bind _ _
             (fun cs r => exists res,
                cs = [(transferRequest signedUrl (fileBuffer o) (contentType o), res)]
                /\ r = settle res)
             (fun _ => silently (Ok tt))).
    + apply axios_request_emits.
    + intros response. apply log_silently.
    + intros cs e (res & -> & Hr). exists res. split; [reflexivity|].
      destruct res; cbn in *; congruence.
    + intros cs1 a cs2 r (res & -> & Hr) [-> ->]. exists res.
      split; [reflexivity|]. destruct res; cbn in *; congruence.
  - intros e. apply emits_log_throw.
Qed.

Lemma completeUpload_emits (objectId uploadKey : Json) :
  emits (completeUpload env objectId uploadKey) (FinalizeRun env objectId uploadKey).
Proof.
  unfold completeUpload. apply rethrow_same_emits.
  - apply decoded_emits. intros b key. unfold httpClient_post, finalizeRequest.
    apply httpClient_call_emits. intros response. apply log_silently.
  - intros e. apply emits_log_throw.
Qed.

Lemma uploadToStorage_emits (objectId : Json) (fileBuffer : list Byte.byte)
    (contentType : option string) :
  emits (uploadToStorage env objectId fileBuffer contentType)
        (decodedCall objectId (legacyPutRequest env fileBuffer contentType)
           (fun _ => Ok tt)).
Proof.
  unfold uploadToStorage. apply decoded_emits. intros b key.
  unfold legacyPutRequest. apply httpClient_call_emits.
  intros response. apply emits_ret. split; reflexivity.
Qed.

Lemma getFolder_emits (projectId folderId : string) :
  emits (getFolder env projectId folderId) (FolderRun env projectId folderId).
Proof.
  unfold getFolder, FolderRun. apply emits_catch_rethrow.
  - unfold httpClient_get, folderRequest. apply httpClient_call_emits.
    intros response. apply lift_silently.
  - intros e. apply emits_log_throw.
Qed.

Lemma getFolderContents_emits (projectId folderId : string) :
  emits (getFolderContents env projectId folderId) (ContentsRun env projectId folderId).
Proof.
  unfold getFolderContents, ContentsRun. apply emits_catch_rethrow.
  - unfold httpClient_get, contentsRequest. apply httpClient_call_emits.
    intros response. apply lift_silently.
  - intros e. apply emits_log_throw.
Qed.

Lemma log_then_emits {A} (lv : Level) (msg : string) (d : Json) (k : M W A)
    (P : list Exchange -> Result A -> Prop) :
  emits k P -> emits (bind (logger lv msg d) (fun _ => k)) P.
Proof.
  intros Hk s. unfold bind, logger.
  destruct (Hk (mkState (authContext s) (world s) (trace s)
                        (logs s ++ [ {| level := lv; text := msg; detail := d |} ])))
    as (evs & Ht & HP).
  exists evs. auto.
Qed.

Lemma bind_lift_emits {A B} (r : Result A) (k : A -> M W B)
    (P : list Exchange -> Result B -> Prop) :
  match r with
  | Ok a => emits (k a) P
  | Err e => P [] (Err e)
  end ->
  emits (bind (lift r) k) P.
Proof.
  destruct r as [a|e]; intros H s.
  - exact (H s).
  - exists []. cbn. rewrite app_nil_r. auto.
Qed.

Lemma createFirstVersion_emits (o : UploadFileOptions) (objectId : Json) :
  emits (createFirstVersion env (projectId o) (folderId o) (fileName o) objectId)
        (PublishRun env o objectId).
Proof.
  unfold createFirstVersion. apply rethrow_same_emits.
  2:{ intros e. apply emits_log_details_throw. }
  apply (emits_bind _ _ (FolderRun env (projectId o) (folderId o))
           (fun parentFolder cs r =>
              match itemVersionTypes parentFolder with
              | Err e => cs = [] /\ r = Err e
              | Ok (itemType, versionType) =>
                  oneCall (publishRequest env o itemType versionType objectId)
                          (fun d => getProp d "data") cs r
              end)).
  - apply getFolder_emits.
  - intros parentFolder. apply bind_lift_emits.
    destruct (itemVersionTypes parentFolder) as [[itemType versionType]|e]; [|auto].
    apply log_then_emits. unfold httpClient_post, publishRequest.
    apply httpClient_call_emits. intros response. apply lift_silently.
  - intros cs e Hf. exists cs, (Err e). split; [exact Hf|]. cbn. auto.
  - intros cs1 parentFolder cs2 r Hf Hk. exists cs1, (Ok parentFolder).
    split; [exact Hf|]. cbn.
    destruct (itemVersionTypes parentFolder) as [[itemType versionType]|e].
    + exists cs2. auto.
    + destruct Hk as [-> ->]. rewrite app_nil_r. auto.
Qed.

Lemma createFolder_emits (projectId parentFolderId folderName : string) :
  emits (createFolder env projectId parentFolderId folderName)
        (CreateFolderRun env projectId parentFolderId folderName).
Proof.
  unfold createFolder.
  eapply emits_weaken.
  - apply (emits_catch_rethrow _ _
             (fun _ => BadRequestException ("Failed to create folder: " ++ folderName))
             (fun cs r0 =>
                exists cs1 r1, FolderRun env projectId parentFolderId cs1 r1 /\
                  match andThen r1 (fun parentFolder => folderExtensionType parentFolder) with
                  | Err e => cs = cs1 /\ r0 = Err e
                  | Ok extensionType =>
                      exists cs2, cs = cs1 ++ cs2 /\
                        oneCall (newFolderRequest env projectId parentFolderId
                                   folderName extensionType)
                                (fun d => getProp d "data") cs2 r0
                  end)).
    2:{ intros e. apply emits_log_details_throw. }
    apply (emits_bind _ _ (FolderRun env projectId parentFolderId)
             (fun parentFolder cs r =>
                match folderExtensionType parentFolder with
                | Err e => cs = [] /\ r = Err e
                | Ok extensionType =>
                    oneCall (newFolderRequest env projectId parentFolderId
                               folderName extensionType)
                            (fun d => getProp d "data") cs r
                end)).
    + apply getFolder_emits.
    + intros parentFolder. apply bind_lift_emits.
      destruct (folderExtensionType parentFolder) as [extensionType|e]; [|auto].
      apply log_then_emits. unfold httpClient_post, newFolderRequest.
      apply httpClient_call_emits. intros response.
      apply log_then_silently, lift_silently.
    + intros cs e Hf. exists cs, (Err e). split; [exact Hf|]. cbn. auto.
    + intros cs1 parentFolder cs2 r Hf Hk. exists cs1, (Ok parentFolder).
      split; [exact Hf|]. cbn.
      destruct (folderExtensionType parentFolder) as [extensionType|e].
      * exists cs2. auto.
      * destruct Hk as [-> ->]. rewrite app_nil_r. auto.
  - intros cs r (r0 & H & ->). exists r0. auto.
Qed.

Lemma getProp_defined (v : Json) (k k' : string) (x : Json) :
  getProp v k = Ok x -> exists y, getProp v k' = Ok y.
Proof. destruct v; cbn; intros H; try discriminate; eauto. Qed.

Lemma findFolder_some (folderName : string) (folders : list Json) (folder : Json) :
  findFolder folderName folders = Ok (Some folder) ->
  In folder folders /\ folderNamed folderName folder = Ok true.
Proof.
  induction folders as [|f rest IH]; cbn; [discriminate|].
  destruct (folderNamed folderName f) as [[|]|e] eqn:Hn; cbn; try discriminate.
  - intros [= <-]. auto.
  - intros H. destruct (IH H). auto.
Qed.

Lemma getOrCreateFolder_emits (projectId parentFolderId folderName : string) :
  emits (getOrCreateFolder env projectId parentFolderId folderName)
        (GetOrCreateRun env projectId parentFolderId folderName).
Proof.
  unfold getOrCreateFolder. apply rethrow_same_emits.
  2:{ intros e. apply emits_log_throw. }
  apply (emits_bind _ _ (ContentsRun env projectId parentFolderId)
           (fun contents cs r =>
              match findFolder folderName (fst contents) with
              | Err e => cs = [] /\ r = Err e
              | Ok (Some folder) => cs = [] /\ r = Ok folder
              | Ok None => CreateFolderRun env projectId parentFolderId folderName cs r
              end)).
  - apply getFolderContents_emits.
  - intros contents. apply bind_lift_emits.
    destruct (findFolder folderName (fst contents)) as [[folder|]|e] eqn:Hfind; [| |auto].
    + apply findFolder_some in Hfind as [_ Hn].
      unfold folderNamed, andThen in Hn.
      destruct (getProp folder "attributes") as [attributes|] eqn:Ha; [|discriminate].
      destruct (getProp_defined _ _ "id" _ Ha) as [folderIdValue ->].
      apply bind_lift_emits, log_then_emits, emits_ret. auto.
    + apply log_then_emits, createFolder_emits.
  - intros cs e Hc. exists cs, (Err e). split; [exact Hc|]. cbn. auto.
  - intros cs1 contents cs2 r Hc Hk. exists cs1, (Ok contents).
    split; [exact Hc|]. cbn.
    destruct (findFolder folderName (fst contents)) as [[folder|]|e].
    + destruct Hk as [-> ->]. rewrite app_nil_r. auto.
    + exists cs2. auto.
    + destruct Hk as [-> ->]. rewrite app_nil_r. auto.
Qed.

End Methods.

(** ** The upload pipeline *)

Section Upload.

Context {W : Type} (env : Env W).

Lemma uploadFile_emits (o : UploadFileOptions) :
  emits (uploadFile env o) (UploadRun env o).
Proof.
  unfold uploadFile, UploadRun. cbv zeta. apply emits_catch_rethrow.
  2:{ intros e. apply emits_log_throw. }
  (* Step 1 *)
  apply (emits_bind _ _ (ReserveRun env o)
           (fun storage cs r =>
              forall cs0, ReserveRun env o cs0 (Ok storage) ->
                          PipelineRun env o (cs0 ++ cs) r)).
  { apply createStorage_emits. }
  2:{ intros cs e H. right. exists Reserve, e. split; [reflexivity|].
      now apply stopped_reserve. }
  2:{ intros cs1 storage cs2 r H Hk. now apply Hk. }
  intros storage. apply log_then_emits.
  destruct (getProp storage "id") as [storageId|cause] eqn:Hid.
  2:{ apply bind_lift_emits. intros cs0 H. rewrite app_nil_r. right.
      exists Grant, cause. split; [reflexivity|].
      now apply (stopped_storage_id env o cs0 storage). }
  apply bind_lift_emits.
  (* Step 2 *)
  apply (emits_bind _ _ (GrantRun env storageId)
           (fun grant cs r =>
              forall cs0, Granted env o cs0 storageId (fst grant) (snd grant) ->
                          PipelineRun env o (cs0 ++ cs) r)).
  { apply getSignedUploadUrl_emits. }
  2:{ intros cs e H cs0 H0. right. exists Grant, e. split; [reflexivity|].
      apply stopped_grant with (storageId := storageId); [|exact H].
      exists storage. auto. }
  2:{ intros cs1 [signedUrl uploadKey] cs2 r H Hk cs0 H0. rewrite app_assoc.
      apply Hk. exists cs0, cs1. split; [reflexivity|]. split; [|exact H].
      exists storage. auto. }
  intros [signedUrl uploadKey]. cbn [fst snd].
  (* Step 3 *)
  apply (emits_bind _ _ (TransferRun o signedUrl)
           (fun _ cs r =>
              forall cs0, Transferred env o cs0 storageId uploadKey ->
                          PipelineRun env o (cs0 ++ cs) r)).
  { apply uploadToSignedUrl_emits. }
  2:{ intros cs e H cs0 H0. right. exists Transfer, e. split; [reflexivity|].
      now apply stopped_transfer with (storageId := storageId)
                                      (signedUrl := signedUrl) (uploadKey := uploadKey). }
  2:{ intros cs1 [] cs2 r H Hk cs0 H0. rewrite app_assoc.
      apply Hk. exists cs0, cs1, signedUrl. auto. }
  intros _. apply bind_lift_emits.
  (* Step 4 *)
  apply (emits_bind _ _ (FinalizeRun env storageId uploadKey)
           (fun _ cs r =>
              forall cs0, Finalized env o cs0 storageId ->
                          PipelineRun env o (cs0 ++ cs) r)).
  { apply completeUpload_emits. }
  2:{ intros cs e H cs0 H0. right. exists Finalize, e. split; [reflexivity|].
      now apply stopped_finalize with (storageId := storageId) (uploadKey := uploadKey). }
  2:{ intros cs1 [] cs2 r H Hk cs0 H0. rewrite app_assoc.
      apply Hk. exists cs0, cs1, uploadKey. auto. }
  intros _. apply bind_lift_emits.
  (* Step 5 *)
  apply (emits_bind _ _ (PublishRun env o storageId)
           (fun item cs r =>
              forall cs0, Published env o cs0 item ->
                          PipelineRun env o (cs0 ++ cs) r)).
  { apply createFirstVersion_emits. }
  2:{ intros cs e H cs0 H0. right. exists Publish, e. split; [reflexivity|].
      now apply stopped_publish with (storageId := storageId). }
  2:{ intros cs1 item cs2 r H Hk cs0 H0. rewrite app_assoc.
      apply Hk. exists cs0, cs1, storageId. auto. }
  intros item. apply log_then_emits, emits_ret.
  intros cs0 H. rewrite app_nil_r. left. exists item. auto.
Qed.

End Upload.

(** ** Reading the runs *)

Section Reading.

Context {W : Type} (env : Env W).

Lemma oneCall_ok {A} (mk : string -> Request) (after : Json -> Result A)
    (cs : list Exchange) (a : A) :
  oneCall mk after cs (Ok a) ->
  exists token d, cs = [(mk token, Fulfilled d)] /\ after d = Ok a.
Proof.
  intros [[_ [=]] | (token & res & -> & Hr)].
  destruct res as [d|m d]; cbn in Hr; [|discriminate]. eauto.
Qed.

Lemma oneCall_calls {A} (mk : string -> Request) (after : Json -> Result A)
    (cs : list Exchange) (r : Result A) :
  oneCall mk after cs r -> cs = [] \/ exists token res, cs = [(mk token, res)].
Proof. intros [[-> _] | (token & res & -> & _)]; eauto. Qed.

Lemma decodedCall_ok {A} (objectId : Json)
    (mk : string -> string -> string -> Request) (after : Json -> Result A)
    (cs : list Exchange) (a : A) :
  decodedCall objectId mk after cs (Ok a) ->
  exists b k token d,
    decodeObjectId objectId = Ok (b, k)
    /\ cs = [(mk b k token, Fulfilled d)] /\ after d = Ok a.
Proof.
  unfold decodedCall. destruct (decodeObjectId objectId) as [[b k]|e].
  - intros H. apply oneCall_ok in H as (token & d & -> & Ha). eauto 8.
  - intros [_ [=]].
Qed.

Lemma decodedCall_calls {A} (objectId : Json)
    (mk : string -> string -> string -> Request) (after : Json -> Result A)
    (cs : list Exchange) (r : Result A) :
  decodedCall objectId mk after cs r ->
  cs = [] \/ exists b k token res,
               decodeObjectId objectId = Ok (b, k) /\ cs = [(mk b k token, res)].
Proof.
  unfold decodedCall. destruct (decodeObjectId objectId) as [[b k]|e].
  - intros H. apply oneCall_calls in H as [-> | (token & res & ->)]; eauto 8.
  - intros [-> _]. auto.
Qed.

Lemma FolderRun_ok (projectId folderId : string) (cs : list Exchange) (folder : Json) :
  FolderRun env projectId folderId cs (Ok folder) ->
  exists token d,
    cs = [(folderRequest env projectId folderId token, Fulfilled d)]
    /\ getProp d "data" = Ok folder.
Proof.
  intros (r0 & Hcall & Hr). destruct r0 as [x|e]; cbn in Hr; [|discriminate].
  injection Hr as <-. now apply oneCall_ok in Hcall.
Qed.

Lemma FolderRun_calls (projectId folderId : string) (cs : list Exchange) (r : Result Json) :
  FolderRun env projectId folderId cs r ->
  cs = [] \/ exists token res, cs = [(folderRequest env projectId folderId token, res)].
Proof. intros (r0 & Hcall & _). now apply oneCall_calls in Hcall. Qed.

Lemma PublishRun_ok (o : UploadFileOptions) (objectId : Json) (cs : list Exchange)
    (item : Json) :
  PublishRun env o objectId cs (Ok item) ->
  exists t5 d5 parentFolder itemType versionType t6 d6,
    cs = [ (folderRequest env (projectId o) (folderId o) t5, Fulfilled d5);
           (publishRequest env o itemType versionType objectId t6, Fulfilled d6) ]
    /\ getProp d5 "data" = Ok parentFolder
    /\ itemVersionTypes parentFolder = Ok (itemType, versionType)
    /\ getProp d6 "data" = Ok item.
Proof.
  intros (cs1 & r1 & Hf & Hrest). destruct r1 as [parentFolder|e]; cbn in Hrest.
  - apply FolderRun_ok in Hf as (t5 & d5 & -> & Hd5).
    destruct (itemVersionTypes parentFolder) as [[itemType versionType]|e] eqn:Ht.
    + destruct Hrest as (cs2 & -> & Hcall).
      apply oneCall_ok in Hcall as (t6 & d6 & -> & Hd6).
      exists t5, d5, parentFolder, itemType, versionType, t6, d6. auto.
    + destruct Hrest as [_ [=]].
  - destruct Hrest as [_ [=]].
Qed.

Lemma PublishRun_calls (o : UploadFileOptions) (objectId : Json) (cs : list Exchange)
    (r : Result Json) :
  PublishRun env o objectId cs r ->
  cs = []
  \/ (exists t5 res5, cs = [(folderRequest env (projectId o) (folderId o) t5, res5)])
  \/ (exists t5 d5 parentFolder itemType versionType t6 res6,
        cs = [ (folderRequest env (projectId o) (folderId o) t5, Fulfilled d5);
               (publishRequest env o itemType versionType objectId t6, res6) ]
        /\ getProp d5 "data" = Ok parentFolder
        /\ itemVersionTypes parentFolder = Ok (itemType, versionType)).
Proof.
  intros (cs1 & r1 & Hf & Hrest). destruct r1 as [parentFolder|e]; cbn in Hrest.
  - apply FolderRun_ok in Hf as (t5 & d5 & -> & Hd5).
    destruct (itemVersionTypes parentFolder) as [[itemType versionType]|e] eqn:Ht.
    + destruct Hrest as (cs2 & -> & Hcall).
      apply oneCall_calls in Hcall as [-> | (t6 & res6 & ->)]; cbn.
      * eauto.
      * right. right. exists t5, d5, parentFolder, itemType, versionType, t6, res6.
        auto.
    + destruct Hrest as [-> _]. eauto.
  - destruct Hrest as [-> _].
    apply FolderRun_calls in Hf as [-> | (t5 & res5 & ->)]; eauto.
Qed.

End Reading.

(** ** From the states of an upload to the exchanges on the wire *)

Section Sequence.

Context {W : Type} (env : Env W).

Lemma Reserved_calls (o : UploadFileOptions) (cs : list Exchange) (id : Json) :
  Reserved env o cs id ->
  exists t1 d1 storage,
    cs = [(reserveRequest env o t1, Fulfilled d1)]
    /\ getProp d1 "data" = Ok storage /\ getProp storage "id" = Ok id.
Proof.
  intros (storage & Hrun & Hid).
  apply oneCall_ok in Hrun as (t1 & d1 & -> & Hd1). eauto 8.
Qed.

Lemma TransferRun_ok (o : UploadFileOptions) (url : Json) (cs : list Exchange) :
  TransferRun o url cs (Ok tt) ->
  exists d3, cs = [(transferRequest url (fileBuffer o) (contentType o), Fulfilled d3)].
Proof.
  intros (res & -> & Hr). destruct res as [d3|m d]; cbn in Hr; [eauto|discriminate].
Qed.

Lemma Granted_flow (o : UploadFileOptions) (cs : list Exchange) (id url key : Json) :
  Granted env o cs id url key ->
  exists f, cs = firstn 2 (pipeline env o f) /\ Linked f 3
            /\ storageId f = id /\ signedUrl f = url /\ uploadKey f = key.
Proof.
  intros (cs1 & cs2 & -> & Hres & Hgrant).
  apply Reserved_calls in Hres as (t1 & d1 & storage & -> & Hd1 & Hid).
  apply decodedCall_ok in Hgrant as (b & k & t2 & d2 & Hdec & -> & Hd2).
  exists (flowReserve t1 (Fulfilled d1) id b k t2 (Fulfilled d2) url key).
  split; [reflexivity|]. split; [|auto].
  unfold Linked; cbn. repeat split; intros; try lia; eauto 8.
Qed.

Lemma Linked_transfer (f : Flow) (n : nat) (a3 a4 : AxiosResult Json) (t4 : string) :
  Linked f 3 -> (n <= 5)%nat ->
  ((4 <= n)%nat -> exists d3, a3 = Fulfilled d3) ->
  ((5 <= n)%nat -> exists d4, a4 = Fulfilled d4) ->
  Linked (flowTransfer f a3 t4 a4) n.
Proof.
  intros (H2 & H3 & _) Hn Ha3 Ha4. unfold Linked; cbn.
  split; [intros; apply H2; lia|]. split; [intros; apply H3; lia|].
  split; [exact Ha3|]. split; [exact Ha4 | intros; lia].
Qed.

Lemma Linked_publish (f : Flow) (n : nat) (t5 t6 it vt : string)
    (a5 a6 : AxiosResult Json) :
  Linked f 5 ->
  ((6 <= n)%nat ->
     exists d5 parentFolder,
       a5 = Fulfilled d5 /\ getProp d5 "data" = Ok parentFolder
       /\ itemVersionTypes parentFolder = Ok (it, vt)) ->
  Linked (flowPublish f t5 a5 it vt t6 a6) n.
Proof.
  intros (H2 & H3 & H4 & H5 & _) Ha5. unfold Linked; cbn.
  split; [intros; apply H2; lia|]. split; [intros; apply H3; lia|].
  split; [intros; apply H4; lia|]. split; [intros; apply H5; lia | exact Ha5].
Qed.

Lemma Linked_fewer (f : Flow) (n m : nat) : Linked f n -> (m <= n)%nat -> Linked f m.
Proof.
  intros (H2 & H3 & H4 & H5 & H6) Hm. unfold Linked.
  split; [intros; apply H2; lia|]. split; [intros; apply H3; lia|].
  split; [intros; apply H4; lia|].
  split; [intros; apply H5; lia | intros; apply H6; lia].
Qed.

Lemma Transferred_flow (o : UploadFileOptions) (cs : list Exchange) (id key : Json) :
  Transferred env o cs id key ->
  exists f, cs = firstn 3 (pipeline env o f) /\ Linked f 4
            /\ storageId f = id /\ uploadKey f = key.
Proof.
  intros (cs1 & cs2 & url & -> & Hg & Ht).
  apply Granted_flow in Hg as (f & -> & Hl & Hid & Hurl & Hkey).
  apply TransferRun_ok in Ht as (d3 & ->). subst url.
  exists (flowTransfer f (Fulfilled d3) "" unsent).
  split; [reflexivity|]. split; [|auto].
  apply Linked_transfer; eauto; intros; lia.
Qed.

Lemma Finalized_flow (o : UploadFileOptions) (cs : list Exchange) (id : Json) :
  Finalized env o cs id ->
  exists f, cs = firstn 4 (pipeline env o f) /\ Linked f 5 /\ storageId f = id.
Proof.
  intros (cs1 & cs2 & key & -> & Ht & Hf).
  apply Transferred_flow in Ht as (f & -> & Hl & Hid & Hkey).
  apply decodedCall_ok in Hf as (b & k & t4 & d4 & Hdec & -> & _).
  pose proof (Linked_fewer f 4 3 Hl ltac:(lia)) as Hl3.
  destruct Hl as (H2 & H3 & H4 & H5).
  destruct (H2 ltac:(lia)) as (d1 & storage & Ha1 & Hd1 & Hsid & Hdec').
  destruct (H4 ltac:(lia)) as (d3 & Ha3).
  rewrite Hid in Hdec'. rewrite Hdec in Hdec'. injection Hdec' as -> ->.
  exists (flowTransfer f (Fulfilled d3) t4 (Fulfilled d4)).
  split; [cbn; rewrite Ha3, Hkey; reflexivity|]. split; [|auto].
  apply Linked_transfer; eauto.
Qed.

Lemma Published_flow (o : UploadFileOptions) (cs : list Exchange) (item : Json) :
  Published env o cs item ->
  exists f d6, cs = pipeline env o f /\ Linked f 6
               /\ answer6 f = Fulfilled d6 /\ getProp d6 "data" = Ok item.
Proof.
  intros (cs1 & cs2 & id & -> & Hf & Hp).
  apply Finalized_flow in Hf as (f & -> & Hl & Hid).
  apply PublishRun_ok in Hp
    as (t5 & d5 & parentFolder & it & vt & t6 & d6 & -> & Hd5 & Htypes & Hd6).
  exists (flowPublish f t5 (Fulfilled d5) it vt t6 (Fulfilled d6)), d6.
  subst id. split; [reflexivity|]. split; [|auto].
  apply Linked_publish; eauto.
Qed.

Lemma Linked_start (f : Flow) (n : nat) : (n <= 1)%nat -> Linked f n.
Proof. intros Hn. unfold Linked. repeat split; intros; lia. Qed.

Lemma StoppedAt_prefix (o : UploadFileOptions) (st : Stage) (cause : Exn)
    (cs : list Exchange) :
  StoppedAt env o st cause cs ->
  exists f n, (n <= callsThrough st)%nat
              /\ cs = firstn n (pipeline env o f) /\ Linked f n.
Proof.
  intros H. destruct H as
    [ cs cause Hr
    | cs storage cause Hr Hid
    | cs1 cs2 id cause Hres Hg
    | cs1 cs2 id url key cause Hg Ht
    | cs1 cs2 id key cause Ht Hf
    | cs1 cs2 id cause Hf Hp ].
  - apply oneCall_calls in Hr as [-> | (t1 & res & ->)].
    + exists (flowReserve "" unsent JUndefined "" "" "" unsent JUndefined JUndefined), 0%nat.
      cbn. split; [lia|]. split; [reflexivity | apply Linked_start; lia].
    + exists (flowReserve t1 res JUndefined "" "" "" unsent JUndefined JUndefined), 1%nat.
      cbn. split; [lia|]. split; [reflexivity | apply Linked_start; lia].
  - apply oneCall_ok in Hr as (t1 & d1 & -> & _).
    exists (flowReserve t1 (Fulfilled d1) JUndefined "" "" "" unsent JUndefined JUndefined),
           1%nat.
    cbn. split; [lia|]. split; [reflexivity | apply Linked_start; lia].
  - apply Reserved_calls in Hres as (t1 & d1 & storage & -> & Hd1 & Hid).
    apply decodedCall_calls in Hg as [-> | (b & k & t2 & res & Hdec & ->)].
    + exists (flowReserve t1 (Fulfilled d1) id "" "" "" unsent JUndefined JUndefined),
             1%nat.
      cbn. split; [lia|]. split; [reflexivity | apply Linked_start; lia].
    + exists (flowReserve t1 (Fulfilled d1) id b k t2 res JUndefined JUndefined), 2%nat.
      cbn. split; [lia|]. split; [reflexivity|].
      unfold Linked; cbn. repeat split; intros; try lia. eauto 8.
  - apply Granted_flow in Hg as (f & -> & Hl & Hid & Hurl & Hkey).
    destruct Ht as (res & -> & _). subst url.
    exists (flowTransfer f res "" unsent), 3%nat.
    cbn. split; [lia|]. split; [reflexivity|].
    apply Linked_transfer; auto; intros; lia.
  - apply Transferred_flow in Ht as (f & -> & Hl & Hid & Hkey).
    apply decodedCall_calls in Hf as [-> | (b & k & t4 & res & Hdec & ->)].
    + exists f, 3%nat. cbn. split; [lia|]. split; [reflexivity|].
      apply (Linked_fewer f 4); [exact Hl | lia].
    + pose proof (Linked_fewer f 4 3 Hl ltac:(lia)) as Hl3.
      destruct Hl as (H2 & H3 & H4 & H5).
      destruct (H2 ltac:(lia)) as (d1 & storage & Ha1 & Hd1 & Hsid & Hdec').
      destruct (H4 ltac:(lia)) as (d3 & Ha3).
      rewrite Hid in Hdec'. rewrite Hdec in Hdec'. injection Hdec' as -> ->.
      exists (flowTransfer f (Fulfilled d3) t4 res), 4%nat.
      cbn. split; [lia|]. split; [rewrite Ha3, Hkey; reflexivity|].
      apply Linked_transfer; eauto; intros; lia.
  - apply Finalized_flow in Hf as (f & -> & Hl & Hid). subst id.
    apply PublishRun_calls in Hp
      as [-> | [(t5 & res5 & ->)
               | (t5 & d5 & parentFolder & it & vt & t6 & res6 & -> & Hd5 & Htypes)]].
    + exists f, 4%nat. cbn. split; [lia|]. split; [reflexivity|].
      apply (Linked_fewer f 5); [exact Hl | lia].
    + exists (flowPublish f t5 res5 "" "" "" unsent), 5%nat.
      cbn. split; [lia|]. split; [reflexivity|].
      apply Linked_publish; [exact Hl | intros; lia].
    + exists (flowPublish f t5 (Fulfilled d5) it vt t6 res6), 6%nat.
      cbn. split; [lia|]. split; [reflexivity|].
      apply Linked_publish; eauto.
Qed.

Lemma callsThrough_le (st : Stage) : (callsThrough st <= 6)%nat.
Proof. destruct st; cbn; lia. Qed.

(** Every run of [uploadFile] sends a prefix of one pipeline. *)
Lemma UploadRun_prefix (o : UploadFileOptions) (cs : list Exchange) (r : Result Json) :
  UploadRun env o cs r ->
  exists f n, (n <= 6)%nat /\ cs = firstn n (pipeline env o f) /\ Linked f n
    /\ forall item, r = Ok item ->
         n = 6%nat /\ exists d6, answer6 f = Fulfilled d6 /\ getProp d6 "data" = Ok item.
Proof.
  intros (r0 & [(item & -> & Hpub) | (st & cause & -> & Hstop)] & ->); cbn.
  - apply Published_flow in Hpub as (f & d6 & -> & Hl & Ha6 & Hd6).
    exists f, 6%nat. split; [lia|]. split; [reflexivity|]. split; [exact Hl|].
    intros item' [= <-]. eauto.
  - apply StoppedAt_prefix in Hstop as (f & n & Hn & -> & Hl).
    exists f, n. pose proof (callsThrough_le st).
    split; [lia|]. split; [reflexivity|]. split; [exact Hl|]. discriminate.
Qed.

Lemma uploadFile_run (o : UploadFileOptions) (s : State W) :
  UploadRun env o (calls (newEvents s (snd (uploadFile env o s))))
            (fst (uploadFile env o s)).
Proof.
  destruct (uploadFile_emits env o s) as (evs & Ht & Hrun).
  now rewrite (newEvents_extend _ _ _ Ht).
Qed.

End Sequence.

(** ** Properties of the upload pipeline *)

Section UploadProperties.

Context {W : Type} (env : Env W).

Lemma in_pipeline_prefix (o : UploadFileOptions) (f : Flow) (n : nat) (c : Exchange) :
  In c (firstn n (pipeline env o f)) ->
  exists i, (i < n)%nat /\ nth_error (pipeline env o f) i = Some c.
Proof.
  intros Hin. apply In_nth_error in Hin as [i Hi]. exists i.
  assert (Hlt : (i < length (firstn n (pipeline env o f)))%nat)
    by (apply nth_error_Some; congruence).
  rewrite length_firstn in Hlt.
  rewrite nth_error_firstn in Hi.
  destruct (Nat.ltb_spec i n); [auto | discriminate].
Qed.

Lemma grant_in_pipeline (o : UploadFileOptions) (f : Flow) (n : nat)
    (req : Request) (res : AxiosResult Json) :
  In (req, res) (firstn n (pipeline env o f)) -> isGrantCall req ->
  (2 <= n)%nat /\ res = answer2 f.
Proof.
  intros Hin [Hm (b & k & Hu)].
  apply in_pipeline_prefix in Hin as (i & Hi & Hnth).
  unfold pipeline in Hnth.
  destruct i as [|[|[|[|[|[|i]]]]]]; cbn in Hnth;
    [injection Hnth as <- <-; cbn in Hm, Hu; try discriminate ..
    | destruct i; discriminate].
  all: try (unfold signedUploadPath in Hu; cbn in Hu; discriminate).
  split; [lia | reflexivity].
Qed.

Lemma finalize_in_pipeline (o : UploadFileOptions) (f : Flow) (n : nat)
    (req : Request) (res : AxiosResult Json) :
  In (req, res) (firstn n (pipeline env o f)) -> isFinalizeCall req ->
  (4 <= n)%nat
  /\ req = finalizeRequest env (uploadKey f) (bucketKey f) (objectKey f) (token4 f).
Proof.
  intros Hin [Hm (b & k & Hu)].
  apply in_pipeline_prefix in Hin as (i & Hi & Hnth).
  unfold pipeline in Hnth.
  destruct i as [|[|[|[|[|[|i]]]]]]; cbn in Hnth;
    [injection Hnth as <- <-; cbn in Hm, Hu; try discriminate ..
    | destruct i; discriminate].
  all: try (unfold signedUploadPath in Hu; cbn in Hu; discriminate).
  split; [lia | reflexivity].
Qed.

Lemma put_in_pipeline (o : UploadFileOptions) (f : Flow) (n : nat)
    (req : Request) (res : AxiosResult Json) :
  In (req, res) (firstn n (pipeline env o f)) -> method req = PUT ->
  req = transferRequest (signedUrl f) (fileBuffer o) (contentType o).
Proof.
  intros Hin Hm.
  apply in_pipeline_prefix in Hin as (i & Hi & Hnth).
  unfold pipeline in Hnth.
  destruct i as [|[|[|[|[|[|i]]]]]]; cbn in Hnth;
    [injection Hnth as <- <-; cbn in Hm; try discriminate ..
    | destruct i; discriminate].
  reflexivity.
Qed.

Lemma signedUpload_key (d url key : Json) :
  signedUpload d = Ok (url, key) -> getProp d "uploadKey" = Ok key.
Proof.
  unfold signedUpload, andThen.
  destruct (getProp d "urls") as [urls|]; [|discriminate].
  destruct (index0 urls) as [u|]; [|discriminate].
  destruct (getProp d "uploadKey") as [x|]; [|discriminate].
  now intros [= _ ->].
Qed.

(** C1.  In every upload, whenever the grant request (the GET on the
    signed-upload path) was answered with a non-empty [uploadKey], every
    finalize request (the POST on the signed-upload path) has exactly that
    key as the [uploadKey] of its body, so never the empty string. *)
Theorem finalize_carries_granted_key (o : UploadFileOptions) (s : State W)
    (reqG : Request) (d : Json) (key : string)
    (reqF : Request) (resF : AxiosResult Json) :
  let cs := calls (newEvents s (snd (uploadFile env o s))) in
  In (reqG, Fulfilled d) cs -> isGrantCall reqG ->
  getProp d "uploadKey" = Ok (JStr key) -> key <> ""%string ->
  In (reqF, resF) cs -> isFinalizeCall reqF ->
  data reqF = JsonBody (JObj [("uploadKey", JStr key)])
  /\ data reqF <> JsonBody (JObj [("uploadKey", JStr "")]).
Proof.
  cbv zeta. intros HinG HG Hkey Hne HinF HF.
  destruct (UploadRun_prefix env o _ _ (uploadFile_run env o s))
    as (f & n & Hn & Hcs & Hl & _).
  rewrite Hcs in HinG, HinF.
  destruct (grant_in_pipeline o f n _ _ HinG HG) as [_ Ha2].
  destruct (finalize_in_pipeline o f n _ _ HinF HF) as [Hn4 ->].
  destruct Hl as (_ & H3 & _). destruct (H3 ltac:(lia)) as (d2 & Ha2' & Hd2).
  rewrite Ha2' in Ha2. injection Ha2 as ->.
  apply signedUpload_key in Hd2. rewrite Hkey in Hd2. injection Hd2 as <-.
  cbn. split; [reflexivity|]. intros [= ->]. now apply Hne.
Qed.

(** C4.  The transfer is one PUT sent with plain axios: the body is the raw
    buffer, the headers are the content type (application/octet-stream
    when the caller gives none) and the length and nothing else, so no
    Authorization header; no token is asked for and the cached context is
    not touched.  In an upload, every PUT is this request. *)
Theorem transfer_without_bearer (o : UploadFileOptions) (s : State W) :
  (forall signedUrl,
     let run := uploadToSignedUrl env signedUrl (fileBuffer o) (contentType o) s in
     let req := transferRequest signedUrl (fileBuffer o) (contentType o) in
     authContext (snd run) = authContext s
     /\ (exists res, newEvents s (snd run) = [HttpCall req res])
     /\ headers req =
          [ ("Content-Type", JStr (contentTypeOrDefault (contentType o)));
            ("Content-Length", JNum (Z.of_nat (length (fileBuffer o)))) ]
     /\ lookup "Authorization" (headers req) = JUndefined
     /\ data req = BufferBody (fileBuffer o))
  /\ contentTypeOrDefault None = "application/octet-stream"%string
  /\ (forall req res,
        In (req, res) (calls (newEvents s (snd (uploadFile env o s)))) ->
        method req = PUT ->
        exists signedUrl,
          req = transferRequest signedUrl (fileBuffer o) (contentType o)).
Proof.
  split; [|split; [reflexivity|]].
  - intros signedUrl. cbv zeta.
    unfold uploadToSignedUrl, try_catch, bind, axios_request, logger, throw.
    destruct (http env (world s) _) as [[d|m d] w'] eqn:Hh; cbn;
      (split; [reflexivity|]); (split; [|auto]);
      eexists; apply newEvents_extend; cbn; reflexivity.
  - intros req res Hin Hm.
    destruct (UploadRun_prefix env o _ _ (uploadFile_run env o s))
      as (f & n & Hn & Hcs & Hl & _).
    rewrite Hcs in Hin. exists (signedUrl f). now apply (put_in_pipeline o f n req res).
Qed.

(** C2 as amended.  An upload that succeeds has sent exactly the six
    requests of the pipeline in order -- Reserve, Grant, Transfer, Finalize,
    and the folder lookup and composite request of Publish -- each built
    from the answers before it; the composite request embeds a first
    version whose storage relationship is the id of the storage object of
    stage 1; and the item returned is the primary [data] of the answer to
    that request. *)
Theorem upload_success_sequence (o : UploadFileOptions) (s : State W) (item : Json) :
  fst (uploadFile env o s) = Ok item ->
  exists f d1 storage d6,
    calls (newEvents s (snd (uploadFile env o s))) = pipeline env o f
    /\ Linked f 6
    /\ answer1 f = Fulfilled d1 /\ getProp d1 "data" = Ok storage
    /\ getProp storage "id" = Ok (storageId f)
    /\ includedStorageId
         (firstVersionBody (folderId o) (fileName o) (itemType f) (versionType f)
            (storageId f)) = Ok (storageId f)
    /\ answer6 f = Fulfilled d6 /\ getProp d6 "data" = Ok item.
Proof.
  intros Hok.
  destruct (UploadRun_prefix env o _ _ (uploadFile_run env o s))
    as (f & n & Hn & Hcs & Hl & Hitem).
  destruct (Hitem item Hok) as (-> & d6 & Ha6 & Hd6).
  pose proof Hl as (H2 & _).
  destruct (H2 ltac:(lia)) as (d1 & storage & Ha1 & Hd1 & Hid & _).
  exists f, d1, storage, d6. cbn in Hcs. auto 10.
Qed.

(** C7 as amended.  An upload that fails stopped in one stage: the stages
    before it went through, the stage threw, nothing was sent afterwards and
    nothing was sent twice (at most as many exchanges as the pipeline has up
    to that stage); the caller gets a [BadRequestException] whose message
    is "Failed to upload file: " followed by the message of what the stage
    threw.  The stage itself is not part of the result. *)
Theorem upload_failure_wrapped (o : UploadFileOptions) (s : State W) (e : Exn) :
  fst (uploadFile env o s) = Err e ->
  let cs := calls (newEvents s (snd (uploadFile env o s))) in
  exists st cause,
    e = BadRequestException ("Failed to upload file: " ++ message cause)
    /\ StoppedAt env o st cause cs
    /\ (length cs <= callsThrough st)%nat.
Proof.
  intros Herr. cbv zeta. pose proof (uploadFile_run env o s) as Hrun.
  rewrite Herr in Hrun.
  destruct Hrun as (r0 & [(item & -> & _) | (st & cause & -> & Hstop)] & Hr);
    cbn in Hr; [discriminate|]. injection Hr as ->.
  exists st, cause. split; [reflexivity|]. split; [exact Hstop|].
  apply StoppedAt_prefix in Hstop as (f & n & Hn & -> & _).
  rewrite length_firstn. lia.
Qed.

End UploadProperties.

(** Concrete runs on the scripted environment. *)

Lemma finalize_carries_granted_key_witness :
  data (finalizeRequest demoEnv (JStr "key-1") "bucketA" "obj1" "tok")
    = JsonBody (JObj [("uploadKey", JStr "key-1")])
  /\ data (finalizeRequest demoEnv (JStr "key-1") "bucketA" "obj1" "tok")
       <> JsonBody (JObj [("uploadKey", JStr "")]).
Proof.
  apply (finalize_carries_granted_key demoEnv demoUpload (facing happyPath)
           (grantRequest demoEnv "bucketA" "obj1" "tok")
           (JObj [("uploadKey", JStr "key-1");
                  ("urls", JArr [JStr "https://s3.example/upload"])])
           "key-1"
           (finalizeRequest demoEnv (JStr "key-1") "bucketA" "obj1" "tok")
           emptyAnswer).
  - vm_compute. right. left. reflexivity.
  - split; [reflexivity | exists "bucketA"%string, "obj1"%string; reflexivity].
  - reflexivity.
  - discriminate.
  - vm_compute. do 3 right. left. reflexivity.
  - split; [reflexivity | exists "bucketA"%string, "obj1"%string; reflexivity].
Defined.

Lemma transfer_without_bearer_witness :
  exists signedUrl,
    transferRequest (JStr "https://s3.example/upload") (fileBuffer demoUpload) None
      = transferRequest signedUrl (fileBuffer demoUpload) (contentType demoUpload).
Proof.
  destruct (transfer_without_bearer demoEnv demoUpload (facing happyPath))
    as (_ & _ & H).
  apply (H _ emptyAnswer).
  - vm_compute. do 2 right. left. reflexivity.
  - reflexivity.
Defined.

Lemma upload_success_sequence_witness :
  exists f d1 storage d6,
    calls (newEvents (facing happyPath)
             (snd (uploadFile demoEnv demoUpload (facing happyPath))))
      = pipeline demoEnv demoUpload f
    /\ Linked f 6
    /\ answer1 f = Fulfilled d1 /\ getProp d1 "data" = Ok storage
    /\ getProp storage "id" = Ok (storageId f)
    /\ includedStorageId
         (firstVersionBody (folderId demoUpload) (fileName demoUpload)
            (itemType f) (versionType f) (storageId f)) = Ok (storageId f)
    /\ answer6 f = Fulfilled d6 /\ getProp d6 "data" = Ok demoItem.
Proof.
  apply (upload_success_sequence demoEnv demoUpload (facing happyPath) demoItem).
  vm_compute. reflexivity.
Defined.

(** C2 as first worded fails: the item that a successful upload returns is
    the primary [data] of the answer; the version and its storage
    relationship are not inside it. *)
Lemma upload_returns_primary_data_counterexample :
  let run := uploadFile demoEnv demoUpload (facing happyPath) in
  fst run = Ok demoItem
  /\ nth_error (calls (newEvents (facing happyPath) (snd run))) 0
       = Some (reserveRequest demoEnv demoUpload "tok", storageAnswer)
  /\ mentions demoStorageId demoItem = false
  /\ includedStorageId demoItem <> Ok (JStr demoStorageId).
Proof.
  cbv zeta. split; [vm_compute; reflexivity|]. split; [vm_compute; reflexivity|].
  split; [vm_compute; reflexivity|]. vm_compute. discriminate.
Qed.

Lemma upload_failure_wrapped_witness :
  exists st cause,
    BadRequestException "Failed to upload file: Network Error"
      = BadRequestException ("Failed to upload file: " ++ message cause)
    /\ StoppedAt demoEnv demoUpload st cause
         (calls (newEvents (facing [])
                   (snd (uploadFile demoEnv demoUpload (facing [])))))
    /\ (length (calls (newEvents (facing [])
                         (snd (uploadFile demoEnv demoUpload (facing [])))))
        <= callsThrough st)%nat.
Proof.
  apply (upload_failure_wrapped demoEnv demoUpload (facing [])).
  vm_compute. reflexivity.
Defined.

(** C7 as first worded fails: what the caller gets does not tell the stage.
    An upload refused at Reserve and one refused at Transfer fail with the
    same exception. *)
Lemma upload_failure_stage_counterexample :
  let runA := uploadFile demoEnv demoUpload (facing []) in
  let runB := uploadFile demoEnv demoUpload (facing [storageAnswer; grantAnswer]) in
  let refused := AxiosError "Network Error" JUndefined in
  StoppedAt demoEnv demoUpload Reserve refused
    (calls (newEvents (facing []) (snd runA)))
  /\ StoppedAt demoEnv demoUpload Transfer refused
       (calls (newEvents (facing [storageAnswer; grantAnswer]) (snd runB)))
  /\ fst runA = fst runB
  /\ fst runA = Err (BadRequestException "Failed to upload file: Network Error").
Proof.
  cbv zeta. split; [|split; [|split; vm_compute; reflexivity]].
  - apply stopped_reserve. right.
    exists "tok"%string, (Rejected "Network Error" JUndefined).
    split; vm_compute; reflexivity.
  - apply (stopped_transfer demoEnv demoUpload
             [ (reserveRequest demoEnv demoUpload "tok", storageAnswer);
               (grantRequest demoEnv "bucketA" "obj1" "tok", grantAnswer) ]
             [ (transferRequest (JStr "https://s3.example/upload")
                  (fileBuffer demoUpload) (contentType demoUpload),
                Rejected "Network Error" JUndefined) ]
             (JStr demoStorageId) (JStr "https://s3.example/upload") (JStr "key-1")).
    + exists [ (reserveRequest demoEnv demoUpload "tok", storageAnswer) ],
             [ (grantRequest demoEnv "bucketA" "obj1" "tok", grantAnswer) ].
      split; [reflexivity|]. split.
      * exists (JObj [("type", JStr "objects"); ("id", JStr demoStorageId)]).
        split; [|reflexivity]. right.
        exists "tok"%string, storageAnswer. split; reflexivity.
      * unfold GrantRun, decodedCall.
        replace (decodeObjectId (JStr demoStorageId))
          with (Ok ("bucketA"%string, "obj1"%string) : Result (string * string))
          by (vm_compute; reflexivity).
        right. exists "tok"%string, grantAnswer. split; reflexivity.
    + exists (Rejected "Network Error" JUndefined). split; reflexivity.
Qed.

(** ** Properties of the storage-facing methods *)

Section StorageMethods.

Context {W : Type} (env : Env W).

Lemma emits_run {A} (m : M W A) (P : list Exchange -> Result A -> Prop) (s : State W) :
  emits m P -> P (calls (newEvents s (snd (m s)))) (fst (m s)).
Proof.
  intros Hm. destruct (Hm s) as (evs & Ht & HP).
  now rewrite (newEvents_extend _ _ _ Ht).
Qed.

Lemma decodeObjectId_string (id : string) :
  decodeObjectId (JStr id) =
    match matchUrn id with
    | Some groups => Ok groups
    | None => Err (BadRequestException "Invalid object ID format")
    end.
Proof. unfold decodeObjectId. cbn. now destruct (matchUrn id). Qed.

(** C6 as amended.  For a string [id], decoding succeeds exactly when the
    pattern occurs somewhere in [id]: the prefix urn:adsk.objects:os.object:,
    a non-empty bucket without a slash, a slash, and a non-empty object
    without a line terminator; it yields the bucket and the object of the
    leftmost occurrence, the object running up to the first line terminator
    or the end.  When the pattern occurs nowhere (as in "not-a-urn") it
    fails with BadRequestException "Invalid object ID format".  An id that
    as a whole has the form prefix, bucket, slash, object, with no line
    terminator in the object, decodes to that bucket and object.
    [getSignedUploadUrl], [completeUpload] and [uploadToStorage] all decode
    first: they send nothing and throw the decoding error when it fails,
    and otherwise address the bucket and the object it yields. *)
Theorem urn_decoding (id : string) :
  (forall b k, decodeObjectId (JStr id) = Ok (b, k) <-> urnLeftmost id b k)
  /\ (decodeObjectId (JStr id) = Err (BadRequestException "Invalid object ID format")
      <-> forall before from_ b k,
            id = (before ++ from_)%string -> ~ urnOccursAt from_ b k)
  /\ (forall b k, urnForm id b k -> allChars notLineTerminator k = true ->
                  decodeObjectId (JStr id) = Ok (b, k))
  /\ decodeObjectId (JStr "not-a-urn")
       = Err (BadRequestException "Invalid object ID format")
  /\ (forall (s : State W) uploadKey fileBuffer contentType,
        decodedCall (JStr id) (grantRequest env) signedUpload
          (calls (newEvents s (snd (getSignedUploadUrl env (JStr id) s))))
          (fst (getSignedUploadUrl env (JStr id) s))
        /\ decodedCall (JStr id) (finalizeRequest env uploadKey) (fun _ => Ok tt)
             (calls (newEvents s (snd (completeUpload env (JStr id) uploadKey s))))
             (fst (completeUpload env (JStr id) uploadKey s))
        /\ decodedCall (JStr id) (legacyPutRequest env fileBuffer contentType)
             (fun _ => Ok tt)
             (calls (newEvents s
                       (snd (uploadToStorage env (JStr id) fileBuffer contentType s))))
             (fst (uploadToStorage env (JStr id) fileBuffer contentType s))).
Proof.
  split; [|split; [|split; [|split]]].
  - intros b k. rewrite decodeObjectId_string, <- matchUrn_some.
    destruct (matchUrn id) as [g|]; split; congruence.
  - rewrite decodeObjectId_string, <- matchUrn_none.
    destruct (matchUrn id) as [g|]; split; congruence.
  - intros b k Hform Hk. rewrite decodeObjectId_string.
    assert (Hm : matchUrn id = Some (b, k)).
    { apply matchUrn_some. exists ""%string, id. split; [reflexivity|].
      split; [now apply urnForm_occurs|].
      intros b1 b2 bk ob Hb Hne. symmetry in Hb.
      apply append_eq_nil in Hb as [_ ->]. congruence. }
    now rewrite Hm.
  - reflexivity.
  - intros s uploadKey fileBuffer contentType. split; [|split].
    + apply (emits_run _ _ s (getSignedUploadUrl_emits env (JStr id))).
    + apply (emits_run _ _ s (completeUpload_emits env (JStr id) uploadKey)).
    + apply (emits_run _ _ s (uploadToStorage_emits env (JStr id) fileBuffer contentType)).
Qed.

End StorageMethods.

Lemma urn_decoding_witness :
  decodeObjectId (JStr demoStorageId) = Ok ("bucketA"%string, "obj1"%string).
Proof.
  destruct (urn_decoding demoEnv demoStorageId) as (_ & _ & H & _).
  apply H.
  - unfold urnForm. repeat split; try reflexivity; discriminate.
  - reflexivity.
Defined.

(** C6 as first worded fails: the pattern is not anchored, so an id that
    is not of the form urn:adsk.objects:os.object:<bucket>/<object> still
    decodes when the pattern occurs inside it. *)
Lemma urn_unanchored_counterexample :
  let id := "xurn:adsk.objects:os.object:b/o"%string in
  decodeObjectId (JStr id) = Ok ("b"%string, "o"%string)
  /\ ~ exists bucket object, urnForm id bucket object.
Proof.
  cbv zeta. split; [reflexivity|].
  intros (bucket & object & H & _). cbn in H. discriminate.
Qed.

(** ** Folder lookup *)

Lemma filterByType_in (ty : string) (items kept : list Json) :
  filterByType ty items = Ok kept ->
  (forall x, In x items -> exists t, getProp x "type" = Ok t)
  /\ (forall x, In x kept ->
        In x items /\ exists t, getProp x "type" = Ok t /\ strictEqStr t ty = true).
Proof.
  revert kept. induction items as [|y items IH]; cbn; intros kept.
  - intros [= <-]. split; intros x [].
  - destruct (getProp y "type") as [t|] eqn:Hy; cbn; [|discriminate].
    destruct (filterByType ty items) as [kept'|]; cbn; [|discriminate].
    destruct (IH kept' eq_refl) as [Hty Hin]. intros [= <-]. split.
    + intros x [<- | Hx]; eauto.
    + intros x Hx. destruct (strictEqStr t ty) eqn:Ht.
      * destruct Hx as [<- | Hx]; [eauto|]. destruct (Hin x Hx). auto.
      * destruct (Hin x Hx). auto.
Qed.

Lemma filterByType_defined (ty : string) (items : list Json) :
  (forall x, In x items -> exists t, getProp x "type" = Ok t) ->
  exists kept,
    filterByType ty items = Ok kept
    /\ forall x t, In x items -> getProp x "type" = Ok t -> strictEqStr t ty = true ->
                   In x kept.
Proof.
  induction items as [|y items IH]; cbn; intros Hty.
  - exists []. split; [reflexivity | intros x t []].
  - destruct (Hty y (or_introl eq_refl)) as [t Hy]. rewrite Hy. cbn.
    destruct IH as (kept & -> & Hkept); [auto|]. cbn.
    eexists. split; [reflexivity|].
    intros x t' [<- | Hx] Hx' Heq.
    + rewrite Hy in Hx'. injection Hx' as <-. rewrite Heq. now left.
    + destruct (strictEqStr t ty); [right|]; eauto.
Qed.

Lemma findFolder_none (folderName : string) (folders : list Json) :
  findFolder folderName folders = Ok None ->
  forall x, In x folders -> folderNamed folderName x = Ok false.
Proof.
  induction folders as [|f rest IH]; cbn; [intros _ x []|].
  destruct (folderNamed folderName f) as [[|]|e] eqn:Hn; cbn; try discriminate.
  intros H x [<- | Hx]; auto.
Qed.

Lemma findFolder_first (folderName : string) (folders : list Json) (a : Json) :
  (forall x, In x folders -> x = a \/ folderNamed folderName x = Ok false) ->
  In a folders -> folderNamed folderName a = Ok true ->
  findFolder folderName folders = Ok (Some a).
Proof.
  intros Hall Hin Ha. induction folders as [|f rest IH]; [destruct Hin|]. cbn.
  destruct (Hall f (or_introl eq_refl)) as [-> | Hf].
  - rewrite Ha. reflexivity.
  - rewrite Hf. cbn. destruct Hin as [-> | Hin]; [congruence|].
    apply IH; auto. intros x Hx. apply Hall. now right.
Qed.

Section FolderLookup.

Context {W : Type} (env : Env W).

Lemma ContentsRun_head (projectId folderId : string) (cs : list Exchange)
    (r : Result (list Json * list Json)) (c : Exchange) :
  ContentsRun env projectId folderId cs r -> hd_error cs = Some c ->
  cs = [c]
  /\ r = rethrowAs (fun _ => Error "Failed to fetch folder contents")
           (andThen (settle (snd c)) folderContents).
Proof.
  intros (r0 & [[-> _] | (t & res & -> & ->)] & ->) Hhd; cbn in Hhd; [discriminate|].
  injection Hhd as <-. auto.
Qed.

Lemma GetOrCreateRun_head (p parent name : string) (cs : list Exchange)
    (r : Result Json) (c : Exchange) :
  GetOrCreateRun env p parent name cs r -> hd_error cs = Some c ->
  exists cs2,
    cs = c :: cs2 /\
    match andThen (rethrowAs (fun _ => Error "Failed to fetch folder contents")
                     (andThen (settle (snd c)) folderContents))
                  (fun contents => findFolder name (fst contents)) with
    | Err e => cs2 = [] /\ r = Err e
    | Ok (Some folder) => cs2 = [] /\ r = Ok folder
    | Ok None => CreateFolderRun env p parent name cs2 r
    end.
Proof.
  intros (cs1 & r1 & Hc & Hrest) Hhd.
  assert (Hhd1 : hd_error cs1 = Some c).
  { destruct cs1 as [|c1 cs1].
    - destruct Hc as (r0 & [[_ ->] | (t & res & [=] & _)] & ->). cbn in Hrest.
      destruct Hrest as [-> _]. discriminate.
    - destruct (andThen r1 _) as [[folder|]|e].
      + destruct Hrest as [-> _]. exact Hhd.
      + destruct Hrest as (cs2 & -> & _). exact Hhd.
      + destruct Hrest as [-> _]. exact Hhd. }
  destruct (ContentsRun_head _ _ _ _ _ Hc Hhd1) as [-> ->].
  destruct (andThen (rethrowAs _ _) _) as [[folder|]|e].
  - destruct Hrest as [-> ->]. exists []. auto.
  - destruct Hrest as (cs2 & -> & Hcreate). exists cs2. auto.
  - destruct Hrest as [-> ->]. exists []. auto.
Qed.

Lemma CreateFolderRun_calls (p parent name : string) (cs : list Exchange)
    (r : Result Json) (req : Request) (res : AxiosResult Json) :
  CreateFolderRun env p parent name cs r -> In (req, res) cs ->
  (exists t, req = folderRequest env p parent t)
  \/ (exists ext t, req = newFolderRequest env p parent name ext t).
Proof.
  intros (r0 & _ & cs1 & r1 & Hf & Hrest) Hin.
  apply FolderRun_calls in Hf as [-> | (t & res1 & ->)];
    destruct (andThen r1 _) as [ext|e].
  - destruct Hrest as (cs2 & -> & Hcall).
    apply oneCall_calls in Hcall as [-> | (t2 & res2 & ->)]; cbn in Hin.
    + destruct Hin.
    + destruct Hin as [[= <- _] | []]. eauto.
  - destruct Hrest as [-> _]. destruct Hin.
  - destruct Hrest as (cs2 & -> & Hcall).
    apply oneCall_calls in Hcall as [-> | (t2 & res2 & ->)]; cbn in Hin.
    + destruct Hin as [[= <- _] | []]. eauto.
    + destruct Hin as [[= <- _] | [[= <- _] | []]]; eauto.
  - destruct Hrest as [-> _]. destruct Hin as [[= <- _] | []]. eauto.
Qed.

Lemma GetOrCreateRun_calls (p parent name : string) (cs : list Exchange)
    (r : Result Json) (req : Request) (res : AxiosResult Json) :
  GetOrCreateRun env p parent name cs r -> In (req, res) cs ->
  (exists t, req = contentsRequest env p parent t)
  \/ (exists t, req = folderRequest env p parent t)
  \/ (exists ext t, req = newFolderRequest env p parent name ext t).
Proof.
  intros (cs1 & r1 & Hc & Hrest) Hin.
  assert (Hcs1 : forall c, In c cs1 -> exists t, fst c = contentsRequest env p parent t).
  { destruct Hc as (r0 & [[-> _] | (t & res0 & -> & _)] & _); intros c [].
    - subst c. cbn. eexists. reflexivity.
    - contradiction. }
  destruct (andThen r1 _) as [[folder|]|e].
  - destruct Hrest as [-> _]. left. apply (Hcs1 _ Hin).
  - destruct Hrest as (cs2 & -> & Hcreate). apply in_app_or in Hin as [Hin | Hin].
    + left. apply (Hcs1 _ Hin).
    + right. apply (CreateFolderRun_calls _ _ _ _ _ _ _ Hcreate Hin).
  - destruct Hrest as [-> _]. left. apply (Hcs1 _ Hin).
Qed.

Lemma folderContents_listing (d : Json) (listing : list Json) :
  getProp d "data" = Ok (JArr listing) ->
  folderContents d =
    andThen (filterByType "folders" listing) (fun folders =>
    andThen (filterByType "items" listing) (fun items => Ok (folders, items))).
Proof. intros H. unfold folderContents. rewrite H. reflexivity. Qed.

(** C9.  [getOrCreateFolder] lists the children of the parent and nothing
    else (its other requests read the parent itself and create the folder
    under it); a child matches when its name or its displayName is the name
    asked for.  After a call that created the folder, a second call with
    the same arguments -- whose listing shows that folder, as a folder with
    that name, next to entries of the first listing only -- returns it, so
    the same id, and sends nothing but the listing request. *)
Theorem getOrCreateFolder_idempotent (p parent name : string) :
  (forall s req res,
     In (req, res)
        (calls (newEvents s (snd (getOrCreateFolder env p parent name s)))) ->
     (exists t, req = contentsRequest env p parent t)
     \/ (exists t, req = folderRequest env p parent t)
     \/ (exists ext t, req = newFolderRequest env p parent name ext t))
  /\ (forall folder attributes,
        getProp folder "attributes" = Ok attributes ->
        folderNamed name folder =
          Ok (strictEqStr (getPropOpt attributes "name") name
              || strictEqStr (getPropOpt attributes "displayName") name))
  /\ (forall s0 created t1 d1 listing1 s t2 d2 listing2 again,
        let run1 := getOrCreateFolder env p parent name s0 in
        let cs1 := calls (newEvents s0 (snd run1)) in
        let run2 := getOrCreateFolder env p parent name s in
        let cs2 := calls (newEvents s (snd run2)) in
        fst run1 = Ok created -> sentCreate cs1 ->
        hd_error cs1 = Some (contentsRequest env p parent t1, Fulfilled d1) ->
        getProp d1 "data" = Ok (JArr listing1) ->
        hd_error cs2 = Some (contentsRequest env p parent t2, Fulfilled d2) ->
        getProp d2 "data" = Ok (JArr listing2) ->
        In again listing2 ->
        getProp again "type" = Ok (JStr "folders") ->
        folderNamed name again = Ok true ->
        getProp again "id" = getProp created "id" ->
        (forall other, In other listing2 -> other = again \/ In other listing1) ->
        (exists folder, fst run2 = Ok folder
                        /\ getProp folder "id" = getProp created "id")
        /\ cs2 = [(contentsRequest env p parent t2, Fulfilled d2)]
        /\ ~ sentCreate cs2).
Proof.
  split; [|split].
  - intros s req res Hin.
    apply (GetOrCreateRun_calls p parent name _ _ req res
             (emits_run _ _ s (getOrCreateFolder_emits env p parent name)) Hin).
  - intros folder attributes Ha. unfold folderNamed. now rewrite Ha.
  - intros s0 created t1 d1 listing1 s t2 d2 listing2 again. cbv zeta.
    intros Hok Hsent Hhd1 Hd1 Hhd2 Hd2 Hin Htype Hnamed Hsame Hrest.
    (* the first call found no folder of that name *)
    pose proof (emits_run _ _ s0 (getOrCreateFolder_emits env p parent name)) as Hrun1.
    apply (GetOrCreateRun_head p parent name _ _ _ Hrun1) in Hhd1
      as (csx & Hcs1 & Hm1).
    cbn [snd settle andThen] in Hm1. rewrite (folderContents_listing _ _ Hd1) in Hm1.
    destruct (filterByType "folders" listing1) as [folders1|] eqn:Hf1; cbn in Hm1;
      [|destruct Hm1 as [_ Hr]; congruence].
    destruct (filterByType "items" listing1) as [items1|] eqn:Hi1; cbn in Hm1;
      [|destruct Hm1 as [_ Hr]; congruence].
    destruct (findFolder name folders1) as [[found|]|] eqn:Hfind1;
      [ | clear Hm1 | destruct Hm1 as [_ Hr]; congruence ].
    { destruct Hm1 as [-> _]. destruct Hsent as (req & res & Hinc & Hpost).
      rewrite Hcs1 in Hinc. destruct Hinc as [[= <- _] | []]. discriminate. }
    destruct (filterByType_in _ _ _ Hf1) as [Htyped1 _].
    (* every entry of the second listing has a type *)
    assert (Htyped2 : forall x, In x listing2 -> exists t, getProp x "type" = Ok t).
    { intros x Hx. destruct (Hrest x Hx) as [-> | Hx1]; eauto. }
    destruct (filterByType_defined "folders" listing2 Htyped2) as (folders2 & Hf2 & Hkept2).
    destruct (filterByType_defined "items" listing2 Htyped2) as (items2 & Hi2 & _).
    destruct (filterByType_defined "folders" listing1 Htyped1) as (folders1' & Hf1' & Hkept1).
    rewrite Hf1 in Hf1'. injection Hf1' as <-.
    assert (Hfind2 : findFolder name folders2 = Ok (Some again)).
    { apply findFolder_first; [|eauto|exact Hnamed].
      intros x Hx. destruct (filterByType_in _ _ _ Hf2) as [_ Hin2].
      destruct (Hin2 x Hx) as (Hx2 & t & Ht & Hfolder).
      destruct (Hrest x Hx2) as [-> | Hx1]; [now left | right].
      apply (findFolder_none name folders1 Hfind1). eauto. }
    (* the second call *)
    pose proof (emits_run _ _ s (getOrCreateFolder_emits env p parent name)) as Hrun2.
    apply (GetOrCreateRun_head p parent name _ _ _ Hrun2) in Hhd2
      as (csy & Hcs2 & Hm2).
    cbn [snd settle andThen] in Hm2. rewrite (folderContents_listing _ _ Hd2) in Hm2.
    rewrite Hf2, Hi2 in Hm2. cbn in Hm2. rewrite Hfind2 in Hm2.
    destruct Hm2 as [-> Hr2]. split; [eauto|]. split; [exact Hcs2|].
    intros (req & res & Hinc & Hpost). rewrite Hcs2 in Hinc.
    destruct Hinc as [[= <- _] | []]. discriminate.
Qed.

End FolderLookup.

Lemma getOrCreateFolder_idempotent_witness :
  let s0 := facing createThenList in
  let s := snd (getOrCreateFolder demoEnv "p1" "f1" "Reports" s0) in
  fst (getOrCreateFolder demoEnv "p1" "f1" "Reports" s0)
    = Ok (namedFolder "f3" "Reports")
  /\ (exists folder,
        fst (getOrCreateFolder demoEnv "p1" "f1" "Reports" s) = Ok folder
        /\ getProp folder "id" = Ok (JStr "f3"))
  /\ ~ sentCreate
         (calls (newEvents s (snd (getOrCreateFolder demoEnv "p1" "f1" "Reports" s)))).
Proof.
  cbv zeta. split; [vm_compute; reflexivity|].
  destruct (getOrCreateFolder_idempotent demoEnv "p1" "f1" "Reports") as (_ & _ & H).
  destruct (H (facing createThenList) (namedFolder "f3" "Reports")
              "tok"%string (JObj [("data", JArr listingBefore)]) listingBefore
              (snd (getOrCreateFolder demoEnv "p1" "f1" "Reports" (facing createThenList)))
              "tok"%string (JObj [("data", JArr listingAfter)]) listingAfter
              (namedFolder "f3" "Reports"))
    as (Hr & _ & Hno).
  - vm_compute. reflexivity.
  - exists (newFolderRequest demoEnv "p1" "f1" "Reports"
              "folders:autodesk.bim360:Folder" "tok"),
           (Fulfilled (JObj [("data", namedFolder "f3" "Reports")])).
    split; [vm_compute; do 2 right; left; reflexivity | reflexivity].
  - vm_compute. reflexivity.
  - reflexivity.
  - vm_compute. reflexivity.
  - reflexivity.
  - cbn. auto.
  - reflexivity.
  - reflexivity.
  - reflexivity.
  - intros other [<- | [<- | [<- | []]]]; cbn; auto.
  - split; [exact Hr | exact Hno].
Defined.

(** * Further properties *)

(** ** Encoded strings *)

Lemma allChars_app (ok : ascii -> bool) (a b : string) :
  allChars ok (a ++ b)%string = allChars ok a && allChars ok b.
Proof.
  induction a as [|c a IH]; simpl; [reflexivity|].
  now rewrite IH, andb_assoc.
Qed.

Lemma countChar_app (c : ascii) (a b : string) :
  countChar c (a ++ b)%string = (countChar c a + countChar c b)%nat.
Proof. induction a as [|x a IH]; simpl; [reflexivity | rewrite IH; lia]. Qed.

Lemma countChar_none (c : ascii) (s : string) :
  allChars (fun x => negb (Ascii.eqb x c)) s = true -> countChar c s = 0%nat.
Proof.
  induction s as [|x s IH]; simpl; [reflexivity|].
  intros H. apply andb_true_iff in H as [Hx Hs].
  apply negb_true_iff in Hx. rewrite Hx. auto.
Qed.

Lemma allChars_weaken (p q : ascii -> bool) (s : string) :
  (forall c, p c = true -> q c = true) -> allChars p s = true -> allChars q s = true.
Proof.
  intros Hpq. induction s as [|x s IH]; simpl; [reflexivity|].
  intros H. apply andb_true_iff in H as [Hx Hs]. now rewrite (Hpq _ Hx), IH.
Qed.


Lemma formEncode_step (c : ascii) (rest : string) :
  formEncode (String c rest) = (formUnit c ++ formEncode rest)%string.
Proof. reflexivity. Qed.


Lemma formUnit_formChar (c : ascii) : allChars formChar (formUnit c) = true.
Proof. destruct c as [[] [] [] [] [] [] [] []]; reflexivity. Qed.



Lemma formEncode_formChar (s : string) : allChars formChar (formEncode s) = true.
Proof.
  induction s as [|c s IH]; [reflexivity|].
  now rewrite formEncode_step, allChars_app, formUnit_formChar, IH.
Qed.












(** ** Form parameters *)

Lemma formEncode_count (c : ascii) (s : string) :
  formChar c = false -> countChar c (formEncode s) = 0%nat.
Proof.
  intros Hc. apply countChar_none.
  apply (allChars_weaken formChar); [|apply formEncode_formChar].
  intros x Hx. apply negb_true_iff. destruct (Ascii.eqb_spec x c); [congruence|reflexivity].
Qed.

Lemma concat_cons (sep x : string) (xs : list string) :
  xs <> [] -> String.concat sep (x :: xs) = (x ++ sep ++ String.concat sep xs)%string.
Proof. destruct xs; [congruence | reflexivity]. Qed.

Lemma toString_count (c : ascii) (params : list (string * string)) (perPair perJoin : nat) :
  formChar c = false ->
  countChar c "=" = perPair -> countChar c "&" = perJoin ->
  countChar c (URLSearchParams_toString params)
    = (perPair * length params + perJoin * pred (length params))%nat.
Proof.
  intros Hc Heq Hamp. unfold URLSearchParams_toString, join.
  induction params as [|[k v] params IH]; [cbn; lia|].
  destruct params as [|kv params].
  - cbn [map String.concat fst snd length pred].
    rewrite !countChar_app, !formEncode_count, Heq by exact Hc. lia.
  - cbn [map]. rewrite concat_cons by discriminate. cbn [map] in IH.
    rewrite !countChar_app, IH, !formEncode_count, Heq, Hamp by exact Hc.
    cbn [fst snd length pred]. lia.
Qed.

Lemma toString_parameters (params : list (string * string)) :
  hasParameters (length params) (URLSearchParams_toString params) 0.
Proof.
  unfold hasParameters.
  rewrite (toString_count "?" params 0 0), (toString_count "#" params 0 0),
    (toString_count "=" params 1 0), (toString_count "&" params 0 1)
    by reflexivity.
  lia.
Qed.

(** X4.  Parameter values cannot add or split parameters.  Whatever the
    client id, the secret, the callback URL, the scopes, the code, the
    refresh token and the state contain, the three grant bodies have exactly
    4, 5 and 4 parameters, and the authorization URL has one question mark,
    no hash, and 4 parameters, or 5 when a non-empty state is given. *)
Theorem form_parameters_not_injectable {W : Type} (env : Env W) :
  hasParameters 4 (URLSearchParams_toString (clientCredentialsParams env)) 0
  /\ (forall code, hasParameters 5 (codeExchangeBody env code) 0)
  /\ (forall refreshToken, hasParameters 4 (refreshBody env refreshToken) 0)
  /\ (forall state s,
        exists url,
          fst (getAuthorizationUrl env state s) = Ok url
          /\ hasParameters
               (match state with
                | Some st => if (st =? "")%string then 4 else 5
                | None => 4
                end) url 1).
Proof.
  split; [|split; [|split]].
  - apply (toString_parameters (clientCredentialsParams env)).
  - intros code. apply (toString_parameters (codeExchangeParams env code)).
  - intros refreshToken. apply (toString_parameters (refreshParams env refreshToken)).
  - intros state s. eexists. split; [reflexivity|].
    assert (Hurl : forall params : list (string * string),
              hasParameters (length params)
                ("https://developer.api.autodesk.com/authentication/v2/authorize?"
                   ++ URLSearchParams_toString params) 1).
    { intros params. destruct (toString_parameters params) as (Hq & Hh & He & Ha).
      unfold hasParameters. rewrite !countChar_app, Hq, Hh, He, Ha.
      repeat split. }
    destruct state as [st|]; [destruct (st =? "")%string|];
      first [ apply (Hurl (authorizationParams env))
            | apply (Hurl (authorizationParams env ++ [("state"%string, st)])) ].
Qed.

(** ** The token cache over several calls *)

Lemma lookup_setHeader (k : string) (v : Json) (hs : list (string * Json)) :
  lookup k (setHeader k v hs) = v.
Proof.
  induction hs as [|[k' v'] hs IH]; cbn.
  - now rewrite String.eqb_refl.
  - destruct (String.eqb_spec k k') as [->|Hne]; cbn.
    + now rewrite String.eqb_refl.
    + destruct (String.eqb_spec k k'); [contradiction | exact IH].
Qed.

Section TokenCache.

Context {W : Type} (env : Env W).

Lemma cache_fresh_or_stale (s : State W) :
  (exists c, authContext s = Some c
             /\ Date_now env (world s) < expiresAt c - 300000)
  \/ cacheStale env s.
Proof.
  unfold cacheStale. destruct (authContext s) as [c|]; [|auto].
  destruct (Z.lt_ge_cases (Date_now env (world s)) (expiresAt c - 300000)); eauto 6.
Qed.

Lemma getAccessToken_caches (s : State W) (token : string) :
  fst (getAccessToken env s) = Ok token ->
  exists c, authContext (snd (getAccessToken env s)) = Some c /\ accessToken c = token.
Proof.
  unfold getAccessToken.
  destruct (cache_fresh_or_stale s) as [(c & Hc & Hlt) | Hstale].
  - rewrite (authenticate_cached env s c Hc Hlt). cbn. intros [= <-]. eauto.
  - destruct (authenticate_stale env s Hstale) as (_ & _ & Hres).
    destruct (fst (tokenEndpoint env (world s) _)) as [t|m d].
    + destruct Hres as [-> ->]. intros [= <-]. eauto.
    + destruct Hres as [-> _]. discriminate.
Qed.

(** X5.  Every request that goes through [httpClient] carries, as its
    Authorization header, the bearer token that is in the cache when the
    call is over -- the token [getAccessToken] returns is always the cached
    one -- and is addressed to AUTODESK_BASE_URL. *)
Theorem bearer_is_the_cached_token (m : Method) (u : string)
    (hs ps : list (string * Json)) (b : Body) (s : State W) :
  let run := httpClient_request env m u hs ps b s in
  forall req res,
    In (req, res) (calls (newEvents s (snd run))) ->
    exists c,
      authContext (snd run) = Some c
      /\ lookup "Authorization" (headers req) = JStr ("Bearer " ++ accessToken c)
      /\ baseURL req = Some (AUTODESK_BASE_URL env).
Proof.
  cbv zeta. intros req res.
  destruct (authenticate_emits env s) as (evs1 & Ht1 & Hcs1 & _).
  pose proof (getAccessToken_caches s) as Hcache.
  unfold httpClient_request, bind, getAccessToken in *.
  destruct (authenticate env s) as [[token|e] s1]; cbn in *.
  - destruct (Hcache token eq_refl) as (c & Hc & <-).
    unfold axios_request.
    destruct (http env (world s1) _) as [[d|msg d] w'] eqn:Hh; cbn;
      rewrite (newEvents_extend _ _ (evs1 ++ [HttpCall
                 (apiRequest env m u hs ps b (accessToken c)) _]))
        by (cbn; rewrite Ht1, <- app_assoc; reflexivity);
      rewrite calls_app, Hcs1; cbn;
      (intros [[= <- _] | []]);
      exists c; cbn; rewrite lookup_setHeader; auto.
  - rewrite (newEvents_extend _ _ evs1 Ht1), Hcs1. intros [].
Qed.

(** X6.  A token is asked for once per validity window: after a grant
    that was fulfilled, any later call that finds that context in the cache
    and the clock more than five minutes before its expiry returns the same
    token and sends nothing. *)
Theorem token_is_reused (s s2 : State W) (t : AutodeskTokenResponse) :
  let body := URLSearchParams_toString (clientCredentialsParams env) in
  let s1 := snd (getAccessToken env s) in
  cacheStale env s ->
  fst (tokenEndpoint env (world s) body) = Fulfilled t ->
  authContext s2 = authContext s1 ->
  Date_now env (world s2) < Date_now env (world s1) + expires_in t * 1000 - 300000 ->
  fst (getAccessToken env s) = Ok (access_token t)
  /\ getAccessToken env s2 = (Ok (access_token t), s2).
Proof.
  cbv zeta. intros Hstale Hres Hctx Hclock. unfold getAccessToken in *.
  destruct (authenticate_stale env s Hstale) as (_ & Hw & Hout).
  rewrite Hres in Hout. destruct Hout as [Hr Hc]. split; [exact Hr|].
  rewrite Hc in Hctx. rewrite Hw in Hclock.
  apply (authenticate_cached env s2 _ Hctx). cbn. lia.
Qed.

(** X7.  A token that lives five minutes or less is never served from the
    cache: with a clock that does not run backwards, every later call that
    finds its context in the cache posts a new grant. *)
Theorem short_lived_token_is_never_reused (s s2 : State W) (t : AutodeskTokenResponse) :
  let body := URLSearchParams_toString (clientCredentialsParams env) in
  let s1 := snd (getAccessToken env s) in
  cacheStale env s ->
  fst (tokenEndpoint env (world s) body) = Fulfilled t ->
  expires_in t <= 300 ->
  authContext s2 = authContext s1 ->
  Date_now env (world s1) <= Date_now env (world s2) ->
  exists res, grants (newEvents s2 (snd (getAccessToken env s2))) = [(body, res)].
Proof.
  cbv zeta. intros Hstale Hres Hshort Hctx Hclock. unfold getAccessToken in *.
  destruct (authenticate_stale env s Hstale) as (_ & Hw & Hout).
  rewrite Hres in Hout. destruct Hout as [_ Hc].
  rewrite Hc in Hctx. rewrite Hw in Hclock.
  assert (Hstale2 : cacheStale env s2).
  { right. eexists. split; [exact Hctx|]. cbn. lia. }
  destruct (authenticate_stale env s2 Hstale2) as (Ht & _ & _).
  rewrite (newEvents_extend _ _ _ Ht). cbn. eauto.
Qed.

(** X8.  [clearAuth] sends nothing and empties the cache, so that the next
    [getAccessToken] posts a grant whatever was cached before and whatever
    the clock says. *)
Theorem clearAuth_forces_a_grant (s : State W) :
  let body := URLSearchParams_toString (clientCredentialsParams env) in
  let s1 := snd (clearAuth s) in
  authContext s1 = None /\ newEvents s s1 = [] /\ world s1 = world s
  /\ exists res, grants (newEvents s1 (snd (getAccessToken env s1))) = [(body, res)].
Proof.
  cbv zeta. split; [reflexivity|].
  split; [apply newEvents_extend; cbn; now rewrite app_nil_r|].
  split; [reflexivity|]. unfold getAccessToken.
  assert (Hstale : cacheStale env (snd (clearAuth s))) by (left; reflexivity).
  destruct (authenticate_stale env _ Hstale) as (Ht & _ & _).
  rewrite (newEvents_extend _ _ _ Ht). cbn. eauto.
Qed.

End TokenCache.

Lemma bearer_is_the_cached_token_witness :
  let run := httpClient_request demoEnv GET "/x" [] [] NoBody (facing [emptyAnswer]) in
  exists c,
    authContext (snd run) = Some c
    /\ lookup "Authorization" (headers (apiRequest demoEnv GET "/x" [] [] NoBody "tok"))
       = JStr ("Bearer " ++ accessToken c)%string
    /\ baseURL (apiRequest demoEnv GET "/x" [] [] NoBody "tok")
       = Some (AUTODESK_BASE_URL demoEnv).
Proof.
  cbv zeta.
  apply (bearer_is_the_cached_token demoEnv GET "/x" [] [] NoBody (facing [emptyAnswer])
           _ emptyAnswer).
  vm_compute. left. reflexivity.
Defined.

Lemma token_is_reused_witness :
  let s := signedOut (oneGrant (demoToken "t1" None)) in
  let s1 := snd (getAccessToken demoEnv s) in
  fst (getAccessToken demoEnv s) = Ok "t1"
  /\ getAccessToken demoEnv s1 = (Ok "t1", s1).
Proof.
  cbv zeta.
  apply (token_is_reused demoEnv (signedOut (oneGrant (demoToken "t1" None)))
           (snd (getAccessToken demoEnv (signedOut (oneGrant (demoToken "t1" None)))))
           (demoToken "t1" None)).
  - left. reflexivity.
  - reflexivity.
  - reflexivity.
  - vm_compute. reflexivity.
Defined.

Lemma short_lived_token_is_never_reused_witness :
  let s1 := snd (getAccessToken demoEnv (signedOut twoShortGrants)) in
  exists res,
    grants (newEvents s1 (snd (getAccessToken demoEnv s1)))
    = [(URLSearchParams_toString (clientCredentialsParams demoEnv), res)].
Proof.
  cbv zeta.
  apply (short_lived_token_is_never_reused demoEnv (signedOut twoShortGrants)
           (snd (getAccessToken demoEnv (signedOut twoShortGrants))) shortLived).
  - left. reflexivity.
  - reflexivity.
  - vm_compute. discriminate.
  - reflexivity.
  - vm_compute. discriminate.
Defined.

(** ** Lookups, folder creation and the requests of an upload *)

Section LookupsAndCreation.

Context {W : Type} (env : Env W).

Lemma oneCall_length {A} (mk : string -> Request) (after : Json -> Result A)
    (cs : list Exchange) (r : Result A) :
  oneCall mk after cs r -> (length cs <= 1)%nat.
Proof. intros H. apply oneCall_calls in H as [-> | (t & res & ->)]; cbn; lia. Qed.


(** X10.  [createFolder] posts the new folder only after the parent was
    read: a POST in its run is preceded by the fulfilled GET of the parent
    and carries the extension type resolved from that parent.  It sends at
    most two requests, and whatever fails it throws
    BadRequestException "Failed to create folder: <name>". *)
Theorem createFolder_reads_parent_first (p parent name : string) (s : State W) :
  let run := createFolder env p parent name s in
  let cs := calls (newEvents s (snd run)) in
  (length cs <= 2)%nat
  /\ (forall e, fst run = Err e ->
        e = BadRequestException ("Failed to create folder: " ++ name))
  /\ (forall req res, In (req, res) cs -> method req = POST ->
        exists t d parentFolder ext t' ,
          cs = [ (folderRequest env p parent t, Fulfilled d);
                 (newFolderRequest env p parent name ext t', res) ]
          /\ getProp d "data" = Ok parentFolder
          /\ folderExtensionType parentFolder = Ok ext).
Proof.
  cbv zeta.
  destruct (emits_run _ _ s (createFolder_emits env p parent name))
    as (r0 & Hr & cs1 & r1 & Hf & Hrest).
  split; [|split].
  - pose proof Hf as (r00 & Hcall & _). apply oneCall_length in Hcall.
    destruct (andThen r1 _) as [ext|e].
    + destruct Hrest as (cs2 & -> & Hpost). apply oneCall_length in Hpost.
      rewrite length_app. unfold Exchange in *. lia.
    + destruct Hrest as [-> _]. unfold Exchange in *. lia.
  - intros e He. rewrite He in Hr. destruct r0; cbn in Hr;
      [discriminate | now injection Hr].
  - intros req res Hin Hpost. destruct r1 as [parentFolder|e]; cbn in Hrest.
    + apply FolderRun_ok in Hf as (t & d & -> & Hd).
      destruct (folderExtensionType parentFolder) as [ext|e] eqn:Hext.
      * destruct Hrest as (cs2 & Hcs & Hcall). rewrite Hcs in Hin |- *.
        apply oneCall_calls in Hcall as [-> | (t' & res' & ->)]; cbn in Hin.
        -- destruct Hin as [[= <- _] | []]. discriminate.
        -- destruct Hin as [[= <- _] | [[= <- <-] | []]]; [discriminate|].
           exists t, d, parentFolder, ext, t'. auto.
      * destruct Hrest as [Hcs _]. rewrite Hcs in Hin.
        destruct Hin as [[= <- _] | []]. discriminate.
    + destruct Hrest as [Hcs _]. rewrite Hcs in Hin.
      apply FolderRun_calls in Hf as [-> | (t & res1 & ->)].
      * destruct Hin.
      * destruct Hin as [[= <- _] | []]. discriminate.
Qed.

(** X11.  When the listing of the parent shows a folder of that name,
    [getOrCreateFolder] returns the first such entry of type "folders"
    (entries of other types are not looked at) and sends nothing else; when
    the listing cannot be had, it fails with
    Error "Failed to fetch folder contents" and does not try to create. *)
Theorem getOrCreateFolder_finds_before_creating (p parent name : string) (s : State W) :
  let run := getOrCreateFolder env p parent name s in
  let cs := calls (newEvents s (snd run)) in
  (forall t d folders items folder,
     hd_error cs = Some (contentsRequest env p parent t, Fulfilled d) ->
     folderContents d = Ok (folders, items) ->
     findFolder name folders = Ok (Some folder) ->
     fst run = Ok folder
     /\ cs = [(contentsRequest env p parent t, Fulfilled d)]
     /\ getProp folder "type" = Ok (JStr "folders"))
  /\ ((cs = [] \/ exists req m d, hd_error cs = Some (req, Rejected m d)) ->
      fst run = Err (Error "Failed to fetch folder contents") /\ ~ sentCreate cs).
Proof.
  cbv zeta.
  pose proof (emits_run _ _ s (getOrCreateFolder_emits env p parent name)) as Hrun.
  split.
  - intros t d folders items folder Hhd Hd Hfind.
    apply (GetOrCreateRun_head env p parent name _ _ _ Hrun) in Hhd as (cs2 & Hcs & Hm).
    cbn [snd settle andThen] in Hm. rewrite Hd in Hm. cbn in Hm. rewrite Hfind in Hm.
    destruct Hm as [-> Hr]. split; [exact Hr|]. split; [exact Hcs|].
    unfold folderContents, andThen in Hd.
    destruct (getProp d "data") as [listing|]; [|discriminate].
    destruct (js_filterByType "folders" listing) as [fs|] eqn:Hf; [|discriminate].
    destruct (js_filterByType "items" listing) as [is_|]; [|discriminate].
    injection Hd as -> _.
    destruct listing; cbn in Hf; try discriminate.
    destruct (filterByType_in _ _ _ Hf) as [_ Hkept].
    apply findFolder_some in Hfind as [Hin _].
    destruct (Hkept folder Hin) as (_ & ty & Hty & Heq).
    destruct ty; cbn in Heq; try discriminate.
    apply String.eqb_eq in Heq. now subst.
  - intros Hhead. destruct Hrun as (cs1 & r1 & Hc & Hrest).
    destruct Hc as (r0 & Hcall & ->).
    destruct Hcall as [[-> ->] | (t & res & -> & ->)]; cbn in Hrest.
    + destruct Hrest as [Hcs Hr]. rewrite Hcs. split; [exact Hr|].
      intros (req & res & [] & _).
    + destruct res as [d|m d]; cbn in Hrest.
      * exfalso.
        assert (Hhd : hd_error
                        (calls (newEvents s (snd (getOrCreateFolder env p parent name s))))
                      = Some (contentsRequest env p parent t, Fulfilled d)).
        { destruct (andThen _ _) as [[folder|]|e].
          - destruct Hrest as [-> _]. reflexivity.
          - destruct Hrest as (cs2 & -> & _). reflexivity.
          - destruct Hrest as [-> _]. reflexivity. }
        destruct Hhead as [Hnil | (req & m & d' & Hrej)].
        -- rewrite Hnil in Hhd. discriminate.
        -- rewrite Hrej in Hhd. discriminate.
      * destruct Hrest as [Hcs Hr]. rewrite Hcs. split; [exact Hr|].
        intros (req & res & [[= <- _] | []] & Hpost). discriminate.
Qed.

Lemma pipeline_request (o : UploadFileOptions) (f : Flow) (n : nat)
    (req : Request) (res : AxiosResult Json) :
  In (req, res) (firstn n (pipeline env o f)) ->
  (exists signedUrl,
     req = transferRequest signedUrl (fileBuffer o) (contentType o))
  \/ (exists m u ps b token,
        req = apiRequest env m u [] ps b token /\ (m = GET \/ m = POST)).
Proof.
  intros Hin. apply in_pipeline_prefix in Hin as (i & _ & Hnth).
  unfold pipeline in Hnth.
  destruct i as [|[|[|[|[|[|i]]]]]]; cbn in Hnth;
    [injection Hnth as <- _ .. | destruct i; discriminate];
    [right | right | left; eauto | right | right | right];
    unfold reserveRequest, grantRequest, finalizeRequest, folderRequest, publishRequest;
    eauto 12.
Qed.

(** X12.  The requests of an upload are of two kinds only: the one PUT to
    the signed URL, and GETs and POSTs to AUTODESK_BASE_URL that carry an
    Authorization bearer header.  There is no DELETE: a storage object
    reserved by an upload that fails later is left as it is. *)
Theorem upload_requests_are_authenticated (o : UploadFileOptions) (s : State W)
    (req : Request) (res : AxiosResult Json) :
  In (req, res) (calls (newEvents s (snd (uploadFile env o s)))) ->
  method req <> DELETE
  /\ (method req <> PUT ->
      baseURL req = Some (AUTODESK_BASE_URL env)
      /\ exists token,
           lookup "Authorization" (headers req) = JStr ("Bearer " ++ token)).
Proof.
  intros Hin.
  destruct (UploadRun_prefix env o _ _ (uploadFile_run env o s))
    as (f & n & _ & Hcs & _).
  rewrite Hcs in Hin.
  apply pipeline_request in Hin
    as [(url & ->) | (m & u & ps & b & token & -> & Hm)]; cbn.
  - split; [discriminate | congruence].
  - split; [destruct Hm as [-> | ->]; discriminate|].
    intros _. split; [reflexivity|]. exists token. reflexivity.
Qed.

(** X13.  Without a token nothing of the upload is sent: when the cache is
    stale and the grant is refused, [uploadFile] posts that one grant, sends
    no request, and fails with the authentication failure as its cause. *)
Theorem upload_needs_a_token (o : UploadFileOptions) (s : State W) (m : string) (d : Json) :
  let body := URLSearchParams_toString (clientCredentialsParams env) in
  let run := uploadFile env o s in
  cacheStale env s ->
  fst (tokenEndpoint env (world s) body) = Rejected m d ->
  fst run = Err (BadRequestException
                   "Failed to upload file: Failed to authenticate with Autodesk ACC")
  /\ newEvents s (snd run) = [TokenPost body (Rejected m d)].
Proof.
  cbv zeta. intros Hstale Hres.
  destruct (authenticate_stale env s Hstale) as (Ht & _ & Hout).
  rewrite Hres in Hout. destruct Hout as [Hr _].
  unfold uploadFile, try_catch, bind, createStorage, httpClient_post,
    httpClient_request, bind, getAccessToken.
  destruct (authenticate env s) as [r s1]. cbn in Hr, Ht. subst r. cbn.
  split; [reflexivity|]. apply newEvents_extend. cbn. now rewrite Ht, Hres.
Qed.

End LookupsAndCreation.


Lemma createFolder_reads_parent_first_witness :
  exists t d parentFolder ext t',
    calls (newEvents (facing readThenCreate)
             (snd (createFolder demoEnv "p1" "f1" "Reports" (facing readThenCreate))))
    = [ (folderRequest demoEnv "p1" "f1" t, Fulfilled d);
        (newFolderRequest demoEnv "p1" "f1" "Reports" ext t',
         Fulfilled (JObj [("data", namedFolder "f3" "Reports")])) ]
    /\ getProp d "data" = Ok parentFolder
    /\ folderExtensionType parentFolder = Ok ext.
Proof.
  destruct (createFolder_reads_parent_first demoEnv "p1" "f1" "Reports"
              (facing readThenCreate)) as (_ & _ & H).
  apply (H (newFolderRequest demoEnv "p1" "f1" "Reports"
              "folders:autodesk.core:Folder" "tok")).
  - vm_compute. right. left. reflexivity.
  - reflexivity.
Defined.

Lemma getOrCreateFolder_finds_before_creating_witness :
  let s := facing [Fulfilled (JObj [("data", JArr listingAfter)])] in
  let run := getOrCreateFolder demoEnv "p1" "f1" "Reports" s in
  fst run = Ok (namedFolder "f3" "Reports")
  /\ calls (newEvents s (snd run))
     = [(contentsRequest demoEnv "p1" "f1" "tok",
         Fulfilled (JObj [("data", JArr listingAfter)]))]
  /\ getProp (namedFolder "f3" "Reports") "type" = Ok (JStr "folders").
Proof.
  cbv zeta.
  destruct (getOrCreateFolder_finds_before_creating demoEnv "p1" "f1" "Reports"
              (facing [Fulfilled (JObj [("data", JArr listingAfter)])])) as [H _].
  apply (H "tok" (JObj [("data", JArr listingAfter)])
           [namedFolder "f2" "Drawings"; namedFolder "f3" "Reports"] [someItem]);
    vm_compute; reflexivity.
Defined.

Lemma upload_requests_are_authenticated_witness :
  method (reserveRequest demoEnv demoUpload "tok") <> DELETE
  /\ (method (reserveRequest demoEnv demoUpload "tok") <> PUT ->
      baseURL (reserveRequest demoEnv demoUpload "tok") = Some (AUTODESK_BASE_URL demoEnv)
      /\ exists token,
           lookup "Authorization" (headers (reserveRequest demoEnv demoUpload "tok"))
           = JStr ("Bearer " ++ token)%string).
Proof.
  apply (upload_requests_are_authenticated demoEnv demoUpload (facing happyPath)
           _ storageAnswer).
  vm_compute. left. reflexivity.
Defined.

Lemma upload_needs_a_token_witness :
  let s := signedOut (replies []) in
  let run := uploadFile demoEnv demoUpload s in
  fst run = Err (BadRequestException
                   "Failed to upload file: Failed to authenticate with Autodesk ACC")
  /\ newEvents s (snd run)
     = [TokenPost (URLSearchParams_toString (clientCredentialsParams demoEnv))
          (Rejected "Network Error" JUndefined)].
Proof.
  cbv zeta.
  apply (upload_needs_a_token demoEnv demoUpload (signedOut (replies []))).
  - left. reflexivity.
  - reflexivity.
Defined.

(** ** Methods of one request *)

Lemma Guarded_run {A} (mk : string -> Request) (after : Json -> Result A)
    (failure : Exn) (cs : list Exchange) (r : Result A) :
  Guarded mk after failure cs r ->
  (length cs <= 1)%nat
  /\ (forall req res, In (req, res) cs -> exists token, req = mk token)
  /\ (forall e, r = Err e -> e = failure)
  /\ (forall a, r = Ok a ->
        exists token d, cs = [(mk token, Fulfilled d)] /\ after d = Ok a).
Proof.
  intros (r0 & Hcall & ->).
  destruct Hcall as [[-> ->] | (token & res & -> & ->)]; cbn.
  - split; [lia|]. split; [intros ? ? []|]. split; [now intros e [= <-]|].
    intros a [=].
  - split; [lia|]. split; [intros req res' [[= <- _] | []]; eauto|].
    destruct res as [d|m d]; cbn.
    + split.
      * intros e He. destruct (after d); cbn in He; [discriminate | now injection He].
      * intros a Ha. exists token, d. split; [reflexivity|].
        destruct (after d); cbn in Ha; [now injection Ha as -> | discriminate].
    + split; [now intros e [= <-] | intros a [=]].
Qed.

Section OneRequest.

Context {W : Type} (env : Env W).

Lemma guarded_emits {A} (m : Method) (u : string) (ps : list (string * Json)) (b : Body)
    (k : Json -> M W A) (after : Json -> Result A) (handler : Exn -> M W A)
    (failure : Exn) :
  (forall response, emits (k response) (silently (after response))) ->
  (forall e, emits (handler e) (throwsOnly failure)) ->
  emits (try_catch (bind (httpClient_request env m u [] ps b) k) handler)
        (Guarded (apiRequest env m u [] ps b) after failure).
Proof.
  intros Hk Hh. unfold Guarded.
  apply (emits_catch_rethrow _ _ (fun _ => failure)); [|exact Hh].
  now apply httpClient_call_emits.
Qed.

Lemma ask_emits (q : Query) :
  exists u ps,
    emits (ask env q)
          (Guarded (apiRequest env GET u [] ps NoBody) (fun d => getProp d "data")
                   (failureOf q)).
Proof.
  destruct q; cbn [ask failureOf];
    unfold AutodeskProjectService.getHubs, AutodeskProjectService.getHub,
      AutodeskProjectService.getProjects, AutodeskProjectService.getProject,
      AutodeskProjectService.getProjectTopFolders, getItem, searchItems, httpClient_get;
    do 2 eexists;
    (apply guarded_emits;
     [intros response; apply lift_silently | intros e; apply emits_log_throw]).
Qed.

(** X14.  The seven read-only lookups of the two services ([getHubs],
    [getHub], [getProjects], [getProject], [getProjectTopFolders] of the
    project service, [getItem] and [searchItems]) send at most one request,
    a GET to AUTODESK_BASE_URL.  What they throw does not tell the cause: a
    refused token, a rejected request and a body that is [null] all give the
    one exception of the method, a NotFoundException for a hub, a project or
    an item.  What they return is the [data] member of the answer, an
    answer without that member giving [undefined] and no error. *)
Theorem lookups_mask_failures (q : Query) (s : State W) :
  let run := ask env q s in
  let cs := calls (newEvents s (snd run)) in
  (length cs <= 1)%nat
  /\ (forall req res, In (req, res) cs ->
        method req = GET /\ baseURL req = Some (AUTODESK_BASE_URL env))
  /\ (forall e, fst run = Err e -> e = failureOf q)
  /\ (forall v, fst run = Ok v ->
        exists req d, cs = [(req, Fulfilled d)] /\ getProp d "data" = Ok v).
Proof.
  cbv zeta. destruct (ask_emits q) as (u & ps & Hq).
  apply (emits_run _ _ s) in Hq. apply Guarded_run in Hq as (Hlen & Hreq & Herr & Hok).
  split; [exact Hlen|]. split; [|split; [exact Herr|]].
  - intros req res Hin. destruct (Hreq req res Hin) as (token & ->). auto.
  - intros v Hv. destruct (Hok v Hv) as (token & d & Hcs & Hd). eauto.
Qed.

Lemma createFolderWithType_emits (p parent name : string) (ext : option string) :
  emits (createFolderWithType env p parent name ext)
        (Guarded (newFolderRequest env p parent name (typeOrDefault ext))
                 (fun d => getProp d "data")
                 (BadRequestException ("Failed to create folder: " ++ name))).
Proof.
  unfold createFolderWithType, Guarded, newFolderRequest, typeOrDefault.
  apply (emits_catch_rethrow _ _ (fun _ => BadRequestException _)).
  - apply log_then_emits. unfold httpClient_post. apply httpClient_call_emits.
    intros response. apply log_then_silently, lift_silently.
  - intros e. apply emits_log_details_throw.
Qed.

Lemma deleteItem_emits (p itemId : string) :
  emits (deleteItem env p itemId)
        (Guarded (deleteRequest env p itemId) (fun _ => Ok tt)
                 (BadRequestException "Failed to delete item")).
Proof.
  unfold deleteItem, httpClient_delete, deleteRequest.
  apply guarded_emits; [intros response; apply log_silently | intros e; apply emits_log_throw].
Qed.

(** X15.  [createFolderWithType] never reads the parent: its run is at most
    the one POST that [createFolder] sends for a parent of that type, with
    the BIM 360 folder type when no type is given, and every failure is
    thrown as BadRequestException "Failed to create folder: <name>".
    [deleteItem] sends at most one DELETE of the item, succeeds whenever
    that request is fulfilled, whatever the body, and otherwise throws
    BadRequestException "Failed to delete item". *)
Theorem one_request_mutations (p parent name itemId : string) (ext : option string)
    (s : State W) :
  let made := createFolderWithType env p parent name ext s in
  let gone := deleteItem env p itemId s in
  let posted := calls (newEvents s (snd made)) in
  let deleted := calls (newEvents s (snd gone)) in
  (posted = []
   \/ exists token res,
        posted = [(newFolderRequest env p parent name (typeOrDefault ext) token, res)])
  /\ (forall e, fst made = Err e ->
        e = BadRequestException ("Failed to create folder: " ++ name))
  /\ (deleted = []
      \/ exists token res, deleted = [(deleteRequest env p itemId token, res)])
  /\ (forall e, fst gone = Err e -> e = BadRequestException "Failed to delete item")
  /\ (forall token d, deleted = [(deleteRequest env p itemId token, Fulfilled d)] ->
        fst gone = Ok tt).
Proof.
  cbv zeta.
  pose proof (emits_run _ _ s (createFolderWithType_emits p parent name ext)) as Hmade.
  pose proof (emits_run _ _ s (deleteItem_emits p itemId)) as Hgone.
  split; [|split; [|split; [|split]]].
  - destruct Hmade as (r0 & Hcall & _).
    apply oneCall_calls in Hcall as [-> | (t & res & ->)]; eauto.
  - apply Guarded_run in Hmade. apply Hmade.
  - destruct Hgone as (r0 & Hcall & _).
    apply oneCall_calls in Hcall as [-> | (t & res & ->)]; eauto.
  - apply Guarded_run in Hgone. apply Hgone.
  - intros token d Hcs. destruct Hgone as (r0 & Hcall & ->).
    destruct Hcall as [[Hnil _] | (t & res & Hone & ->)].
    + rewrite Hnil in Hcs. discriminate.
    + rewrite Hone in Hcs. injection Hcs as _ ->. reflexivity.
Qed.

End OneRequest.

Lemma lookups_mask_failures_witness :
  NotFoundException "Item i1 not found" = failureOf (Item "p1" "i1")
  /\ exists req d,
       calls (newEvents (facing [Fulfilled (JObj [])])
                (snd (ask demoEnv Hubs (facing [Fulfilled (JObj [])]))))
       = [(req, Fulfilled d)]
       /\ getProp d "data" = Ok JUndefined.
Proof.
  split.
  - destruct (lookups_mask_failures demoEnv (Item "p1" "i1") (facing [Fulfilled JNull]))
      as (_ & _ & H & _).
    apply H. vm_compute. reflexivity.
  - destruct (lookups_mask_failures demoEnv Hubs (facing [Fulfilled (JObj [])]))
      as (_ & _ & _ & H).
    apply H. vm_compute. reflexivity.
Defined.

Lemma one_request_mutations_witness :
  BadRequestException "Failed to create folder: Reports"
    = BadRequestException ("Failed to create folder: " ++ "Reports")%string
  /\ fst (deleteItem demoEnv "p1" "i1" (facing [Fulfilled JNull])) = Ok tt.
Proof.
  destruct (one_request_mutations demoEnv "p1" "f1" "Reports" "i1" None
              (facing [Fulfilled JNull])) as (_ & Hmade & _ & _ & Hgone).
  split.
  - apply Hmade. vm_compute. reflexivity.
  - apply (Hgone "tok" JNull). vm_compute. reflexivity.
Defined.

(** ** The top folders of a project *)

Lemma getProp_throws (v : Json) (k : string) (e : Exn) :
  getProp v k = Err e -> nullish v = true /\ exists m, e = TypeError m.
Proof. destruct v; cbn; intros [= <-]; eauto. Qed.

Lemma getProp_of_defined (v : Json) (k : string) :
  nullish v = false -> exists x, getProp v k = Ok x.
Proof. destruct v; cbn; intros H; try discriminate; eauto. Qed.

Lemma eachLabelled_ok (items : list Json) :
  eachLabelled items = Ok tt -> Forall (fun f => nullish f = false) items.
Proof.
  induction items as [|x items IH]; cbn; [constructor|].
  unfold folderLabel. destruct x; cbn; try discriminate; intros H; constructor; auto.
Qed.

Lemma eachLabelled_throws (items : list Json) (e : Exn) :
  eachLabelled items = Err e -> exists m, e = TypeError m.
Proof.
  induction items as [|x items IH]; cbn; [discriminate|].
  unfold folderLabel. destruct x; cbn; try (intros [= <-]; eauto); auto.
Qed.

Lemma topFoldersOf_ok (body v : Json) :
  topFoldersOf body = Ok v ->
  getProp body "data" = Ok v
  /\ exists items, v = JArr items /\ Forall (fun f => nullish f = false) items.
Proof.
  unfold topFoldersOf. destruct (getProp body "data") as [top|]; cbn; [|discriminate].
  destruct top; cbn; try discriminate.
  destruct (eachLabelled items) as [[]|] eqn:He; cbn; [|discriminate].
  intros [= <-]. split; [reflexivity|]. eauto using eachLabelled_ok.
Qed.

Lemma topFoldersOf_throws (body : Json) (e : Exn) :
  topFoldersOf body = Err e -> exists m, e = TypeError m.
Proof.
  unfold topFoldersOf. destruct (getProp body "data") as [top|e0] eqn:Hd; cbn.
  - destruct top; cbn; try (intros [= <-]; eauto).
    destruct (eachLabelled items) as [[]|e1] eqn:He; cbn; [discriminate|].
    intros [= <-]. eauto using eachLabelled_throws.
  - intros [= <-]. apply getProp_throws in Hd as [_ Hm]. exact Hm.
Qed.

Section Quiet.

Context {W : Type} (env : Env W).

Lemma quiet_lift {A} (r : Result A) : quiet (W := W) (lift r) r.
Proof. intros s. cbn. auto. Qed.

Lemma quiet_logger (lv : Level) (msg : string) (d : Json) :
  quiet (W := W) (logger lv msg d) (Ok tt).
Proof. intros s. cbn. auto. Qed.

Lemma quiet_bind {A B} (m : M W A) (k : A -> M W B) (r : Result A) (r' : Result B) :
  quiet m r ->
  match r with
  | Ok a => quiet (k a) r'
  | Err e => r' = Err e
  end ->
  quiet (bind m k) r'.
Proof.
  intros Hm Hk s. unfold bind. destruct (Hm s) as (Hr & Ht & Hw & Hc).
  destruct (m s) as [[a|e] s1]; cbn in *; subst r.
  - destruct (Hk s1) as (Hr' & Ht' & Hw' & Hc'). repeat split; congruence.
  - subst r'. auto.
Qed.

Lemma quiet_silently {A} (m : M W A) (r : Result A) : quiet m r -> emits m (silently r).
Proof.
  intros Hm s. destruct (Hm s) as (Hr & Ht & _). exists [].
  rewrite app_nil_r. unfold silently. auto.
Qed.

Lemma logTopFolder_quiet (x : Json) (index : nat) :
  quiet (logTopFolder env x index)
        (andThen (folderLabel x) (fun _ => andThen (getProp x "id") (fun _ => Ok tt))).
Proof.
  unfold logTopFolder.
  apply (quiet_bind _ _ (folderLabel x)); [apply quiet_lift|].
  destruct (folderLabel x) as [name|e]; cbn; [|reflexivity].
  apply (quiet_bind _ _ (getProp x "id")); [apply quiet_lift|].
  destruct (getProp x "id") as [idValue|e]; cbn; [|reflexivity].
  apply quiet_logger.
Qed.

Lemma forEach_logTopFolder (items : list Json) (index : nat) :
  quiet (forEach index items (logTopFolder env)) (eachLabelled items).
Proof.
  revert index. induction items as [|x items IH]; intros index; cbn.
  - apply (quiet_lift (Ok tt)).
  - apply (quiet_bind _ _ _ _ (logTopFolder_quiet x index)).
    destruct (folderLabel x) as [name|e]; cbn; [|reflexivity].
    destruct (getProp x "id") as [idValue|e]; cbn; [apply IH | reflexivity].
Qed.

Lemma getProjectTopFolders_emits (p : string) :
  emits (getProjectTopFolders env p)
        (oneCall (topFoldersRequest env (extractHubId p) p) topFoldersOf).
Proof.
  unfold getProjectTopFolders. apply rethrow_same_emits; [|intros e; apply emits_log_throw].
  apply log_then_emits. unfold httpClient_get, topFoldersRequest.
  apply httpClient_call_emits. intros response. apply quiet_silently.
  unfold topFoldersOf.
  apply (quiet_bind _ _ (getProp response "data")); [apply quiet_lift|].
  destruct (getProp response "data") as [top|e]; cbn; [|reflexivity].
  apply (quiet_bind _ _ (js_length top)); [apply quiet_lift|].
  destruct (js_length top) as [count|e] eqn:Hlen; cbn; [|reflexivity].
  apply (quiet_bind _ _ (Ok tt)); [apply quiet_logger|].
  destruct top as [| | | | |items|]; cbn in Hlen |- *; try discriminate;
    try (intros st; cbn; auto; fail).
  apply (quiet_bind _ _ (eachLabelled items)); [apply forEach_logTopFolder|].
  destruct (eachLabelled items) as [[]|e]; cbn; [|reflexivity].
  intros st. cbn. auto.
Qed.

(** X16.  [getProjectTopFolders] of the data-management service sends at
    most one request, the one the project service sends for the hub whose id
    is the project id up to its first dot.  It returns arrays only, with no
    [null] or [undefined] entry: the lines it logs read the length and
    every entry, so that an answer of another shape makes it throw a
    TypeError.  Unlike the lookups, it throws what was thrown to it: the
    authentication failure, the AxiosError of the request, or that
    TypeError. *)
Theorem top_folders_are_checked (p : string) (s : State W) :
  let run := getProjectTopFolders env p s in
  let cs := calls (newEvents s (snd run)) in
  (cs = [] \/ exists token res, cs = [(topFoldersRequest env (extractHubId p) p token, res)])
  /\ (countChar "." (extractHubId p) = 0%nat
      /\ exists rest, p = (extractHubId p ++ rest)%string
                      /\ (rest = ""%string \/ exists rest', rest = String "." rest'))
  /\ (forall v, fst run = Ok v ->
        exists items, v = JArr items /\ Forall (fun f => nullish f = false) items)
  /\ (forall e, fst run = Err e ->
        e = authFailure \/ (exists m d, e = AxiosError m d) \/ exists m, e = TypeError m).
Proof.
  cbv zeta.
  pose proof (emits_run _ _ s (getProjectTopFolders_emits p)) as Hrun.
  split; [exact (oneCall_calls _ _ _ _ Hrun)|]. split.
  - unfold extractHubId.
    destruct (spanChars _ p) as [hub rest] eqn:Hspan.
    apply spanChars_spec in Hspan as (Hp & Hhub & Hrest). cbn [fst].
    split; [now apply countChar_none|]. exists rest. split; [exact Hp|].
    destruct rest as [|c rest']; [auto|]. right. exists rest'. cbn in Hrest.
    apply negb_false_iff, Ascii.eqb_eq in Hrest. now subst.
  - split.
    + intros v Hv. rewrite Hv in Hrun.
      apply oneCall_ok in Hrun as (token & d & _ & Hd).
      now apply topFoldersOf_ok in Hd as [_ Hitems].
    + intros e He. rewrite He in Hrun.
      destruct Hrun as [[_ [= ->]] | (token & res & _ & Hr)]; [auto|].
      destruct res as [d|m d]; cbn in Hr.
      * right. right. symmetry in Hr. eauto using topFoldersOf_throws.
      * injection Hr as ->. eauto.
Qed.

End Quiet.

Lemma top_folders_are_checked_witness :
  (exists items,
     JArr [namedFolder "t1" "Project Files"; namedFolder "t2" "Plans"] = JArr items
     /\ Forall (fun f => nullish f = false) items)
  /\ (TypeError "topFolders.forEach is not a function" = authFailure
      \/ (exists m d, TypeError "topFolders.forEach is not a function" = AxiosError m d)
      \/ exists m, TypeError "topFolders.forEach is not a function" = TypeError m).
Proof.
  split.
  - destruct (top_folders_are_checked demoEnv "b.p1" (facing [topFoldersAnswer]))
      as (_ & _ & H & _).
    apply H. vm_compute. reflexivity.
  - destruct (top_folders_are_checked demoEnv "b.p1"
                (facing [Fulfilled (JObj [("data", JStr "none")])])) as (_ & _ & _ & H).
    apply H. vm_compute. reflexivity.
Defined.

(** ** Budgets *)

Section Budget.

Context {W : Type} (env : Env W) (budget : W -> nat).

Lemma frugal_quiet {A} (m : M W A) (r : Result A) : quiet m r -> frugal budget m.
Proof. intros Hm s. destruct (Hm s) as (_ & _ & -> & _). lia. Qed.

Lemma frugal_bind {A B} (m : M W A) (k : A -> M W B) :
  frugal budget m -> (forall a, frugal budget (k a)) -> frugal budget (bind m k).
Proof.
  intros Hm Hk s. unfold bind. specialize (Hm s).
  destruct (m s) as [[a|e] s1]; cbn in *; [|exact Hm].
  specialize (Hk a s1). lia.
Qed.

Lemma frugal_try_catch {A} (body : M W A) (handler : Exn -> M W A) :
  frugal budget body -> (forall e, frugal budget (handler e)) ->
  frugal budget (try_catch body handler).
Proof.
  intros Hb Hh s. unfold try_catch. specialize (Hb s).
  destruct (body s) as [[a|e] s1]; cbn in *; [exact Hb|].
  specialize (Hh e s1). lia.
Qed.

Lemma frugal_log_throw {A} (lv : Level) (msg : string) (d : Json) (e : Exn) :
  frugal budget (A := A) (bind (logger lv msg d) (fun _ => throw e)).
Proof. intros s. cbn. lia. Qed.

Lemma paid_bind_l {A B} (m : M W A) (k : A -> M W B) :
  paid budget m -> (forall a, frugal budget (k a)) -> paid budget (bind m k).
Proof.
  intros Hm Hk s b. unfold bind. specialize (Hm s).
  destruct (m s) as [[a|e] s1]; cbn in *; [|discriminate].
  intros Hb. specialize (Hk a s1). specialize (Hm a eq_refl). lia.
Qed.

Lemma paid_bind_r {A B} (m : M W A) (k : A -> M W B) :
  frugal budget m -> (forall a, paid budget (k a)) -> paid budget (bind m k).
Proof.
  intros Hm Hk s b. unfold bind. specialize (Hm s).
  destruct (m s) as [[a|e] s1]; cbn in *; [|discriminate].
  intros Hb. specialize (Hk a s1 b Hb). lia.
Qed.

Lemma paid_catch_throw {A} (body : M W A) (lv : Level) (msg : Exn -> string)
    (d : Exn -> Json) (f : Exn -> Exn) :
  paid budget body ->
  paid budget (try_catch body (fun e => bind (logger lv (msg e) (d e)) (fun _ => throw (f e)))).
Proof.
  intros Hb s a. unfold try_catch. specialize (Hb s).
  destruct (body s) as [[a'|e] s1]; cbn in *; [eauto | discriminate].
Qed.

Hypothesis Hfinite : finiteAnswers env budget.

Lemma authenticate_frugal : frugal budget (authenticate env).
Proof.
  intros s. destruct (cache_fresh_or_stale env s) as [(c & Hc & Hlt) | Hstale].
  - rewrite (authenticate_cached env s c Hc Hlt). cbn. lia.
  - destruct (authenticate_stale env s Hstale) as (_ & Hw & _). rewrite Hw.
    apply Hfinite.
Qed.

Lemma axios_request_frugal (req : Request) : frugal budget (axios_request env req).
Proof.
  intros s. unfold axios_request.
  destruct Hfinite as (_ & Hle & _). specialize (Hle (world s) req).
  destruct (http env (world s) req) as [[d|m d] w']; exact Hle.
Qed.

Lemma axios_request_paid (req : Request) : paid budget (axios_request env req).
Proof.
  intros s a. unfold axios_request.
  destruct Hfinite as (_ & _ & Hlt). specialize (Hlt (world s) req).
  destruct (http env (world s) req) as [[d|m d] w']; cbn in *; [eauto | discriminate].
Qed.

Lemma httpClient_request_frugal (m : Method) (u : string) (hs ps : list (string * Json))
    (b : Body) :
  frugal budget (httpClient_request env m u hs ps b).
Proof.
  apply frugal_bind; [apply authenticate_frugal | intros t; apply axios_request_frugal].
Qed.

Lemma httpClient_request_paid (m : Method) (u : string) (hs ps : list (string * Json))
    (b : Body) :
  paid budget (httpClient_request env m u hs ps b).
Proof.
  apply paid_bind_r; [apply authenticate_frugal | intros t; apply axios_request_paid].
Qed.

Lemma folderContents_defined (d : Json) (folders items : list Json) :
  folderContents d = Ok (folders, items) -> allDefined folders.
Proof.
  unfold folderContents, andThen.
  destruct (getProp d "data") as [listing|]; [|discriminate].
  destruct (js_filterByType "folders" listing) as [fs|] eqn:Hf; [|discriminate].
  destruct (js_filterByType "items" listing) as [is_|]; [|discriminate].
  intros [= <- _]. destruct listing; cbn in Hf; try discriminate.
  destruct (filterByType_in _ _ _ Hf) as [_ Hkept].
  apply Forall_forall. intros x Hx. destruct (Hkept x Hx) as (_ & t & Ht & _).
  destruct x; cbn in Ht |- *; congruence.
Qed.

(** What a listing costs and gives. *)
Lemma getFolderContents_spends (p f : string) (s : State W) :
  let out := getFolderContents env p f s in
  (budget (world (snd out)) <= budget (world s))%nat
  /\ match fst out with
     | Ok (folders, items) =>
         (budget (world (snd out)) < budget (world s))%nat /\ allDefined folders
     | Err e => e = listingFailed
     end.
Proof.
  cbv zeta. split.
  - apply frugal_try_catch; [|intros e; apply frugal_log_throw].
    apply frugal_bind; [apply httpClient_request_frugal|].
    intros a. apply (frugal_quiet _ _ (quiet_lift _)).
  - pose proof (emits_run _ _ s (getFolderContents_emits env p f)) as (r0 & Hcall & Hr).
    destruct (fst (getFolderContents env p f s)) as [[folders items]|e] eqn:Hout.
    + split.
      * assert (Hpaid : paid budget (getFolderContents env p f)).
        { unfold getFolderContents. apply paid_catch_throw.
          apply paid_bind_l; [apply httpClient_request_paid|].
          intros a. apply (frugal_quiet _ _ (quiet_lift _)). }
        exact (Hpaid s _ Hout).
      * destruct r0 as [c|]; [|discriminate]. injection Hr as <-.
        apply oneCall_ok in Hcall as (t & d & _ & Hd).
        exact (folderContents_defined _ _ _ Hd).
    + destruct r0; [discriminate | now injection Hr].
Qed.

Lemma getProjectTopFolders_spends (p : string) (s : State W) :
  let out := getProjectTopFolders env p s in
  (budget (world (snd out)) <= budget (world s))%nat
  /\ forall v, fst out = Ok v ->
       (budget (world (snd out)) < budget (world s))%nat
       /\ exists items, v = JArr items /\ allDefined items.
Proof.
  cbv zeta.
  assert (Hk : forall response,
             frugal budget
               (topFolders <- lift (getProp response "data") ;;
                count <- lift (js_length topFolders) ;;
                logger LOG ("Found " ++ templateOf env count ++ " top-level folder(s)")
                       JUndefined ;;
                js_forEach topFolders (logTopFolder env) ;;
                ret topFolders)).
  { intros response.
    apply frugal_bind; [apply (frugal_quiet _ _ (quiet_lift _))|]. intros top.
    apply frugal_bind; [apply (frugal_quiet _ _ (quiet_lift _))|]. intros count.
    apply frugal_bind; [apply (frugal_quiet _ _ (quiet_logger _ _ _))|]. intros _.
    apply frugal_bind; [|intros _ st; cbn; lia].
    destruct top; cbn; try (intros st; cbn; lia).
    apply (frugal_quiet _ _ (forEach_logTopFolder env items 0)). }
  split.
  - apply frugal_try_catch; [|intros e; apply frugal_log_throw].
    apply frugal_bind; [apply (frugal_quiet _ _ (quiet_logger _ _ _))|]. intros _.
    apply frugal_bind; [apply httpClient_request_frugal | exact Hk].
  - intros v Hv. split.
    + assert (Hpaid : paid budget (getProjectTopFolders env p)).
      { unfold getProjectTopFolders. apply paid_catch_throw.
        apply paid_bind_r; [apply (frugal_quiet _ _ (quiet_logger _ _ _))|]. intros _.
        apply paid_bind_l; [apply httpClient_request_paid | exact Hk]. }
      exact (Hpaid s _ Hv).
    + pose proof (emits_run _ _ s (getProjectTopFolders_emits env p)) as Hrun.
      rewrite Hv in Hrun. apply oneCall_ok in Hrun as (t & d & _ & Hd).
      now apply topFoldersOf_ok in Hd as [_ Hitems].
Qed.

End Budget.

(** ** Calls that call themselves *)

Section Returns.

Context {W : Type}.

Lemma returns_weaken {A} (m : Call W A) (frame : list Json) (s : State W)
    (Q Q' : Result A -> list Json -> State W -> Prop) :
  returns m frame s Q -> (forall r f s', Q r f s' -> Q' r f s') -> returns m frame s Q'.
Proof. intros (r & f & s' & Hm & HQ) H. exists r, f, s'. auto. Qed.

Lemma returns_bind {A B} (m : Call W A) (k : A -> Call W B) (frame : list Json)
    (s : State W) (Q1 : Result A -> list Json -> State W -> Prop)
    (Q : Result B -> list Json -> State W -> Prop) :
  returns m frame s Q1 ->
  (forall r f s', Q1 r f s' ->
     match r with
     | Ok a => returns (k a) f s' Q
     | Err e => Q (Err e) f s'
     end) ->
  returns (bindC m k) frame s Q.
Proof.
  intros (r & f & s' & Hm & HQ1) Hk. unfold returns, bindC. rewrite Hm.
  specialize (Hk r f s' HQ1). destruct r; [exact Hk | eauto].
Qed.

Lemma returns_try {A} (body : Call W A) (handler : Exn -> Call W A) (frame : list Json)
    (s : State W) (Q1 Q : Result A -> list Json -> State W -> Prop) :
  returns body frame s Q1 ->
  (forall r f s', Q1 r f s' ->
     match r with
     | Ok a => Q (Ok a) f s'
     | Err e => returns (handler e) f s' Q
     end) ->
  returns (try_catchC body handler) frame s Q.
Proof.
  intros (r & f & s' & Hm & HQ1) Hh. unfold returns, try_catchC. rewrite Hm.
  specialize (Hh r f s' HQ1). destruct r; [eauto | exact Hh].
Qed.

Lemma returns_fresh {A} (m : Call W A) (frame : list Json) (s : State W)
    (Q : Result A -> list Json -> State W -> Prop) :
  returns m [] s (fun r _ s' => Q r frame s') -> returns (fresh m) frame s Q.
Proof.
  intros (r & f & s' & Hm & HQ). unfold returns, fresh. rewrite Hm. eauto.
Qed.

Lemma returns_await {A} (m : M W A) (frame : list Json) (s : State W)
    (Q : Result A -> list Json -> State W -> Prop) :
  Q (fst (m s)) frame (snd (m s)) -> returns (await m) frame s Q.
Proof. unfold returns, await. destruct (m s) as [r s']. eauto. Qed.

Lemma returns_bind_await {A B} (m : M W A) (k : A -> Call W B) (frame : list Json)
    (s : State W) (Q : Result B -> list Json -> State W -> Prop) :
  match fst (m s) with
  | Ok a => returns (k a) frame (snd (m s)) Q
  | Err e => Q (Err e) frame (snd (m s))
  end ->
  returns (bindC (await m) k) frame s Q.
Proof.
  unfold returns, bindC, await. destruct (m s) as [[a|e] s']; cbn; eauto.
Qed.

Lemma returns_bind_push {B} (xs : list Json) (k : unit -> Call W B) (frame : list Json)
    (s : State W) (Q : Result B -> list Json -> State W -> Prop) :
  returns (k tt) (frame ++ xs) s Q -> returns (bindC (push xs) k) frame s Q.
Proof. exact (fun H => H). Qed.

Lemma returns_bind_allFolders {B} (k : list Json -> Call W B) (frame : list Json)
    (s : State W) (Q : Result B -> list Json -> State W -> Prop) :
  returns (k frame) frame s Q -> returns (bindC allFolders k) frame s Q.
Proof. exact (fun H => H). Qed.

Lemma returns_allFolders (frame : list Json) (s : State W)
    (Q : Result (list Json) -> list Json -> State W -> Prop) :
  Q (Ok frame) frame s -> returns allFolders frame s Q.
Proof. unfold returns, allFolders. eauto. Qed.

Lemma returns_retC {A} (a : A) (frame : list Json) (s : State W)
    (Q : Result A -> list Json -> State W -> Prop) :
  Q (Ok a) frame s -> returns (retC a) frame s Q.
Proof. unfold returns, retC. eauto. Qed.

Lemma returns_throwC {A} (e : Exn) (frame : list Json) (s : State W)
    (Q : Result A -> list Json -> State W -> Prop) :
  Q (Err e) frame s -> returns (throwC e) frame s Q.
Proof. unfold returns, throwC. eauto. Qed.

End Returns.

(** ** The traversal returns *)

Section Traversal.

Context {W : Type} (env : Env W) (budget : W -> nat).

Hypothesis Hfinite : finiteAnswers env budget.

(** The loop over the folders of one level: no iteration throws, whatever
    the calls below come to. *)
Lemma subFolders_returns (n : nat) (recur : Json -> Call W (list Json)) :
  (forall root frame s, (budget (world s) < n)%nat ->
     returns (recur root) frame s
       (fun r frame' s' =>
          frame' = frame /\ (budget (world s') <= budget (world s))%nat
          /\ forall folders, r = Ok folders -> allDefined folders)) ->
  forall folders frame s,
    allDefined folders -> (budget (world s) < n)%nat ->
    returns (forOf folders (subFoldersInto env recur)) frame s
      (fun r frame' s' =>
         r = Ok tt /\ (budget (world s') <= budget (world s))%nat
         /\ exists below, frame' = frame ++ below /\ allDefined below).
Proof.
  intros Hrec folders.
  induction folders as [|x rest IH]; intros frame s Hfs Hb; cbn [forOf].
  - apply returns_retC. split; [reflexivity|]. split; [lia|].
    exists []. rewrite app_nil_r. split; [reflexivity | constructor].
  - inversion Hfs as [|? ? Hx Hrest]; subst.
    destruct (getProp_of_defined x "id" Hx) as (idValue & Hid).
    apply (returns_bind _ _ _ _
             (fun r frame' s' =>
                r = Ok tt /\ (budget (world s') <= budget (world s))%nat
                /\ exists below, frame' = frame ++ below /\ allDefined below)).
    + unfold subFoldersInto.
      apply (returns_try _ _ _ _
               (fun r frame' s' =>
                  (budget (world s') <= budget (world s))%nat
                  /\ match r with
                     | Ok _ => exists below, frame' = frame ++ below /\ allDefined below
                     | Err _ => frame' = frame
                     end)).
      * apply returns_bind_await. cbn [lift fst snd]. rewrite Hid.
        apply (returns_bind _ _ _ _ _ _ (Hrec idValue frame s Hb)).
        intros r f s' (-> & Hb' & Hall). destruct r as [sub|e].
        -- unfold returns, push. eexists _, _, _. split; [reflexivity|].
           split; [exact Hb'|]. exists sub. auto.
        -- auto.
      * intros r f s' (Hb' & Hr). destruct r as [[]|e].
        -- auto.
        -- subst f. apply returns_bind_await. cbn [lift fst snd]. rewrite Hid.
           apply returns_await. cbn. split; [reflexivity|]. split; [exact Hb'|].
           exists []. rewrite app_nil_r. split; [reflexivity | constructor].
    + intros r f s' (-> & Hb' & below & -> & Hbelow).
      apply (returns_weaken _ _ _ _ _ (IH (frame ++ below) s' Hrest ltac:(lia))).
      intros r f' s'' (-> & Hb'' & below' & -> & Hbelow').
      split; [reflexivity|]. split; [lia|]. exists (below ++ below').
      rewrite app_assoc. split; [reflexivity | now apply Forall_app].
Qed.

(** The listing of one folder and the loop over what it shows. *)
Lemma viaContents_returns (n : nat) (recur : Json -> Call W (list Json))
    (p : string) (folderId : Json) (frame : list Json) (s : State W) :
  (forall root frame s, (budget (world s) < n)%nat ->
     returns (recur root) frame s
       (fun r frame' s' =>
          frame' = frame /\ (budget (world s') <= budget (world s))%nat
          /\ forall folders, r = Ok folders -> allDefined folders)) ->
  (budget (world s) <= n)%nat ->
  returns
    (bindC (await (logger LOG ("Fetching folders from: " ++ templateOf env folderId)
                          JUndefined)) (fun _ =>
     bindC (await (getFolderContents env p (templateOf env folderId))) (fun contents =>
     bindC (push (fst contents)) (fun _ =>
     bindC (forOf (fst contents) (subFoldersInto env recur)) (fun _ => allFolders)))))
    frame s
    (fun r frame' s' =>
       (budget (world s') <= budget (world s))%nat
       /\ match rootListing env p folderId s with
          | Ok (folders, _) =>
              exists below, r = Ok (frame ++ folders ++ below)
                            /\ allDefined (folders ++ below)
          | Err _ => r = Err listingFailed
          end).
Proof.
  intros Hrec Hb. unfold rootListing.
  remember (snd (logger LOG ("Fetching folders from: " ++ templateOf env folderId)
                        JUndefined s)) as s0 eqn:Hs0.
  assert (Hw0 : world s0 = world s) by (subst s0; reflexivity).
  apply returns_bind_await. rewrite <- Hs0. cbn [logger fst].
  apply returns_bind_await.
  destruct (getFolderContents_spends env budget Hfinite p (templateOf env folderId) s0)
    as [Hle Hout].
  rewrite Hw0 in Hle, Hout. clear Hs0 Hw0.
  destruct (getFolderContents env p (templateOf env folderId) s0)
    as [[[folders items]|e] s1]; cbn [fst snd] in *.
  - destruct Hout as [Hlt Hdef]. apply returns_bind_push.
    apply (returns_bind _ _ _ _ _ _
             (subFolders_returns n recur Hrec folders (frame ++ folders) s1 Hdef
                ltac:(lia))).
    intros r f s' (-> & Hb' & below & -> & Hbelow).
    apply returns_allFolders. split; [lia|]. exists below.
    rewrite <- app_assoc. split; [reflexivity | now apply Forall_app].
  - subst e. split; [lia | reflexivity].
Qed.

Lemma getAllProjectFolders_returns (fuel : nat) :
  forall p root frame s,
    (budget (world s) < fuel)%nat ->
    returns (getAllProjectFolders env fuel p root) frame s
            (Traversed env budget p root frame s).
Proof.
  induction fuel as [|n IH]; intros p root frame s Hb; [lia|].
  assert (Hrec : forall root' frame' s',
             (budget (world s') < n)%nat ->
             returns (getAllProjectFolders env n p root') frame' s'
               (fun r f s'' =>
                  f = frame' /\ (budget (world s'') <= budget (world s'))%nat
                  /\ forall folders, r = Ok folders -> allDefined folders)).
  { intros root' frame' s' Hb'.
    apply (returns_weaken _ _ _ _ _ (IH p root' frame' s' Hb')).
    intros r f s'' (-> & Hle & Hr & _). split; [reflexivity|]. split; [exact Hle|].
    intros folders ->. exact Hr. }
  cbn [getAllProjectFolders]. cbv zeta.
  apply (returns_try _ _ _ _ (Traversed env budget p root frame s)).
  - apply returns_fresh. destruct (truthy root) eqn:Ht.
    + apply (returns_bind _ _ _ _ (fun r f s' => r = Ok None /\ f = [] /\ s' = s));
        [apply returns_retC; auto|].
      intros r f s' (-> & -> & ->). unfold jor. rewrite Ht.
      apply (returns_weaken _ _ _ _ _
               (viaContents_returns n _ p root [] s Hrec ltac:(lia))).
      intros r f s' (Hle & Hr). unfold Traversed, headedBy. rewrite Ht.
      split; [reflexivity|]. split; [exact Hle|].
      destruct (rootListing env p root s) as [[folders items]|e].
      * destruct Hr as (below & -> & Hdef). cbn [app]. split; [exact Hdef|]. eauto.
      * subst r. split; reflexivity.
    + destruct (getProjectTopFolders_spends env budget Hfinite p s) as [Hle Hout].
      destruct (getProjectTopFolders env p s) as [[top|e] s1] eqn:Htop;
        cbn [fst snd] in *.
      * destruct (Hout top eq_refl) as (Hlt & items & -> & Hitems).
        apply (returns_bind _ _ _ _
                 (fun r f s' =>
                    (budget (world s') <= budget (world s))%nat
                    /\ exists below, r = Ok (Some (items ++ below))
                                     /\ allDefined (items ++ below))).
        -- apply (returns_try _ _ _ _
                    (fun r f s' =>
                       (budget (world s') <= budget (world s))%nat
                       /\ exists below, r = Ok (Some (items ++ below))
                                        /\ allDefined (items ++ below))).
           ++ apply returns_bind_await. rewrite Htop. cbn [fst snd].
              apply returns_bind_await. cbn [js_iterate lift fst snd].
              apply returns_bind_push. apply returns_bind_await. cbn [lift fst snd].
              apply (returns_bind _ _ _ _ _ _
                       (subFolders_returns n _ Hrec items ([] ++ items) s1 Hitems
                          ltac:(lia))).
              intros r f s' (-> & Hb' & below & -> & Hbelow).
              apply returns_bind_allFolders. apply returns_retC.
              split; [lia|]. exists below. split; [reflexivity | now apply Forall_app].
           ++ intros r f s' (Hle' & below & -> & Hdef). eauto.
        -- intros r f s' (Hle' & below & -> & Hdef).
           apply returns_retC. unfold Traversed, headedBy. rewrite Ht, Htop.
           split; [reflexivity|]. split; [exact Hle'|]. split; [exact Hdef|]. eauto.
      * apply (returns_bind _ _ _ _
                 (fun r f s' =>
                    r = Ok None /\ f = []
                    /\ s' = snd (logger WARN
                                   "Failed to get top folders, trying alternative method"
                                   JUndefined s1))).
        -- apply (returns_try _ _ _ _ (fun r f s' => r = Err e /\ f = [] /\ s' = s1)).
           ++ apply returns_bind_await. rewrite Htop. cbn [fst snd]. auto.
           ++ intros r f s' (-> & -> & ->).
              apply returns_bind_await. cbn [logger fst snd].
              apply returns_retC. auto.
        -- intros r f s' (-> & -> & ->). unfold jor. rewrite Ht.
           apply (returns_weaken _ _ _ _ _
                    (viaContents_returns n _ p (JStr p) []
                       (snd (logger WARN
                               "Failed to get top folders, trying alternative method"
                               JUndefined s1))
                       Hrec ltac:(cbn; lia))).
           intros r f' s'' (Hle' & Hr). unfold Traversed, headedBy, fallbackListing.
           rewrite Ht, Htop. split; [reflexivity|]. split; [cbn in Hle'; lia|].
           destruct (rootListing env p (JStr p) _) as [[folders items]|e'].
           ++ destruct Hr as (below & -> & Hdef). cbn [app]. split; [exact Hdef|]. eauto.
           ++ subst r. split; reflexivity.
  - intros r f s' HT. destruct r as [folders|e]; [exact HT|].
    apply returns_bind_await. cbn. apply returns_throwC. exact HT.
Qed.

End Traversal.

(** ** More fuel changes nothing *)

Section Extends.

Context {W : Type}.

Lemma extends_refl {A} (m : Call W A) : extends m m.
Proof. intros frame s out H. exact H. Qed.

Lemma extends_bindC {A B} (m m' : Call W A) (k k' : A -> Call W B) :
  extends m m' -> (forall a, extends (k a) (k' a)) -> extends (bindC m k) (bindC m' k').
Proof.
  intros Hm Hk frame s out. unfold bindC.
  destruct (m frame s) as [[[r f] s']|] eqn:E; [|discriminate].
  rewrite (Hm _ _ _ E). destruct r; [apply Hk | auto].
Qed.

Lemma extends_try {A} (body body' : Call W A) (handler handler' : Exn -> Call W A) :
  extends body body' -> (forall e, extends (handler e) (handler' e)) ->
  extends (try_catchC body handler) (try_catchC body' handler').
Proof.
  intros Hb Hh frame s out. unfold try_catchC.
  destruct (body frame s) as [[[r f] s']|] eqn:E; [|discriminate].
  rewrite (Hb _ _ _ E). destruct r; [auto | apply Hh].
Qed.

Lemma extends_fresh {A} (m m' : Call W A) : extends m m' -> extends (fresh m) (fresh m').
Proof.
  intros Hm frame s out. unfold fresh.
  destruct (m [] s) as [[[r f] s']|] eqn:E; [|discriminate].
  now rewrite (Hm _ _ _ E).
Qed.

Lemma extends_forOf {A} (xs : list A) (body body' : A -> Call W unit) :
  (forall x, extends (body x) (body' x)) -> extends (forOf xs body) (forOf xs body').
Proof.
  intros Hb. induction xs as [|x xs IH]; cbn [forOf]; [apply extends_refl|].
  apply extends_bindC; [apply Hb | intros _; exact IH].
Qed.

End Extends.

Section Fuel.

Context {W : Type} (env : Env W).

Lemma extends_subFoldersInto (recur recur' : Json -> Call W (list Json)) (x : Json) :
  (forall idValue, extends (recur idValue) (recur' idValue)) ->
  extends (subFoldersInto env recur x) (subFoldersInto env recur' x).
Proof.
  intros Hr. unfold subFoldersInto.
  apply extends_try; [|intros e; apply extends_refl].
  apply extends_bindC; [apply extends_refl|]. intros idValue.
  apply extends_bindC; [apply Hr | intros sub; apply extends_refl].
Qed.

Lemma getAllProjectFolders_step (n m : nat) (p : string) :
  (forall root, extends (getAllProjectFolders env n p root)
                        (getAllProjectFolders env m p root)) ->
  forall root, extends (getAllProjectFolders env (S n) p root)
                       (getAllProjectFolders env (S m) p root).
Proof.
  intros H root. cbn [getAllProjectFolders]. cbv zeta.
  assert (Hloop : forall folders,
             extends (forOf folders (subFoldersInto env (getAllProjectFolders env n p)))
                     (forOf folders (subFoldersInto env (getAllProjectFolders env m p)))).
  { intros folders. apply extends_forOf. intros x. now apply extends_subFoldersInto. }
  apply extends_try; [|intros e; apply extends_refl]. apply extends_fresh.
  apply extends_bindC.
  - destruct (truthy root); [apply extends_refl|].
    apply extends_try; [|intros e; apply extends_refl].
    apply extends_bindC; [apply extends_refl|]. intros top.
    apply extends_bindC; [apply extends_refl|]. intros spread.
    apply extends_bindC; [apply extends_refl|]. intros _.
    apply extends_bindC; [apply extends_refl|]. intros folders.
    apply extends_bindC; [apply Hloop | intros _; apply extends_refl].
  - intros [result|]; [apply extends_refl|].
    apply extends_bindC; [apply extends_refl|]. intros _.
    apply extends_bindC; [apply extends_refl|]. intros contents.
    apply extends_bindC; [apply extends_refl|]. intros _.
    apply extends_bindC; [apply Hloop | intros _; apply extends_refl].
Qed.

Lemma getAllProjectFolders_more_fuel (n m : nat) (p : string) (root : Json) :
  (n <= m)%nat ->
  extends (getAllProjectFolders env n p root) (getAllProjectFolders env m p root).
Proof.
  revert m root. induction n as [|n IH]; intros m root Hle.
  - intros frame s out [=].
  - destruct m as [|m]; [lia|].
    apply getAllProjectFolders_step. intros root'. apply IH. lia.
Qed.

Lemma run_more_fuel {A} (m m' : Call W A) (s : State W) (r : Result A)
    (frame' : list Json) (s' : State W) :
  extends m m' -> m [] s = Some (r, frame', s') -> run m' s = Some (r, s').
Proof. intros Hm H. unfold run. now rewrite (Hm _ _ _ H). Qed.

End Fuel.

Lemma scripted_finite (opts : AutodeskAccModuleOptions) :
  finiteAnswers (scripted opts) answersLeft.
Proof.
  unfold finiteAnswers, answersLeft. cbn. unfold scriptedToken, scriptedHttp.
  split; [|split].
  - intros w body. destruct (tokenReplies w); cbn; lia.
  - intros w req. destruct (httpReplies w) eqn:E; cbn; [rewrite E; cbn|]; lia.
  - intros w req d. destruct (httpReplies w); cbn; [discriminate | lia].
Qed.

(** ** Properties of the traversal *)

Section TraversalProperties.

Context {W : Type} (env : Env W) (budget : W -> nat).

(** X17.  In an environment that runs dry [getAllProjectFolders] returns,
    and what it comes to does not depend on the fuel once the fuel exceeds
    the budget.  It throws nothing but Error "Failed to fetch folder
    contents", and the array it returns has no [null] or [undefined]
    entry. *)
Theorem traversal_returns (p : string) (root : Json) (s : State W) :
  finiteAnswers env budget ->
  exists r s',
    (forall fuel, (budget (world s) < fuel)%nat ->
       run (getAllProjectFolders env fuel p root) s = Some (r, s'))
    /\ (budget (world s') <= budget (world s))%nat
    /\ match r with
       | Ok folders => allDefined folders
       | Err e => e = listingFailed
       end.
Proof.
  intros Hfin.
  destruct (getAllProjectFolders_returns env budget Hfin (S (budget (world s)))
              p root [] s ltac:(lia)) as (r & f & s' & Hrun & _ & Hle & Hr & _).
  exists r, s'. split; [|auto].
  intros fuel Hfuel.
  apply (run_more_fuel _ _ _ _ _ _
           (getAllProjectFolders_more_fuel env (S (budget (world s))) fuel p root ltac:(lia)) Hrun).
Qed.

(** X18.  A traversal that starts at a folder fails only when the listing
    of that folder fails.  When that listing is had, the folders it shows
    head the result, and whatever goes wrong below them (a listing refused,
    a token that can no longer be had) is logged and skipped: the caller
    gets the folders found so far and cannot tell that some are missing. *)
Theorem failures_below_the_root_are_skipped (p : string) (root : Json) (s : State W)
    (fuel : nat) :
  finiteAnswers env budget ->
  truthy root = true ->
  (budget (world s) < fuel)%nat ->
  match rootListing env p root s with
  | Ok (folders, _) =>
      exists below s',
        run (getAllProjectFolders env fuel p root) s = Some (Ok (folders ++ below), s')
  | Err _ =>
      exists s', run (getAllProjectFolders env fuel p root) s = Some (Err listingFailed, s')
  end.
Proof.
  intros Hfin Ht Hb.
  destruct (getAllProjectFolders_returns env budget Hfin fuel p root [] s Hb)
    as (r & f & s' & Hrun & _ & _ & _ & Hroot).
  unfold headedBy in Hroot. rewrite Ht in Hroot. unfold run. rewrite Hrun.
  destruct (rootListing env p root s) as [[folders items]|e].
  - destruct Hroot as (below & ->). eauto.
  - subst r. eauto.
Qed.

Lemma folderNamed_object (name : string) (folder : Json) :
  folderNamed name folder = Ok true -> exists fields, folder = JObj fields.
Proof.
  unfold folderNamed. destruct folder; cbn; try discriminate; eauto.
Qed.

Lemma folderLabel_truthy (folder : Json) :
  nullish folder = false -> exists name, folderLabel folder = Ok name /\ truthy name = true.
Proof.
  intros Hf. unfold folderLabel.
  destruct (getProp_of_defined folder "attributes" Hf) as (attributes & ->). cbn.
  eexists. split; [reflexivity|]. unfold jor.
  destruct (truthy (getPropOpt attributes "name")) eqn:Hn; rewrite ?Hn; [reflexivity|].
  destruct (truthy (getPropOpt attributes "displayName")) eqn:Hd; rewrite ?Hd;
    reflexivity.
Qed.

Lemma mapResult_folderEntry (folders : list Json) :
  allDefined folders ->
  exists entries, mapResult folderEntry folders = Ok entries /\ Forall isEntry entries
                  /\ length entries = length folders.
Proof.
  induction 1 as [|x rest Hx Hrest IH]; cbn.
  - exists []. split; [reflexivity|]. split; [constructor | reflexivity].
  - destruct IH as (entries & -> & Hentries & Hlen).
    destruct (folderLabel_truthy x Hx) as (name & Hname & Htruthy).
    destruct (getProp_of_defined x "id" Hx) as (idValue & Hid).
    unfold folderEntry. rewrite Hname, Hid. cbn.
    eexists. split; [reflexivity|]. split; [|cbn; now rewrite Hlen].
    constructor; [|exact Hentries]. exists name, idValue. auto.
Qed.

Lemma forEach_logEntry (entries : list Json) (index : nat) :
  Forall isEntry entries -> quiet (forEach index entries (logEntry env)) (Ok tt).
Proof.
  intros H. revert index. induction H as [|x rest Hx Hrest IH]; intros index; cbn.
  - apply (quiet_lift (Ok tt)).
  - destruct Hx as (name & idValue & -> & _).
    apply (quiet_bind _ _ (Ok tt)); [|apply IH].
    intros st. cbn. auto.
Qed.

End TraversalProperties.

Lemma traversal_returns_witness :
  exists r s',
    (forall fuel, (answersLeft (world (facing treeReplies)) < fuel)%nat ->
       run (getAllProjectFolders demoEnv fuel "p1" (JStr "f1")) (facing treeReplies)
       = Some (r, s'))
    /\ (answersLeft (world s') <= answersLeft (world (facing treeReplies)))%nat
    /\ match r with
       | Ok folders => allDefined folders
       | Err e => e = listingFailed
       end.
Proof.
  apply (traversal_returns demoEnv answersLeft "p1" (JStr "f1") (facing treeReplies)).
  apply scripted_finite.
Defined.

(** The traversal of the three-folder project: the folder of the root, then
    the one inside it. *)
Example traversal_of_the_tree :
  exists s',
    run (getAllProjectFolders demoEnv 4 "p1" (JStr "f1")) (facing treeReplies)
    = Some (Ok [namedFolder "f2" "Drawings"; namedFolder "f4" "Details"], s').
Proof. eexists. vm_compute. reflexivity. Qed.

Lemma failures_below_the_root_are_skipped_witness :
  let s := facing [Fulfilled (JObj [("data", JArr [namedFolder "f2" "Drawings"])])] in
  exists below s',
    run (getAllProjectFolders demoEnv 2 "p1" (JStr "f1")) s
    = Some (Ok ([namedFolder "f2" "Drawings"] ++ below), s').
Proof.
  cbv zeta.
  apply (failures_below_the_root_are_skipped demoEnv answersLeft "p1" (JStr "f1")
           (facing [Fulfilled (JObj [("data", JArr [namedFolder "f2" "Drawings"])])]) 2).
  - apply scripted_finite.
  - reflexivity.
  - vm_compute. lia.
Defined.

(** ** A listing that shows itself *)

Section Cycle.

Context {W : Type} (env : Env W).

Lemma bindC_await {A B} (m : M W A) (k : A -> Call W B) (frame : list Json)
    (s : State W) :
  bindC (await m) k frame s
  = match m s with
    | (Ok a, s') => k a frame s'
    | (Err e, s') => Some (Err e, frame, s')
    end.
Proof. unfold bindC, await. destruct (m s) as [[a|e] s']; reflexivity. Qed.

(** X21.  [getAllProjectFolders] keeps no record of the folders it has
    seen and has no bound on its depth: where every listing is answered by
    the same listing, which shows a folder with an id, and the token stays
    valid, a traversal that starts at a folder has no outcome, whatever the
    fuel. *)
Theorem traversal_of_a_cycle_never_returns (p : string) (root : Json) (s : State W)
    (c : AutodeskAuthContext) (listing folder idValue : Json) (rest items : list Json)
    (fuel : nat) :
  (forall w req, fst (http env w req) = Fulfilled listing) ->
  folderContents listing = Ok (folder :: rest, items) ->
  getProp folder "id" = Ok idValue ->
  truthy idValue = true ->
  (forall w, Date_now env w < expiresAt c - 300000) ->
  authContext s = Some c ->
  truthy root = true ->
  run (getAllProjectFolders env fuel p root) s = None.
Proof.
  intros Hhttp Hlisting Hid Htruthy Hclock Hc Hroot.
  assert (Hagain : forall f st, authContext st = Some c ->
            exists st', getFolderContents env p f st = (Ok (folder :: rest, items), st')
                        /\ authContext st' = Some c).
  { intros f st Hst.
    unfold getFolderContents, try_catch, bind, httpClient_get, httpClient_request, bind,
      getAccessToken.
    rewrite (authenticate_cached env st c Hst (Hclock _)). unfold axios_request.
    match goal with |- context [http env (world st) ?req] =>
      specialize (Hhttp (world st) req); destruct (http env (world st) req) as [res w']
    end.
    cbn in Hhttp. subst res. cbn. unfold lift. rewrite Hlisting.
    eexists. split; [reflexivity | exact Hst]. }
  enough (H : forall n root' frame st,
             authContext st = Some c -> truthy root' = true ->
             getAllProjectFolders env n p root' frame st = None).
  { unfold run. now rewrite (H fuel root [] s Hc Hroot). }
  clear s Hc root Hroot fuel.
  induction n as [|n IH]; intros root frame s Hc Hroot; [reflexivity|].
  cbn [getAllProjectFolders]. cbv zeta. unfold try_catchC at 1. unfold fresh.
  match goal with |- match (match ?m with _ => _ end) with _ => _ end = None =>
    enough (Hm : m = None) by (now rewrite Hm)
  end.
  rewrite Hroot. unfold bindC at 1. cbn [retC]. unfold jor. rewrite Hroot.
  rewrite bindC_await. cbn [logger]. rewrite bindC_await.
  match goal with |- context [getFolderContents env p ?f ?st] =>
    destruct (Hagain f st Hc) as (s1 & -> & Hc1)
  end.
  cbn [fst]. unfold bindC at 1. cbn [push]. unfold bindC at 1. cbn [forOf].
  unfold bindC at 1. unfold subFoldersInto at 1. unfold try_catchC at 1.
  rewrite bindC_await. cbn [lift]. rewrite Hid. unfold bindC at 1.
  now rewrite (IH idValue _ s1 Hc1 Htruthy).
Qed.

End Cycle.

Lemma traversal_of_a_cycle_never_returns_witness :
  run (getAllProjectFolders mirrorEnv 5 "p1" (JStr "f1")) mirrorState = None.
Proof.
  apply (traversal_of_a_cycle_never_returns mirrorEnv "p1" (JStr "f1") mirrorState
           {| accessToken := "tok"; expiresAt := 10000000; refreshToken := None |}
           (JObj [("data", JArr [namedFolder "f2" "Drawings"])])
           (namedFolder "f2" "Drawings") (JStr "f2") [] [] 5).
  - intros w req. reflexivity.
  - reflexivity.
  - reflexivity.
  - reflexivity.
  - intros w. reflexivity.
  - reflexivity.
  - reflexivity.
Defined.

(** ** A folder at the root *)

Section RootFolderRuns.

Context {W : Type} (env : Env W).

(** On an id that is a string, the call made by [createRootFolder] is the
    method [createFolder]. *)
Lemma createFolderUnder_string (p parent name : string) :
  createFolderUnder env p (JStr parent) name = createFolder env p parent name.
Proof. reflexivity. Qed.

Lemma createFolderUnder_emits (p : string) (parent : Json) (name : string) :
  emits (createFolderUnder env p parent name) (CreateUnderRun env p parent name).
Proof.
  unfold createFolderUnder, CreateUnderRun.
  eapply emits_weaken;
    [apply (emits_catch_rethrow _ _
              (fun _ => BadRequestException ("Failed to create folder: " ++ name))
              (fun cs r0 =>
                 exists cs1 r1, FolderRun env p (templateOf env parent) cs1 r1 /\
                   match andThen r1 (fun parentFolder => folderExtensionType parentFolder)
                   with
                   | Err e => cs = cs1 /\ r0 = Err e
                   | Ok extensionType =>
                       exists cs2, cs = cs1 ++ cs2 /\
                         oneCall (newFolderUnderRequest env p parent name extensionType)
                                 (fun d => getProp d "data") cs2 r0
                   end))
    | intros cs r (r0 & H & ->); exists r0; auto].
  2:{ intros e. apply emits_log_details_throw. }
  apply (emits_bind _ _ (FolderRun env p (templateOf env parent))
           (fun parentFolder cs r =>
              match folderExtensionType parentFolder with
              | Err e => cs = [] /\ r = Err e
              | Ok extensionType =>
                  oneCall (newFolderUnderRequest env p parent name extensionType)
                          (fun d => getProp d "data") cs r
              end)).
  - apply getFolder_emits.
  - intros parentFolder. apply bind_lift_emits.
    destruct (folderExtensionType parentFolder) as [extensionType|e]; [|auto].
    apply log_then_emits. unfold httpClient_post, newFolderUnderRequest.
    apply httpClient_call_emits. intros response.
    apply log_then_silently, lift_silently.
  - intros cs e Hf. exists cs, (Err e). split; [exact Hf|]. cbn. auto.
  - intros cs1 parentFolder cs2 r Hf Hk. exists cs1, (Ok parentFolder).
    split; [exact Hf|]. cbn.
    destruct (folderExtensionType parentFolder) as [extensionType|e].
    + exists cs2. auto.
    + destruct Hk as [-> ->]. rewrite app_nil_r. auto.
Qed.

Lemma useFolder_emits (p name : string) (f : Json) (msg : Json -> Json -> string) :
  emits (attributes <- lift (getProp f "attributes") ;;
         idValue <- lift (getProp f "id") ;;
         logger LOG (msg attributes idValue) JUndefined ;;
         created <- createFolderUnder env p idValue name ;;
         ret (Some created))
        (fun cs r =>
           match readFolder f with
           | Err e => cs = [] /\ r = Err e
           | Ok parent =>
               exists r2, CreateUnderRun env p parent name cs r2
                          /\ r = andThen r2 (fun created => Ok (Some created))
           end).
Proof.
  unfold readFolder. apply bind_lift_emits.
  destruct (getProp f "attributes") as [attributes|e]; cbn; [|auto].
  apply bind_lift_emits. destruct (getProp f "id") as [idValue|e]; cbn; [|auto].
  apply log_then_emits.
  apply (emits_bind _ _ (CreateUnderRun env p idValue name)
           (fun created => silently (Ok (Some created)))).
  - apply createFolderUnder_emits.
  - intros created. apply emits_ret. split; reflexivity.
  - intros cs e H. exists (Err e). auto.
  - intros cs1 created cs2 r H [-> ->]. rewrite app_nil_r. exists (Ok created). auto.
Qed.

Lemma underTop_emits (p name : string) (topFolders : Json) :
  emits
    (match topFolders with
     | JArr items =>
         found <- lift (findFirst standardRoot items) ;;
         let rootFolder := match found with Some f => f | None => JUndefined end in
         if truthy rootFolder then
           attributes <- lift (getProp rootFolder "attributes") ;;
           idValue <- lift (getProp rootFolder "id") ;;
           logger LOG ("Found root folder: "
                         ++ templateOf env (getPropOpt attributes "name")
                         ++ " (" ++ templateOf env idValue ++ ")") JUndefined ;;
           created <- createFolderUnder env p idValue name ;;
           ret (Some created)
         else if 0 <? Z.of_nat (length items) then
           let firstFolder := match items with x :: _ => x | [] => JUndefined end in
           attributes <- lift (getProp firstFolder "attributes") ;;
           idValue <- lift (getProp firstFolder "id") ;;
           logger LOG ("Using first top folder: "
                         ++ templateOf env (getPropOpt attributes "name")
                         ++ " (" ++ templateOf env idValue ++ ")") JUndefined ;;
           created <- createFolderUnder env p idValue name ;;
           ret (Some created)
         else ret None
     | JUndefined =>
         throw (TypeError "Cannot read properties of undefined (reading 'find')")
     | JNull => throw (TypeError "Cannot read properties of null (reading 'find')")
     | _ => throw (TypeError "topFolders.find is not a function")
     end)
    (UnderTopRun env p name topFolders).
Proof.
  unfold UnderTopRun, chosenParent.
  destruct topFolders as [| | | | |items|];
    try (apply (emits_pure (Err _)); split; reflexivity).
  apply bind_lift_emits.
  destruct (findFirst standardRoot items) as [found|e]; cbn [andThen]; [|auto].
  cbv zeta.
  destruct (truthy match found with Some f => f | None => JUndefined end).
  - eapply emits_weaken;
      [apply (useFolder_emits p name _
                (fun attributes idValue =>
                   "Found root folder: " ++ templateOf env (getPropOpt attributes "name")
                     ++ " (" ++ templateOf env idValue ++ ")")%string)|].
    intros cs r H. cbn beta in H.
    destruct (readFolder match found with Some f => f | None => JUndefined end);
      exact H.
  - destruct items as [|x rest]; cbn [length Z.of_nat Z.ltb Z.compare].
    + apply emits_ret. split; reflexivity.
    + change (0 <? Z.of_nat (length (x :: rest))) with true. cbv iota.
      eapply emits_weaken;
        [apply (useFolder_emits p name x
                  (fun attributes idValue =>
                     "Using first top folder: "
                       ++ templateOf env (getPropOpt attributes "name")
                       ++ " (" ++ templateOf env idValue ++ ")")%string)|].
      intros cs r H. cbn beta in H. destruct (readFolder x); exact H.
Qed.

Lemma createRootFolder_emits (p name : string) :
  emits (createRootFolder env p name) (RootRun env p name).
Proof.
  unfold createRootFolder, RootRun.
  eapply emits_weaken;
    [apply (emits_catch_rethrow _ _ (fun _ => rootFailure name)
              (fun cs r0 =>
                 exists cs1 r1 cs2 r2,
                   oneCall (topFoldersRequest env (extractHubId p) p) topFoldersOf cs1 r1
                   /\ match r1 with
                      | Ok topFolders => UnderTopRun env p name topFolders cs2 r2
                      | Err e => cs2 = [] /\ r2 = Err e
                      end
                   /\ match r2 with
                      | Ok (Some created) => cs = cs1 ++ cs2 /\ r0 = Ok created
                      | _ =>
                          exists cs3, cs = cs1 ++ cs2 ++ cs3
                            /\ oneCall (directRequest env p name)
                                       (fun d => getProp d "data") cs3 r0
                      end))
    | intros cs r (r0 & H & ->); exists r0; auto].
  2:{ intros e. apply emits_log_details_throw. }
  apply log_then_emits.
  apply (emits_bind _ _
           (fun cs (r : Result (option Json)) =>
              exists cs1 r1 cs2 r2,
                oneCall (topFoldersRequest env (extractHubId p) p) topFoldersOf cs1 r1
                /\ match r1 with
                   | Ok topFolders => UnderTopRun env p name topFolders cs2 r2
                   | Err e => cs2 = [] /\ r2 = Err e
                   end
                /\ cs = cs1 ++ cs2
                /\ r = Ok match r2 with Ok returned => returned | Err _ => None end)
           (fun returned cs r =>
              match returned with
              | Some created => cs = [] /\ r = Ok created
              | None =>
                  oneCall (directRequest env p name) (fun d => getProp d "data") cs r
              end)).
  - apply (emits_try_catch _ _
             (fun cs (r : Result (option Json)) =>
                exists cs1 r1 cs2,
                  oneCall (topFoldersRequest env (extractHubId p) p) topFoldersOf cs1 r1
                  /\ cs = cs1 ++ cs2
                  /\ match r1 with
                     | Ok topFolders => UnderTopRun env p name topFolders cs2 r
                     | Err e => cs2 = [] /\ r = Err e
                     end)
             (fun _ => silently (Ok None))).
    + apply (emits_bind _ _
               (oneCall (topFoldersRequest env (extractHubId p) p) topFoldersOf)
               (fun topFolders => UnderTopRun env p name topFolders)).
      * apply getProjectTopFolders_emits.
      * intros topFolders. apply underTop_emits.
      * intros cs e H. exists cs, (Err e), []. rewrite app_nil_r. auto.
      * intros cs1 topFolders cs2 r H1 H2. exists cs1, (Ok topFolders), cs2. auto.
    + intros e. apply log_then_silently, emits_ret. split; reflexivity.
    + intros cs returned (cs1 & r1 & cs2 & H1 & -> & H2).
      exists cs1, r1, cs2, (Ok returned). auto.
    + intros cs e cs' r (cs1 & r1 & cs2 & H1 & -> & H2) [-> ->].
      rewrite app_nil_r. exists cs1, r1, cs2, (Err e). auto.
  - intros [created|].
    + apply emits_ret. split; reflexivity.
    + unfold httpClient_post, directRequest, newFolderRequest.
      apply httpClient_call_emits. intros response.
      apply log_then_silently, lift_silently.
  - intros cs e (cs1 & r1 & cs2 & r2 & _ & _ & _ & [=]).
  - intros cs returned cs3 r (cs1 & r1 & cs2 & r2 & H1 & H2 & -> & [= ->]) H3.
    exists cs1, r1, cs2, r2. split; [exact H1|]. split; [exact H2|].
    destruct r2 as [[created|]|e].
    + destruct H3 as [-> ->]. rewrite app_nil_r. auto.
    + exists cs3. rewrite <- app_assoc. auto.
    + exists cs3. rewrite <- app_assoc. auto.
Qed.

End RootFolderRuns.

Lemma posts_app (cs cs' : list Exchange) : posts (cs ++ cs') = posts cs ++ posts cs'.
Proof. apply filter_app. Qed.

Section RootFolderProperties.

Context {W : Type} (env : Env W).

Lemma CreateUnderRun_shape (p : string) (parent : Json) (name : string)
    (cs : list Exchange) (r : Result Json) :
  CreateUnderRun env p parent name cs r ->
  exists gets under,
    cs = gets ++ under /\ (length gets <= 1)%nat /\ posts gets = []
    /\ (under = []
        \/ exists ext token res,
             under = [(newFolderUnderRequest env p parent name ext token, res)])
    /\ match r with
       | Ok created =>
           exists req d, under = [(req, Fulfilled d)] /\ getProp d "data" = Ok created
       | Err _ =>
           forall req d created,
             under = [(req, Fulfilled d)] -> getProp d "data" <> Ok created
       end.
Proof.
  intros (r0 & -> & cs1 & r1 & Hf & Hrest). exists cs1.
  assert (Hgets : (length cs1 <= 1)%nat /\ posts cs1 = []).
  { apply FolderRun_calls in Hf as [-> | (t & res & ->)]; cbn; split; auto; lia. }
  destruct Hgets as [Hlen Hposts].
  destruct (andThen r1 _) as [ext|e].
  - destruct Hrest as (cs2 & -> & Hcall). exists cs2.
    split; [reflexivity|]. split; [exact Hlen|]. split; [exact Hposts|].
    destruct Hcall as [[-> ->] | (token & res & -> & ->)]; cbn.
    + split; [auto|]. intros req d created [=].
    + split; [right; eauto|].
      destruct res as [d|m d]; cbn.
      * destruct (getProp d "data") as [created|e] eqn:Hd; cbn.
        -- eauto.
        -- intros req d' created [= _ <-]. congruence.
      * intros req d' created [=].
  - destruct Hrest as [-> ->]. exists []. rewrite app_nil_r.
    split; [reflexivity|]. split; [exact Hlen|]. split; [exact Hposts|].
    split; [auto|]. cbn. intros req d created [=].
Qed.

(** The runs of [createRootFolder], in one form. *)
Lemma RootRun_shape (p name : string) (cs : list Exchange) (r : Result Json) :
  RootRun env p name cs r ->
  exists gets under direct r0,
    r = rethrowAs (fun _ => rootFailure name) r0
    /\ cs = gets ++ under ++ direct
    /\ (length gets <= 2)%nat /\ posts gets = []
    /\ (under = []
        \/ exists parent ext token res,
             under = [(newFolderUnderRequest env p parent name ext token, res)]
             /\ chosenFrom env p cs parent)
    /\ ((direct = []
         /\ exists req d created,
              under = [(req, Fulfilled d)] /\ getProp d "data" = Ok created
              /\ r0 = Ok created)
        \/ ((forall req d created,
               under = [(req, Fulfilled d)] -> getProp d "data" <> Ok created)
            /\ oneCall (directRequest env p name) (fun d => getProp d "data")
                       direct r0)).
Proof.
  intros (r0 & -> & cs1 & r1 & cs2 & r2 & Htop & Hunder & Hrest).
  assert (Hcs1 : (length cs1 <= 1)%nat /\ posts cs1 = []).
  { apply oneCall_calls in Htop as [-> | (t & res & ->)]; cbn; split; auto; lia. }
  destruct Hcs1 as [Hlen1 Hposts1].
  assert (Hdirect : cs2 = [] -> (exists e, r2 = Err e) \/ r2 = Ok None ->
            exists gets under direct r0',
              rethrowAs (fun _ => rootFailure name) r0
              = rethrowAs (fun _ => rootFailure name) r0'
              /\ cs = gets ++ under ++ direct
              /\ (length gets <= 2)%nat /\ posts gets = []
              /\ (under = []
                  \/ exists parent ext token res,
                       under = [(newFolderUnderRequest env p parent name ext token, res)]
                       /\ chosenFrom env p cs parent)
              /\ ((direct = []
                   /\ exists req d created,
                        under = [(req, Fulfilled d)] /\ getProp d "data" = Ok created
                        /\ r0' = Ok created)
                  \/ ((forall req d created,
                         under = [(req, Fulfilled d)] -> getProp d "data" <> Ok created)
                      /\ oneCall (directRequest env p name) (fun d => getProp d "data")
                                 direct r0'))).
  { intros -> Hr2.
    assert (Hcs3 : exists cs3, cs = cs1 ++ [] ++ cs3
                     /\ oneCall (directRequest env p name) (fun d => getProp d "data")
                                cs3 r0).
    { destruct Hr2 as [[e ->] | ->]; exact Hrest. }
    destruct Hcs3 as (cs3 & -> & Hcall).
    exists cs1, [], cs3, r0. split; [reflexivity|]. split; [reflexivity|].
    split; [lia|]. split; [exact Hposts1|]. split; [auto|].
    right. split; [intros req d created [=] | exact Hcall]. }
  destruct r1 as [topFolders|e]; [|destruct Hunder as [Hcs2 ->]; eauto].
  unfold UnderTopRun in Hunder.
  destruct (chosenParent topFolders) as [[parent|]|e] eqn:Hchosen;
    [|destruct Hunder as [Hcs2 ->]; eauto | destruct Hunder as [Hcs2 ->]; eauto].
  destruct Hunder as (r2' & Hrun & ->).
  apply oneCall_ok in Htop as (t0 & d0 & -> & Hd0).
  assert (Hfrom : forall rest,
             chosenFrom env p
               ([(topFoldersRequest env (extractHubId p) p t0, Fulfilled d0)] ++ rest)
               parent).
  { intros rest. exists t0, d0, topFolders. auto. }
  apply CreateUnderRun_shape in Hrun
    as (gets & under & -> & Hlen & Hposts & Hshape & Hres).
  destruct r2' as [created|e]; cbn [andThen] in Hrest.
  - destruct Hrest as [-> ->]. destruct Hres as (req & d & Hu & Hd).
    exists ([(topFoldersRequest env (extractHubId p) p t0, Fulfilled d0)] ++ gets),
      under, [], (Ok created).
    split; [reflexivity|]. split; [now rewrite app_nil_r, app_assoc|].
    split; [cbn [app length]; unfold Exchange in *; lia|].
    split; [now rewrite posts_app, Hposts1, Hposts|].
    split; [destruct Hshape as [-> | (ext & t & res & ->)]; eauto 10|].
    left. split; [reflexivity|]. eauto 6.
  - destruct Hrest as (cs3 & -> & Hcall).
    exists ([(topFoldersRequest env (extractHubId p) p t0, Fulfilled d0)] ++ gets),
      under, cs3, r0.
    split; [reflexivity|]. split; [now rewrite <- !app_assoc|].
    split; [cbn [app length]; unfold Exchange in *; lia|].
    split; [now rewrite posts_app, Hposts1, Hposts|].
    split; [destruct Hshape as [-> | (ext & t & res & ->)]; eauto 10|].
    right. auto.
Qed.

(** X22.  [createRootFolder] may create twice.  It sends at most four
    requests, of which at most two are creations: one under a top folder
    (the first one named Plans, Project Files or Plan, else the first one),
    then one directly under the project.  The second is not sent when the
    first gave a folder; it is attempted whenever the first did not, also
    when the first was fulfilled and only its answer could not be read.
    What it returns is the [data] of a fulfilled creation, and whatever
    fails it throws
    BadRequestException "Failed to create folder at root: <name>". *)
Theorem createRootFolder_may_create_twice (p name : string) (s : State W) :
  let run := createRootFolder env p name s in
  let cs := calls (newEvents s (snd run)) in
  (forall e, fst run = Err e -> e = rootFailure name)
  /\ (length cs <= 4)%nat
  /\ exists under direct,
       posts cs = under ++ direct
       /\ (under = []
           \/ exists parent ext token res,
                under = [(newFolderUnderRequest env p parent name ext token, res)]
                /\ chosenFrom env p cs parent)
       /\ (direct = []
           \/ exists token res, direct = [(directRequest env p name token, res)])
       /\ (forall req d created,
             under = [(req, Fulfilled d)] -> getProp d "data" = Ok created ->
             direct = [] /\ fst run = Ok created)
       /\ (forall req res,
             under = [(req, res)] ->
             (forall d created, res = Fulfilled d -> getProp d "data" <> Ok created) ->
             direct <> [] \/ fst run = Err (rootFailure name))
       /\ (forall created,
             fst run = Ok created ->
             exists req d, In (req, Fulfilled d) (under ++ direct)
                           /\ getProp d "data" = Ok created).
Proof.
  cbv zeta.
  pose proof (emits_run _ _ s (createRootFolder_emits env p name)) as Hrun.
  apply RootRun_shape in Hrun
    as (gets & under & direct & r0 & Hr & Hcs & Hlen & Hposts & Hunder & Hcases).
  rewrite Hr. clear Hr.
  assert (Hu : posts under = under /\ (length under <= 1)%nat).
  { destruct Hunder as [-> | (parent & ext & t & res & -> & _)]; cbn; split; auto; lia. }
  destruct Hu as [Hpu Hlu].
  assert (Hd : (direct = [] \/ exists token res,
                   direct = [(directRequest env p name token, res)])).
  { destruct Hcases as [[-> _] | [_ Hcall]]; [auto|].
    apply oneCall_calls in Hcall as [-> | (t & res & ->)]; eauto. }
  assert (Hpd : posts direct = direct /\ (length direct <= 1)%nat).
  { destruct Hd as [-> | (t & res & ->)]; cbn; split; auto; lia. }
  destruct Hpd as [Hpd Hld].
  split; [|split].
  - intros e He. destruct r0; cbn in He; [discriminate | now injection He].
  - rewrite Hcs, !length_app. lia.
  - exists under, direct.
    split; [rewrite Hcs, !posts_app, Hposts, Hpu, Hpd; reflexivity|].
    split; [exact Hunder|]. split; [exact Hd|].
    split; [|split].
    + intros req d created Hu Hdata.
      destruct Hcases as [(-> & req' & d' & created' & Hu' & Hd' & ->) | [Hno _]].
      * split; [reflexivity|]. rewrite Hu in Hu'. injection Hu' as _ <-.
        cbn. congruence.
      * now destruct (Hno req d created Hu).
    + intros req res Hu Hno.
      destruct Hcases as [(_ & req' & d' & created' & Hu' & Hd' & _) | [_ Hcall]].
      * rewrite Hu in Hu'. injection Hu' as _ ->.
        now destruct (Hno d' created' eq_refl).
      * destruct Hcall as [[-> ->] | (t & res' & -> & _)]; [right | left];
          [reflexivity | discriminate].
    + intros created Hc.
      destruct Hcases as [(-> & req & d & created' & -> & Hd' & ->) | [_ Hcall]].
      * cbn in Hc. injection Hc as ->. exists req, d. cbn. auto.
      * destruct r0 as [v|]; cbn in Hc; [injection Hc as ->|discriminate].
        apply oneCall_ok in Hcall as (t & d & -> & Hd').
        exists (directRequest env p name t), d.
        split; [apply in_or_app; right; left; reflexivity | exact Hd'].
Qed.

End RootFolderProperties.

(** The retry at work: the creation under "Project Files" is fulfilled, its
    answer cannot be read, and the folder is created again under the
    project. *)
Example createRootFolder_retry :
  let run := createRootFolder demoEnv "b.p1" "Reports" (facing rootRetry) in
  fst run = Ok (namedFolder "f9" "Reports")
  /\ posts (calls (newEvents (facing rootRetry) (snd run)))
     = [ (newFolderUnderRequest demoEnv "b.p1" (JStr "t1") "Reports"
            "folders:autodesk.bim360:Folder" "tok", Fulfilled JNull);
         (directRequest demoEnv "b.p1" "Reports" "tok",
          Fulfilled (JObj [("data", namedFolder "f9" "Reports")])) ].
Proof. vm_compute. split; reflexivity. Qed.

Lemma createRootFolder_may_create_twice_witness :
  let run := createRootFolder demoEnv "b.p1" "Reports" (facing rootRetry) in
  exists req d,
    In (req, Fulfilled d)
       (posts (calls (newEvents (facing rootRetry) (snd run))))
    /\ getProp d "data" = Ok (namedFolder "f9" "Reports").
Proof.
  cbv zeta.
  destruct (createRootFolder_may_create_twice demoEnv "b.p1" "Reports" (facing rootRetry))
    as (_ & _ & under & direct & Hposts & _ & _ & _ & _ & Hok).
  rewrite Hposts. apply Hok. vm_compute. reflexivity.
Defined.

(** ** The earlier revision of the upload *)

Section Every.

Context {W : Type} (env : Env W) (kind : Request -> Prop).

Lemma every_oneCall {A} (m : M W A) (mk : string -> Request) (after : Json -> Result A) :
  emits m (oneCall mk after) -> (forall token, kind (mk token)) -> emits m (every kind 1).
Proof.
  intros Hm Hk. apply (emits_weaken _ _ _ Hm).
  intros cs r [[-> _] | (token & res & -> & _)];
    (split; cbn; [repeat constructor; cbn; auto | lia]).
Qed.

Lemma every_decodedCall {A} (m : M W A) (objectId : Json)
    (mk : string -> string -> string -> Request) (after : Json -> Result A) :
  emits m (decodedCall objectId mk after) ->
  (forall b k token, kind (mk b k token)) -> emits m (every kind 1).
Proof.
  intros Hm Hk. apply (emits_weaken _ _ _ Hm). unfold decodedCall.
  intros cs r H. destruct (decodeObjectId objectId) as [[b k]|e].
  - destruct H as [[-> _] | (token & res & -> & _)];
      (split; cbn; [repeat constructor; cbn; auto | lia]).
  - destruct H as [-> _]. split; cbn; [constructor | lia].
Qed.

Lemma every_bind {A B} (m : M W A) (k : A -> M W B) (n1 n2 : nat) :
  emits m (every kind n1) -> (forall a, emits (k a) (every kind n2)) ->
  emits (bind m k) (every kind (n1 + n2)).
Proof.
  intros Hm Hk.
  apply (emits_bind _ _ (every kind n1) (fun _ => every kind n2)); auto.
  - intros cs e [H Hn]. split; [exact H | lia].
  - intros cs1 a cs2 r [H1 Hn1] [H2 Hn2]. split.
    + now apply Forall_app.
    + rewrite length_app. lia.
Qed.

Lemma every_lift {A B} (r : Result A) (k : A -> M W B) (n : nat) :
  (forall a, emits (k a) (every kind n)) -> emits (bind (lift r) k) (every kind n).
Proof.
  intros Hk. apply bind_lift_emits. destruct r as [a|e]; [apply Hk|].
  split; cbn; [constructor | lia].
Qed.

Lemma every_catch {A} (body : M W A) (handler : Exn -> M W A) (f : Exn -> Exn)
    (n : nat) :
  emits body (every kind n) -> (forall e, emits (handler e) (throwsOnly (f e))) ->
  emits (try_catch body handler) (every kind n).
Proof.
  intros Hb Hh.
  apply (emits_weaken _ _ _ (emits_catch_rethrow body handler f _ Hb Hh)).
  intros cs r (r0 & H & _). exact H.
Qed.

End Every.

Section Earlier.

Context {W : Type} (env : Env W).

Lemma earlier_getSignedUploadUrl_emits (objectId : Json) :
  emits (EarlierRevision.getSignedUploadUrl env objectId)
        (decodedCall objectId (grantRequest env)
           (fun d => andThen (getProp d "urls") index0)).
Proof.
  unfold EarlierRevision.getSignedUploadUrl. apply rethrow_same_emits.
  - apply decoded_emits. intros b key. unfold httpClient_get, grantRequest.
    apply httpClient_call_emits. intros response. apply lift_silently.
  - intros e. apply emits_log_throw.
Qed.

Lemma earlier_completeUpload_emits (objectId : Json) :
  emits (EarlierRevision.completeUpload env objectId)
        (decodedCall objectId (finalizeRequest env (JStr "")) (fun _ => Ok tt)).
Proof.
  unfold EarlierRevision.completeUpload. apply rethrow_same_emits.
  - apply decoded_emits. intros b key. unfold httpClient_post, finalizeRequest.
    apply httpClient_call_emits. intros response. apply log_silently.
  - intros e. apply emits_log_throw.
Qed.

Lemma earlier_createFirstVersion_emits (o : UploadFileOptions) (objectId : Json) :
  emits (EarlierRevision.createFirstVersion env (projectId o) (folderId o) (fileName o)
           objectId)
        (oneCall (publishRequest env o "items:autodesk.core:File"
                    "versions:autodesk.core:File" objectId)
                 (fun d => getProp d "data")).
Proof.
  unfold EarlierRevision.createFirstVersion, httpClient_post, publishRequest.
  apply httpClient_call_emits. intros response. apply lift_silently.
Qed.

Lemma earlier_uploadFile_emits (o : UploadFileOptions) :
  emits (EarlierRevision.uploadFile env o) (every (earlierRequest env o) 5).
Proof.
  unfold EarlierRevision.uploadFile. cbv zeta.
  apply every_catch
    with (f := fun e => BadRequestException ("Failed to upload file: " ++ message e));
    [|intros e; apply emits_log_throw].
  apply every_bind with (n1 := 1%nat) (n2 := 4%nat).
  { eapply every_oneCall; [apply createStorage_emits|].
    intros token. left. eauto. }
  intros storage. apply log_then_emits. apply every_lift. intros storageId.
  apply every_bind with (n1 := 1%nat) (n2 := 3%nat).
  { eapply every_decodedCall; [apply earlier_getSignedUploadUrl_emits|].
    intros b k token. right. left. eauto. }
  intros signedUrl.
  apply every_bind with (n1 := 1%nat) (n2 := 2%nat).
  { apply (emits_weaken _ _ _ (uploadToSignedUrl_emits env o signedUrl)).
    intros cs r (res & -> & _). split; cbn; [|lia].
    constructor; [|constructor]. cbn. right. right. left. eauto. }
  intros _. apply every_lift. intros storageId'.
  apply every_bind with (n1 := 1%nat) (n2 := 1%nat).
  { eapply every_decodedCall; [apply earlier_completeUpload_emits|].
    intros b k token. right. right. right. left. eauto. }
  intros _. apply every_lift. intros storageId''.
  apply every_bind with (n1 := 1%nat) (n2 := 0%nat).
  { eapply every_oneCall; [apply earlier_createFirstVersion_emits|].
    intros token. right. right. right. right. eauto. }
  intros item. apply log_then_emits, emits_ret. split; cbn; [constructor | lia].
Qed.

(** X23.  The earlier revision of the upload, which the file still holds,
    sends at most five requests: the reservation, the grant, the transfer,
    the finalize and the first version.  Its finalize request carries the
    empty upload key whatever key the grant returned, and its first version
    is of the core types whatever the parent folder is, which is not
    read. *)
Theorem earlier_revision_finalizes_with_an_empty_key (o : UploadFileOptions)
    (s : State W) :
  let cs := calls (newEvents s (snd (EarlierRevision.uploadFile env o s))) in
  (length cs <= 5)%nat
  /\ forall req res,
       In (req, res) cs ->
       earlierRequest env o req
       /\ (isFinalizeCall req -> data req = JsonBody (JObj [("uploadKey", JStr "")]))
       /\ (method req = GET -> isGrantCall req).
Proof.
  cbv zeta.
  destruct (emits_run _ _ s (earlier_uploadFile_emits o)) as [Hall Hlen].
  split; [exact Hlen|]. intros req res Hin.
  rewrite Forall_forall in Hall. specialize (Hall _ Hin). cbn in Hall.
  split; [exact Hall|].
  destruct Hall as [(t & ->) | [(b & k & t & ->) | [(u & ->) | [(b & k & t & ->)
                   | (objectId & t & ->)]]]].
  - split; [|discriminate]. intros [_ (b & k & Hu)].
    unfold signedUploadPath in Hu. cbn in Hu. discriminate.
  - split; [intros [Hm _]; discriminate|]. intros _. split; [reflexivity|].
    exists b, k. reflexivity.
  - split; [intros [Hm _]; discriminate | discriminate].
  - split; [reflexivity | discriminate].
  - split; [|discriminate]. intros [_ (b & k & Hu)].
    unfold signedUploadPath in Hu. cbn in Hu. discriminate.
Qed.

End Earlier.

Lemma earlier_revision_finalizes_with_an_empty_key_witness :
  data (finalizeRequest demoEnv (JStr "") "bucketA" "obj1" "tok")
  = JsonBody (JObj [("uploadKey", JStr "")]).
Proof.
  destruct (earlier_revision_finalizes_with_an_empty_key demoEnv demoUpload
              (facing [storageAnswer; grantAnswer; emptyAnswer; emptyAnswer; itemAnswer]))
    as [_ H].
  apply (H _ emptyAnswer).
  - vm_compute. do 3 right. left. reflexivity.
  - split; [reflexivity|]. exists "bucketA", "obj1". reflexivity.
Defined.

(** ** The first revision of the upload *)

Section First.

Context {W : Type} (env : Env W).

Lemma first_uploadFile_emits (o : UploadFileOptions) :
  emits (FirstRevision.uploadFile env o) (every (firstRequest env o) 3).
Proof.
  unfold FirstRevision.uploadFile. cbv zeta.
  apply every_catch
    with (f := fun e => BadRequestException ("Failed to upload file: " ++ Exn_toString e));
    [|intros e; apply emits_log_throw].
  apply every_bind with (n1 := 1%nat) (n2 := 2%nat).
  { eapply every_oneCall; [apply createStorage_emits|].
    intros token. left. eauto. }
  intros storage. apply every_lift. intros objectId.
  apply every_bind with (n1 := 1%nat) (n2 := 1%nat).
  { eapply every_decodedCall; [apply uploadToStorage_emits|].
    intros b k token. right. left. eauto. }
  intros _. apply every_lift. intros objectId'.
  apply every_bind with (n1 := 1%nat) (n2 := 0%nat).
  { eapply every_oneCall; [apply earlier_createFirstVersion_emits|].
    intros token. right. right. eauto. }
  intros item. apply log_then_emits, emits_ret. split; cbn; [constructor | lia].
Qed.

(** X24.  The first revision of the upload, which the file still holds,
    sends at most three requests, and sends the bytes through the API: its
    PUT goes to AUTODESK_BASE_URL with the bearer token, not to a signed
    URL.  It reads the object id from the member [objectId] of the storage
    resource: when the reservation is answered by a resource without that
    member, nothing more is sent and the upload fails with
    BadRequestException "Failed to upload file: TypeError: Cannot read
    properties of undefined (reading 'match')". *)
Theorem first_revision_puts_through_the_api (o : UploadFileOptions) (s : State W) :
  let run := FirstRevision.uploadFile env o s in
  let reserved := createStorage env (projectId o) (folderId o) (fileName o) s in
  let cs := calls (newEvents s (snd run)) in
  (length cs <= 3)%nat
  /\ (forall req res, In (req, res) cs ->
        firstRequest env o req
        /\ (method req = PUT ->
            baseURL req = Some (AUTODESK_BASE_URL env)
            /\ exists token,
                 lookup "Authorization" (headers req) = JStr ("Bearer " ++ token)%string))
  /\ (forall storage,
        fst reserved = Ok storage -> getProp storage "objectId" = Ok JUndefined ->
        cs = calls (newEvents s (snd reserved))
        /\ fst run
           = Err (BadRequestException
                    ("Failed to upload file: TypeError: "
                       ++ "Cannot read properties of undefined (reading 'match')"))).
Proof.
  cbv zeta.
  destruct (emits_run _ _ s (first_uploadFile_emits o)) as [Hall Hlen].
  split; [exact Hlen|]. split.
  - intros req res Hin. rewrite Forall_forall in Hall. specialize (Hall _ Hin).
    cbn in Hall. split; [exact Hall|].
    destruct Hall as [(t & ->) | [(b & k & t & ->) | (objectId & t & ->)]];
      try discriminate.
    intros _. split; [reflexivity|]. exists t. reflexivity.
  - intros storage Hres Hobj.
    unfold FirstRevision.uploadFile, try_catch, bind. cbv zeta.
    destruct (createStorage env (projectId o) (folderId o) (fileName o) s)
      as [r s1]. cbn in Hres. subst r. unfold lift at 1. rewrite Hobj.
    cbn. split; reflexivity.
Qed.

End First.

Lemma first_revision_puts_through_the_api_witness :
  let s := facing [storageAnswer] in
  calls (newEvents s (snd (FirstRevision.uploadFile demoEnv demoUpload s)))
  = calls (newEvents s (snd (createStorage demoEnv "p1" "f1" "a.txt" s)))
  /\ fst (FirstRevision.uploadFile demoEnv demoUpload s)
     = Err (BadRequestException
              ("Failed to upload file: TypeError: "
                 ++ "Cannot read properties of undefined (reading 'match')")%string).
Proof.
  cbv zeta.
  destruct (first_revision_puts_through_the_api demoEnv demoUpload (facing [storageAnswer]))
    as (_ & _ & H).
  apply (H (JObj [("type", JStr "objects"); ("id", JStr demoStorageId)]));
    vm_compute; reflexivity.
Defined.

(** ** The whole project, and lookups over the traversal *)

Section OverTheTraversal.

Context {W : Type} (env : Env W) (budget : W -> nat).

(** X25.  Without a root the traversal asks for the top folders of the
    project.  When they are had they head the result as they are, whatever
    their type.  When the request fails, for whatever reason, the failure is
    logged and the folder whose id is the project id is listed instead; the
    traversal fails only when that listing fails too. *)
Theorem whole_project_traversal (p : string) (root : Json) (s : State W) (fuel : nat) :
  finiteAnswers env budget ->
  truthy root = false ->
  (budget (world s) < fuel)%nat ->
  match getProjectTopFolders env p s with
  | (Ok topFolders, _) =>
      exists items below s',
        topFolders = JArr items
        /\ run (getAllProjectFolders env fuel p root) s = Some (Ok (items ++ below), s')
  | (Err _, s1) =>
      match fallbackListing env p s1 with
      | Ok (folders, _) =>
          exists below s',
            run (getAllProjectFolders env fuel p root) s
            = Some (Ok (folders ++ below), s')
      | Err _ =>
          exists s',
            run (getAllProjectFolders env fuel p root) s = Some (Err listingFailed, s')
      end
  end.
Proof.
  intros Hfin Ht Hb.
  destruct (getAllProjectFolders_returns env budget Hfin fuel p root [] s Hb)
    as (r & f & s' & Hrun & _ & _ & _ & Hroot).
  unfold headedBy in Hroot. rewrite Ht in Hroot. unfold run. rewrite Hrun.
  destruct (getProjectTopFolders env p s) as [[topFolders|e] s1].
  - destruct Hroot as (items & below & -> & ->). eauto.
  - destruct (fallbackListing env p s1) as [[folders items]|e'].
    + destruct Hroot as (below & ->). eauto.
    + subst r. eauto.
Qed.

(** What [findFolderByName] makes of the traversal. *)
Lemma findFolderByName_run (p name : string) (root : Json) (frame : list Json)
    (s : State W) (r0 : Result (list Json)) (f : list Json) (s0 : State W) :
  exists s',
    forall fuel,
      getAllProjectFolders env fuel p root frame (searching p name s) = Some (r0, f, s0) ->
      findFolderByName env fuel p name root frame s
      = Some (Ok match r0 with
                 | Ok folders => firstNamed name folders
                 | Err _ => JNull
                 end, f, s').
Proof.
  assert (Hstep : forall fuel,
            getAllProjectFolders env fuel p root frame (searching p name s)
            = Some (r0, f, s0) ->
            forall (A : Type) (k : list Json -> Call W A) (handler : Exn -> Call W A),
              try_catchC
                (bindC (await (logger LOG ("Searching for folder: " ++ quoted name
                                             ++ " in project " ++ p) JUndefined))
                   (fun _ => bindC (getAllProjectFolders env fuel p root) k))
                handler frame s
              = match r0 with
                | Ok folders =>
                    match k folders f s0 with
                    | None => None
                    | Some (Ok a, f', s') => Some (Ok a, f', s')
                    | Some (Err e, f', s') => handler e f' s'
                    end
                | Err e => handler e f s0
                end).
  { intros fuel Hrun A k handler. unfold try_catchC at 1. rewrite bindC_await.
    cbn [logger]. unfold searching, logger in Hrun. cbn [snd] in Hrun.
    unfold bindC at 1. rewrite Hrun. destruct r0; reflexivity. }
  destruct r0 as [folders|e].
  - unfold firstNamed.
    destruct (findFolder name folders) as [[folder|]|e] eqn:Hfind.
    + apply findFolder_some in Hfind as Hnamed. destruct Hnamed as [_ Hnamed].
      destruct (folderNamed_object _ _ Hnamed) as (fields & ->).
      eexists. intros fuel Hrun. unfold findFolderByName.
      rewrite (Hstep fuel Hrun). rewrite bindC_await. cbn [lift]. rewrite Hfind.
      cbn. reflexivity.
    + eexists. intros fuel Hrun. unfold findFolderByName.
      rewrite (Hstep fuel Hrun). rewrite bindC_await. cbn [lift]. rewrite Hfind.
      cbn. reflexivity.
    + eexists. intros fuel Hrun. unfold findFolderByName.
      rewrite (Hstep fuel Hrun). rewrite bindC_await. cbn [lift]. rewrite Hfind.
      cbn. reflexivity.
  - eexists. intros fuel Hrun. unfold findFolderByName.
    rewrite (Hstep fuel Hrun). cbn. reflexivity.
Qed.

(** X19.  [findFolderByName] never throws.  In an environment that runs
    dry it returns, the same for every fuel above the budget: the first
    folder of the traversal whose name or display name is the name asked
    for, and [null] when there is none or when the traversal failed, which
    the caller cannot tell apart. *)
Theorem findFolderByName_never_throws (p name : string) (root : Json) (s : State W) :
  finiteAnswers env budget ->
  exists r0 s0 v s',
    (forall fuel, (budget (world s) < fuel)%nat ->
       run (getAllProjectFolders env fuel p root) (searching p name s) = Some (r0, s0)
       /\ run (findFolderByName env fuel p name root) s = Some (Ok v, s'))
    /\ v = match r0 with
           | Ok folders => firstNamed name folders
           | Err _ => JNull
           end
    /\ (v = JNull \/ folderNamed name v = Ok true).
Proof.
  intros Hfin.
  destruct (getAllProjectFolders_returns env budget Hfin (S (budget (world s)))
              p root [] (searching p name s) ltac:(cbn; lia))
    as (r0 & f & s0 & Hrun & -> & _).
  destruct (findFolderByName_run p name root [] s r0 [] s0) as (s' & Hfind).
  exists r0, s0, (match r0 with
                  | Ok folders => firstNamed name folders
                  | Err _ => JNull
                  end), s'.
  split; [|split; [reflexivity|]].
  - intros fuel Hfuel.
    pose proof (getAllProjectFolders_more_fuel env (S (budget (world s))) fuel p root
                  ltac:(lia) _ _ _ Hrun) as Hrun'.
    unfold run. rewrite Hrun', (Hfind fuel Hrun'). auto.
  - destruct r0 as [folders|e]; [|auto]. unfold firstNamed.
    destruct (findFolder name folders) as [[folder|]|e] eqn:H; auto.
    right. now apply findFolder_some in H.
Qed.

(** What [listAllFoldersWithIds] makes of the traversal. *)
Lemma listAllFoldersWithIds_run (p : string) (frame : list Json) (s : State W)
    (r0 : Result (list Json)) (f : list Json) (s0 : State W) :
  match r0 with Ok folders => allDefined folders | Err _ => True end ->
  exists r s',
    (forall fuel,
       getAllProjectFolders env fuel p JUndefined frame (listing s) = Some (r0, f, s0) ->
       listAllFoldersWithIds env fuel p frame s = Some (r, f, s'))
    /\ match r0 with
       | Ok folders =>
           exists entries,
             r = Ok entries /\ mapResult folderEntry folders = Ok entries
             /\ Forall isEntry entries /\ length entries = length folders
       | Err e => r = Err e
       end.
Proof.
  intros Hdef.
  assert (Hstep : forall fuel,
            getAllProjectFolders env fuel p JUndefined frame (listing s)
            = Some (r0, f, s0) ->
            forall (A : Type) (k : list Json -> Call W A) (handler : Exn -> Call W A),
              try_catchC
                (bindC (await (logger LOG "=== LISTING ALL FOLDERS ===" JUndefined))
                   (fun _ => bindC (getAllProjectFolders env fuel p JUndefined) k))
                handler frame s
              = match r0 with
                | Ok folders =>
                    match k folders f s0 with
                    | None => None
                    | Some (Ok a, f', s') => Some (Ok a, f', s')
                    | Some (Err e, f', s') => handler e f' s'
                    end
                | Err e => handler e f s0
                end).
  { intros fuel Hrun A k handler. unfold try_catchC at 1. rewrite bindC_await.
    cbn [logger]. unfold listing, logger in Hrun. cbn [snd] in Hrun.
    unfold bindC at 1. rewrite Hrun. destruct r0; reflexivity. }
  destruct r0 as [folders|e].
  - destruct (mapResult_folderEntry folders Hdef) as (entries & Hmap & Hentries & Hlen).
    destruct (forEach_logEntry env entries 0 Hentries s0) as (Hres & _).
    eexists (Ok entries), _. split; [|eauto].
    intros fuel Hrun. unfold listAllFoldersWithIds.
    rewrite (Hstep fuel Hrun). rewrite bindC_await. cbn [lift]. rewrite Hmap.
    rewrite bindC_await.
    rewrite (surjective_pairing (forEach 0 entries (logEntry env) s0)), Hres.
    cbn. reflexivity.
  - eexists (Err e), _. split; [|reflexivity].
    intros fuel Hrun. unfold listAllFoldersWithIds.
    rewrite (Hstep fuel Hrun). cbn. reflexivity.
Qed.

(** X20.  In an environment that runs dry [listAllFoldersWithIds] returns,
    the same for every fuel above the budget: one entry for each folder of
    the traversal of the whole project, in that order.  Every entry has the
    three members name, id and path, path being the name again and not a
    path, and the name is never empty: a folder without a name is listed as
    "Unknown".  When the traversal fails it throws what the traversal
    threw, Error "Failed to fetch folder contents". *)
Theorem listAllFoldersWithIds_entries (p : string) (s : State W) :
  finiteAnswers env budget ->
  exists r0 s0 r s',
    (forall fuel, (budget (world s) < fuel)%nat ->
       run (getAllProjectFolders env fuel p JUndefined) (listing s) = Some (r0, s0)
       /\ run (listAllFoldersWithIds env fuel p) s = Some (r, s'))
    /\ match r0 with
       | Ok folders =>
           exists entries,
             r = Ok entries /\ mapResult folderEntry folders = Ok entries
             /\ Forall isEntry entries /\ length entries = length folders
       | Err e => r = Err e /\ e = listingFailed
       end.
Proof.
  intros Hfin.
  destruct (getAllProjectFolders_returns env budget Hfin (S (budget (world s)))
              p JUndefined [] (listing s) ltac:(cbn; lia))
    as (r0 & f & s0 & Hrun & -> & _ & Hr0 & _).
  destruct (listAllFoldersWithIds_run p [] s r0 [] s0) as (r & s' & Hlist & Hr).
  { destruct r0; [exact Hr0 | exact I]. }
  exists r0, s0, r, s'. split.
  - intros fuel Hfuel.
    pose proof (getAllProjectFolders_more_fuel env (S (budget (world s))) fuel p JUndefined
                  ltac:(lia) _ _ _ Hrun) as Hrun'.
    unfold run. rewrite Hrun', (Hlist fuel Hrun'). auto.
  - destruct r0 as [folders|e]; [exact Hr | auto].
Qed.

End OverTheTraversal.

Lemma whole_project_traversal_witness :
  let s := facing [topFoldersAnswer] in
  exists items below s',
    JArr [namedFolder "t1" "Project Files"; namedFolder "t2" "Plans"] = JArr items
    /\ run (getAllProjectFolders demoEnv 2 "b.p1" JUndefined) s
       = Some (Ok (items ++ below), s').
Proof.
  cbv zeta.
  apply (whole_project_traversal demoEnv answersLeft "b.p1" JUndefined
           (facing [topFoldersAnswer]) 2).
  - apply scripted_finite.
  - reflexivity.
  - vm_compute. lia.
Defined.

Lemma findFolderByName_never_throws_witness :
  exists r0 s0 v s',
    (forall fuel, (answersLeft (world (facing treeReplies)) < fuel)%nat ->
       run (getAllProjectFolders demoEnv fuel "p1" (JStr "f1"))
           (searching "p1" "Details" (facing treeReplies)) = Some (r0, s0)
       /\ run (findFolderByName demoEnv fuel "p1" "Details" (JStr "f1"))
              (facing treeReplies) = Some (Ok v, s'))
    /\ v = match r0 with
           | Ok folders => firstNamed "Details" folders
           | Err _ => JNull
           end
    /\ (v = JNull \/ folderNamed "Details" v = Ok true).
Proof.
  apply (findFolderByName_never_throws demoEnv answersLeft "p1" "Details" (JStr "f1")
           (facing treeReplies)).
  apply scripted_finite.
Defined.

(** The lookup in the three-folder project finds the folder inside
    "Drawings". *)
Example lookup_in_the_tree :
  exists s',
    run (findFolderByName demoEnv 4 "p1" "Details" (JStr "f1")) (facing treeReplies)
    = Some (Ok (namedFolder "f4" "Details"), s').
Proof. eexists. vm_compute. reflexivity. Qed.

Lemma listAllFoldersWithIds_entries_witness :
  exists r0 s0 r s',
    (forall fuel, (answersLeft (world (facing [topFoldersAnswer])) < fuel)%nat ->
       run (getAllProjectFolders demoEnv fuel "b.p1" JUndefined)
           (listing (facing [topFoldersAnswer])) = Some (r0, s0)
       /\ run (listAllFoldersWithIds demoEnv fuel "b.p1") (facing [topFoldersAnswer])
          = Some (r, s'))
    /\ match r0 with
       | Ok folders =>
           exists entries,
             r = Ok entries /\ mapResult folderEntry folders = Ok entries
             /\ Forall isEntry entries /\ length entries = length folders
       | Err e => r = Err e /\ e = listingFailed
       end.
Proof.
  apply (listAllFoldersWithIds_entries demoEnv answersLeft "b.p1"
           (facing [topFoldersAnswer])).
  apply scripted_finite.
Defined.
